(* ===== verification/_CoqProject ===== *)
-Q . S2P
Prelude.v
Hoare.v
Timestamps.v
Utf8.v
Model.v
Env.v
Entities.v
Heap.v
Storage.v
Threads.v
Pipeline.v
Transform.v
Cli.v
