(* ===== verification/Prelude.v ===== *)
(** * mmetl (Slack export to Mattermost import): a verification development

    The program reads a Slack export archive and writes a Mattermost bulk
    import file.  The command [transform slack] (src/commands/transform.go)
    checks its paths, opens the archive, has it parsed, and calls
    [Transform] of services/slack/intermediate.go (src/unnamed/part_001),
    which turns users and channels into an intermediate representation,
    fills in the memberships, and then assembles the posts: per channel the
    messages are sorted, every accepted message becomes an
    [IntermediatePost] whose creation time is made unique within the
    channel, and [AddPostToThreads] files it either as a thread root in a
    [ThreadsStorage] or as a reply appended, in place, to a root that the
    storage hands out by pointer.  The storage is in memory or backed by a
    remote cache; src/unnamed/part_000 is the repository's test of the
    latter.

    ** Files (in dependency order) and what each shows

    - [Prelude] (this file): the [result] type and the state-and-error
      monad [M] with its notation (scope [mm_scope]), the loops [for_each]
      and [fold_M], the 64-bit integer model ([wrap64], [incr64]) that
      [CreateAt] lives in, shared tactics, the hint database [mm], and
      generic lemmas on maps and lists.
    - [Hoare]: triples for [M] with a postcondition for normal and one for
      exceptional termination, and their rules; the rule of [fold_M] takes
      an invariant over the elements visited.
    - [Timestamps]: the ledger of one channel.  [free_timestamp] is the
      loop of [AddPostToThreads] (part_001, 298-305) with fuel,
      [avoid_timestamp_duplication] the loop followed by the update of the
      ledger.  Theorems: the loop ends (pigeonhole over the wrapped
      values), the time assigned is fresh and is the least free one when
      no overflow occurs, two posts of the same time are ordered, and at
      the top of [int64] the second wraps below the first.
    - [Utf8]: strings as Go has them (bytes), [[]rune(s)],
      [utf8.RuneCountInString], [string([]rune)], [strings.Trim] and
      [truncateRunes].  Theorems: decoding after encoding is the identity
      on scalar values, every rune decoded is a scalar value, the cuts in
      runes keep the first runes.
    - [Model]: the records of part_001 (20-31, 75-86, 110-121, 129-136,
      663-673) with the source's field names under a prefix, the setters
      that stand for the assignments, [Sanitise] of a post (123-127), the
      input records of the export, the log events and the errors.
    - [Env]: the functions of other packages as a class [Env], what is
      assumed of them as [EnvLaws], and the instance [example_env].
    - [Entities]: [Sanitise] of a user (88-108) and of a channel (38-73) as
      computations on the log.  Theorems: neither panics on a slice, the
      fields end within their limits, and the user's cuts, taken in bytes
      at limits counted in runes, keep less than the limit allows.
    - [Heap]: pointers to posts as locations of a bump-allocated heap,
      [resolve] (a post with its replies, as serialised) and [alloc_tree]
      (the cells of a serialised post).  Theorems: the round trip of
      [alloc_tree] and [resolve], and the frame lemmas of the predicates
      [heap_ok], [flat_thread], [roots_ok] and [unreferenced].
    - [Storage]: the interface [ThreadsStorage] as a class, its contract
      [ThreadsStorageLaws], the in-memory and the cache-backed variant and
      the interface value [Storage], each with its proof of the contract;
      the test of part_000 replayed as [TestRedisStorage], an executable
      check of the model, and its scenarios as theorems on every store.
    - [Threads]: [AddPostToThreads] (289-336) as a map on [ThreadsState],
      composed of [stamp_post], [add_reply] and [add_root], the invariant
      [threads_inv], and the run of a channel as a relation [channel_run]
      whose rounds ([file_post]) make a post and hand it over.  Theorems,
      for every store that satisfies the contract: the function returns
      and preserves the invariant, a root is stored marked, stamped and
      cut, a reply is appended in place or dropped with an error, replies
      are not cut, and by induction on the run the posts of a channel have
      pairwise distinct creation times.  For the in-memory store: a
      message with the timestamp of a stored root takes its place.  Two
      channels run end to end are kept as examples.
    - [Pipeline]: [TransformPosts] (425-661) and its helpers (338-423) as
      computations on a [World] (transformer, log, heap, backend, files).
      Theorems, by the rules of [Hoare]: the method is safe (no nil
      dereference, no endless loop, no error but a refused connection) and
      total without a cache backend; single messages that are left out.
    - [Transform]: [TransformUsers], [filterValidMembers],
      [getOriginalName], [TransformChannels], the two [Populate] methods,
      [TransformAllChannels] (138-287) and [Transform] (675-694).
      Theorems: [Transform] is safe, [TransformUsers] refines the map built
      from the export alone, the channels returned are well formed, what
      becomes of a group conversation that is too big and of a handle
      without valid characters, and what the two [Populate] methods fill
      in; a whole export run end to end is kept as an example.
    - [Cli]: [transformSlackCmdF] and the flags (transform.go, 28-159) on a
      [CliState], with the operating system, the archive reader, the
      parser and the exporter as a class [CliEnv].  Theorems: the command
      is safe and exports nothing when it fails, succeeds when every call
      does, and what it does on an archive without files, on an output
      path that is a directory and with the skip and cache flags.

    ** Conventions

    - A Go [int64] is a [Z] kept in range by [wrap64]; [x++] is [incr64 x].
    - A Go [map[K]V] is a [gmap K V]; a [map[int64]bool] that only ever
      stores [true] and is only tested for key presence is a [gset Z].
    - A Go pointer to a post is a location [loc] of an explicit heap, so
      that in-place mutation through an alias is visible to every holder.
      Users and channels are not shared between containers and are values.
    - A method that mutates its receiver is a computation in [M] on the
      state it touches; an [error] result is [Err], a run-time panic too.
    - Logging is a list of events appended to, so that "reported, not
      fatal" is a statement about the log and the returned state.

    ** Bounds and fuel

    - [free_timestamp] takes fuel [size timestamps]:
      [Timestamps.free_timestamp_is_Some] shows it enough whenever the
      start is an [int64] and the ledger holds fewer than 2^64 stamps,
      which holds of every Go map.
    - [resolve] takes the depth to follow; the threads of the pipeline
      have depth 2 ([Heap.resolve_flat]), and the store serialises with
      the allocation pointer as fuel, which bounds every acyclic graph.
    - The theorems on [TransformPosts], [Transform] and the command assume
      channels of fewer than 2^64 messages, the bound of the ledger.

    ** Not modelled, and what the model assumes

    - The parser of the export, the predicates on messages and the
      exporter are not among the sources: they are fields of [Env] and
      [CliEnv], and so are the operating system, the archive reader, the
      cache server's connection and [sort.Slice].  Each is a function of
      its arguments: the file system does not change between two calls
      (every path is examined once), the parser does not depend on the
      transformer it is a method of, and [Export] either writes the file
      or fails without writing.
    - The two implementations of [ThreadsStorage] are not among the sources
      either; Storage.v models them from their contract and the test, as
      finite maps whose operations cannot fail.
    - [json.Marshal] and [json.Unmarshal] of a post are copies that keep
      every field ([Heap.resolve], [Heap.alloc_tree]): no encoding, no
      replacement of invalid UTF-8, no loss of the types of [Props].
    - A Go map or pointer is never nil here.  [selectOrCreateWorkflowUser]
      writes to [UsersById] (part_001, 421), which panics on a nil map;
      [TransformUsers] sets the map (163) before [Transform] reaches that
      line, and the theorems on [TransformPosts] alone assume a map.  The
      files of a message and the entries of the uploads are values, where
      the source has pointers that it does not test for nil (361-366,
      475-476).  A copy that fails leaves an empty file, where [io.Copy]
      may leave a part of it.
    - Concurrency: the program is sequential.  The order in which Go
      iterates over a map is fixed to that of the list of channels.
    - src/vendor/.../link_metadata_store.go belongs to the Mattermost
      server and is never called by the transformer. *)

From stdpp Require Export gmap strings list numbers.

(** ** Results and the state-and-error monad

    Go functions that return [(T, error)] return a [result]; code that
    threads the transformer state through many calls runs in [M]: the state
    survives an error, as the side effects of a Go function do. *)

Declare Scope mm_scope.
Delimit Scope mm_scope with mm.

Inductive result (E A : Type) : Type :=
  | Ok (a : A)
  | Err (e : E).
Arguments Ok {E A} a.
Arguments Err {E A} e.

Definition is_ok {E A} (r : result E A) : bool :=
  match r with Ok _ => true | Err _ => false end.

Definition M (St E A : Type) : Type := St → result E A * St.

Definition ret {St E A} (a : A) : M St E A := λ s, (Ok a, s).

Definition bind {St E A B} (c : M St E A) (k : A → M St E B) : M St E B :=
  λ s, match c s with
       | (Ok a, s') => k a s'
       | (Err e, s') => (Err e, s')
       end.

Definition get {St E} : M St E St := λ s, (Ok s, s).
Definition put {St E} (s : St) : M St E unit := λ _, (Ok tt, s).
Definition modify {St E} (f : St → St) : M St E unit := λ s, (Ok tt, f s).
Definition throw {St E A} (e : E) : M St E A := λ s, (Err e, s).

Notation "'do' x <- c ; k" := (bind c (λ x, k))
  (at level 10, x name, c at level 100, k at level 200) : mm_scope.
Notation "'do' ' p <- c ; k" := (bind c (λ x, match x with p => k end))
  (at level 10, p pattern, c at level 100, k at level 200) : mm_scope.
Notation "c1 ;; c2" := (bind c1 (λ _, c2))
  (at level 100, c2 at level 200, right associativity) : mm_scope.

(** [for_each f xs]: the body [f] run on every element in order, stopping at
    the first error (a Go [for _, x := range xs] whose body may [return err]). *)
Fixpoint for_each {St E A} (f : A → M St E unit) (xs : list A) : M St E unit :=
  match xs with
  | [] => ret tt
  | x :: xs' => bind (f x) (λ _, for_each f xs')
  end.

(** [fold_M f xs b]: a loop that carries the local variables [b] from one
    iteration to the next. *)
Fixpoint fold_M {St E A B} (f : B → A → M St E B) (xs : list A) (b : B) : M St E B :=
  match xs with
  | [] => ret b
  | x :: xs' => bind (f b x) (fold_M f xs')
  end.

(** ** 64-bit signed integers *)

Definition int64_min : Z := - 2 ^ 63.
Definition int64_max : Z := 2 ^ 63 - 1.
Definition in_int64 (z : Z) : Prop := (int64_min ≤ z ≤ int64_max)%Z.

#[export] Instance in_int64_dec z : Decision (in_int64 z).
Proof. unfold in_int64. apply _. Defined.

(** Two's-complement wrap-around of an arbitrary integer into [int64]. *)
Definition wrap64 (z : Z) : Z := ((z + 2 ^ 63) `mod` 2 ^ 64 - 2 ^ 63)%Z.

(** Go's [x++] on an [int64]. *)
Definition incr64 (z : Z) : Z := wrap64 (z + 1).

(** The values of a finite map, in the map's enumeration order. *)
Definition map_values {K A} `{Countable K} (m : gmap K A) : list A :=
  (map_to_list m).*2.

(** ** Tactics and hints *)

Create HintDb mm discriminated.
Create Rewrite HintDb mm.

(** Unfold the monad on a goal or hypothesis and split the pairs it threads. *)
Ltac unfold_M := unfold bind, ret, get, put, modify, throw in *.

(** Case analysis on the first [match] or [if] scrutinee, keeping the equation. *)
Ltac case_step :=
  first [ case_bool_decide | case_decide | case_match ]; simplify_eq/=.

Ltac case_steps := repeat case_step.

(** Arithmetic side conditions about [int64]. *)
Ltac int64_lia :=
  unfold in_int64, int64_min, int64_max, incr64, wrap64 in *;
  change (2 ^ 63)%Z with 9223372036854775808%Z in *;
  change (2 ^ 64)%Z with 18446744073709551616%Z in *;
  Z.div_mod_to_equations; lia.

(** ** Monad laws *)

Section monad_laws.
Context {St E : Type}.

Lemma bind_ret_l {A B} (a : A) (k : A → M St E B) s : bind (ret a) k s = k a s.
Proof. done. Qed.

Lemma bind_ret_r {A} (c : M St E A) s : bind c ret s = c s.
Proof. unfold bind, ret. by destruct (c s) as [[]]. Qed.

Lemma bind_assoc {A B C} (c : M St E A) (k : A → M St E B) (k' : B → M St E C) s :
  bind (bind c k) k' s = bind c (λ a, bind (k a) k') s.
Proof. unfold bind. by destruct (c s) as [[]]. Qed.

Lemma bind_Ok {A B} (c : M St E A) (k : A → M St E B) s a s' :
  c s = (Ok a, s') → bind c k s = k a s'.
Proof. intros Hc. unfold bind. by rewrite Hc. Qed.

Lemma bind_Err {A B} (c : M St E A) (k : A → M St E B) s e s' :
  c s = (Err e, s') → bind c k s = (Err e, s').
Proof. intros Hc. unfold bind. by rewrite Hc. Qed.

Lemma bind_inv_Ok {A B} (c : M St E A) (k : A → M St E B) s b s2 :
  bind c k s = (Ok b, s2) → ∃ a s1, c s = (Ok a, s1) ∧ k a s1 = (Ok b, s2).
Proof. unfold bind. destruct (c s) as [[a|e] s1]; [eauto|done]. Qed.

Lemma fold_M_app {A B} (f : B → A → M St E B) xs ys b s :
  fold_M f (xs ++ ys) b s = bind (fold_M f xs b) (fold_M f ys) s.
Proof.
  revert b s. induction xs as [|x xs IH]; intros b s; [done|].
  simpl. unfold bind at 1 2 3.
  destruct (f b x s) as [[] s']; [by rewrite IH|done].
Qed.

Lemma for_each_app {A} (f : A → M St E unit) xs ys s :
  for_each f (xs ++ ys) s = bind (for_each f xs) (λ _, for_each f ys) s.
Proof.
  revert s. induction xs as [|x xs IH]; intros s; [done|].
  simpl. unfold bind at 1 2 3.
  destruct (f x s) as [[] s']; [by rewrite IH|done].
Qed.
End monad_laws.

(** ** Integers *)

Lemma wrap64_in_int64 z : in_int64 (wrap64 z).
Proof. int64_lia. Qed.

Lemma wrap64_id z : in_int64 z → wrap64 z = z.
Proof. intros. int64_lia. Qed.

Lemma wrap64_wrap64_add z k : wrap64 (wrap64 z + k) = wrap64 (z + k).
Proof. int64_lia. Qed.

(** Two integers less than 2^64 apart with the same wrap are equal. *)
Lemma wrap64_inj_near x y :
  (Z.abs (x - y) < 2 ^ 64)%Z → wrap64 x = wrap64 y → x = y.
Proof. intros. int64_lia. Qed.

Lemma incr64_no_overflow z : (int64_min ≤ z < int64_max)%Z → incr64 z = (z + 1)%Z.
Proof. intros. int64_lia. Qed.

Lemma incr64_overflow : incr64 int64_max = int64_min.
Proof. reflexivity. Qed.

#[export] Hint Resolve wrap64_in_int64 : mm.
#[export] Hint Rewrite wrap64_wrap64_add : mm.

(** ** Maps and lists *)

Lemma elem_of_map_values {K A} `{Countable K} (m : gmap K A) (x : A) :
  x ∈ map_values m ↔ ∃ k, m !! k = Some x.
Proof.
  unfold map_values. rewrite list_elem_of_fmap. split.
  - intros [[k y] [-> Hin]]. exists k. by apply elem_of_map_to_list.
  - intros [k Hk]. exists (k, x). split; [done|]. by apply elem_of_map_to_list.
Qed.

Lemma length_map_values {K A} `{Countable K} (m : gmap K A) :
  length (map_values m) = size m.
Proof. unfold map_values. by rewrite length_fmap, length_map_to_list. Qed.

Lemma map_values_empty {K A} `{Countable K} : map_values (∅ : gmap K A) = [].
Proof. unfold map_values. by rewrite map_to_list_empty. Qed.

Lemma map_values_insert_fresh {K A} `{Countable K} (m : gmap K A) k x :
  m !! k = None → map_values (<[k:=x]> m) ≡ₚ x :: map_values m.
Proof. intros. unfold map_values. by rewrite map_to_list_insert. Qed.

#[export] Hint Rewrite @length_map_values @map_values_empty : mm.
