(* ===== verification/Hoare.v ===== *)
(** * Triples for the state-and-error monad

    [triple P c Q R]: run from a state that satisfies [P], the computation
    [c] ends either normally with a result and a state related by [Q], or
    with an error and a state related by [R].  Every computation of [M]
    returns, so the triples are total.  The rules are those of a Hoare
    logic with exceptional postconditions; [triple_fold_M] and
    [triple_for_each] are the rules of the loops, with an invariant over
    the elements already visited. *)

From S2P Require Import Prelude.

Definition triple {St E A} (P : St → Prop) (c : M St E A)
    (Q : A → St → Prop) (R : E → St → Prop) : Prop :=
  ∀ s, P s →
    match c s with
    | (Ok a, s') => Q a s'
    | (Err e, s') => R e s'
    end.

Section rules.
Context {St E : Type}.
Implicit Types (P : St → Prop) (R : E → St → Prop).

Lemma triple_conseq {A} P P' (c : M St E A) (Q Q' : A → St → Prop) R R' :
  triple P' c Q' R' →
  (∀ s, P s → P' s) → (∀ a s, Q' a s → Q a s) → (∀ e s, R' e s → R e s) →
  triple P c Q R.
Proof.
  intros Hc HP HQ HR s Hs. specialize (Hc s (HP s Hs)).
  destruct (c s) as [[a|e] s']; auto.
Qed.

Lemma triple_pre {A} P P' (c : M St E A) (Q : A → St → Prop) R :
  triple P' c Q R → (∀ s, P s → P' s) → triple P c Q R.
Proof. intros. eapply triple_conseq; eauto. Qed.

Lemma triple_post {A} P (c : M St E A) (Q Q' : A → St → Prop) R :
  triple P c Q' R → (∀ a s, Q' a s → Q a s) → triple P c Q R.
Proof. intros. eapply triple_conseq; eauto. Qed.

(** A fact that does not depend on the state can be assumed. *)
Lemma triple_assume {A} (φ : Prop) P (c : M St E A) (Q : A → St → Prop) R :
  (φ → triple P c Q R) → triple (λ s, φ ∧ P s) c Q R.
Proof. intros Hc s [Hφ Hs]. by apply Hc. Qed.

Lemma triple_ret {A} (a : A) (Q : A → St → Prop) R : triple (Q a) (ret a) Q R.
Proof. by intros s Hs. Qed.

Lemma triple_ret_pre {A} P (a : A) (Q : A → St → Prop) R :
  (∀ s, P s → Q a s) → triple P (ret a) Q R.
Proof. intros HP s Hs. by apply HP. Qed.

Lemma triple_bind {A B} P (c : M St E A) (k : A → M St E B) (Q : A → St → Prop)
    (Q' : B → St → Prop) R :
  triple P c Q R → (∀ a, triple (Q a) (k a) Q' R) → triple P (bind c k) Q' R.
Proof.
  intros Hc Hk s Hs. specialize (Hc s Hs). unfold bind.
  destruct (c s) as [[a|e] s']; [by apply Hk|done].
Qed.

Lemma triple_get P R : triple P get (λ a s, a = s ∧ P s) R.
Proof. by intros s Hs. Qed.

Lemma triple_modify (f : St → St) (Q : unit → St → Prop) R :
  triple (λ s, Q tt (f s)) (modify f) Q R.
Proof. by intros s Hs. Qed.

Lemma triple_throw {A} (e : E) (Q : A → St → Prop) R : triple (R e) (throw e) Q R.
Proof. by intros s Hs. Qed.

(** The rule of [fold_M]: the invariant speaks of the elements visited so
    far and of the locals; the body may rely on the element being one of
    the list. *)
Lemma triple_fold_M {A B} (Inv : list A → B → St → Prop) (f : B → A → M St E B) R xs b :
  (∀ visited x rest b, xs = visited ++ x :: rest →
     triple (Inv visited b) (f b x) (Inv (visited ++ [x])) R) →
  triple (Inv [] b) (fold_M f xs b) (Inv xs) R.
Proof.
  intros Hbody.
  assert (∀ rest visited b, xs = visited ++ rest →
            triple (Inv visited b) (fold_M f rest b) (Inv xs) R) as Hgen; [|by apply Hgen].
  induction rest as [|x rest IH]; intros visited b' Hxs; simpl.
  - subst xs. rewrite app_nil_r. apply triple_ret.
  - eapply triple_bind; [by eapply Hbody|].
    intros b''. apply IH. by rewrite <-app_assoc.
Qed.

Lemma triple_for_each {A} (Inv : list A → St → Prop) (f : A → M St E unit) R xs :
  (∀ visited x rest, xs = visited ++ x :: rest →
     triple (Inv visited) (f x) (λ _, Inv (visited ++ [x])) R) →
  triple (Inv []) (for_each f xs) (λ _, Inv xs) R.
Proof.
  intros Hbody.
  assert (∀ rest visited, xs = visited ++ rest →
            triple (Inv visited) (for_each f rest) (λ _, Inv xs) R) as Hgen; [|by apply Hgen].
  induction rest as [|x rest IH]; intros visited Hxs; simpl.
  - subst xs. rewrite app_nil_r. apply (triple_ret tt (λ _, Inv visited)).
  - eapply triple_bind; [by eapply Hbody|].
    intros []. apply IH. by rewrite <-app_assoc.
Qed.

(** A loop whose body keeps a predicate keeps it. *)
Lemma triple_for_each_inv {A} P (f : A → M St E unit) R xs :
  (∀ x, triple P (f x) (λ _, P) R) → triple P (for_each f xs) (λ _, P) R.
Proof. intros Hf. apply (triple_for_each (λ _, P)). auto. Qed.

(** What a triple says of one run. *)
Lemma triple_run {A} P (c : M St E A) (Q : A → St → Prop) R s a s' :
  triple P c Q R → P s → c s = (Ok a, s') → Q a s'.
Proof. intros Hc Hs Heq. specialize (Hc s Hs). by rewrite Heq in Hc. Qed.

Lemma triple_run_Err {A} P (c : M St E A) (Q : A → St → Prop) R s e s' :
  triple P c Q R → P s → c s = (Err e, s') → R e s'.
Proof. intros Hc Hs Heq. specialize (Hc s Hs). by rewrite Heq in Hc. Qed.
End rules.

#[export] Hint Resolve triple_ret triple_modify triple_throw : mm.
