(* ===== verification/Timestamps.v ===== *)
(** * The timestamp ledger of one channel

    [AddPostToThreads] (src/unnamed/part_001, lines 298-306) makes the
    creation time of every post unique within its channel: while the time is
    already a key of [timestamps] it is incremented, then it is recorded.
    [timestamps] is a [map[int64]bool] that only ever receives [true] and is
    only tested for key presence, hence a [gset Z] here.  [CreateAt] is an
    [int64], so the increment wraps ([incr64]).

    The loop has no bound in the source; [free_timestamp] takes fuel and
    [avoid_timestamp_duplication] supplies [size timestamps], which
    [free_timestamp_is_Some] proves sufficient. *)

From S2P Require Import Prelude.

#[local] Open Scope Z_scope.

(** The loop: "if the timestamp hasn't been used already, break and use";
    otherwise [post.CreateAt++] and try again. *)
Fixpoint free_timestamp (fuel : nat) (timestamps : gset Z) (createAt : Z) : option Z :=
  if decide (createAt ∈ timestamps) then
    match fuel with
    | O => None
    | S fuel' => free_timestamp fuel' timestamps (incr64 createAt)
    end
  else Some createAt.

(** The loop followed by [timestamps[post.CreateAt] = true]: the time
    assigned to the post and the updated ledger. *)
Definition avoid_timestamp_duplication (timestamps : gset Z) (createAt : Z)
    : option (Z * gset Z) :=
  match free_timestamp (size timestamps) timestamps createAt with
  | Some c => Some (c, {[c]} ∪ timestamps)
  | None => None
  end.

(** Every stamp of the ledger is an [int64]. *)
Definition ledger_ok (timestamps : gset Z) : Prop :=
  ∀ c, c ∈ timestamps → in_int64 c.

(** The [k]-th value the loop inspects, starting from [createAt]. *)
Definition probe (createAt : Z) (k : Z) : Z := wrap64 (createAt + k).

Section free_timestamp.
Implicit Types (timestamps : gset Z) (c : Z) (fuel : nat).

Lemma probe_0 c : in_int64 c → probe c 0 = c.
Proof. intros. unfold probe. rewrite Z.add_0_r. by apply wrap64_id. Qed.

Lemma probe_incr64 c k : probe (incr64 c) k = probe c (k + 1).
Proof.
  unfold probe, incr64. rewrite wrap64_wrap64_add. f_equal. lia.
Qed.

Lemma probe_inj c j k :
  0 ≤ j < 2 ^ 64 → 0 ≤ k < 2 ^ 64 → probe c j = probe c k → j = k.
Proof.
  intros ?? Heq. apply wrap64_inj_near in Heq; lia.
Qed.

Lemma probe_no_overflow c k :
  in_int64 c → 0 ≤ k → c + k ≤ int64_max → probe c k = c + k.
Proof. intros. apply wrap64_id. int64_lia. Qed.

(** What the loop computes: it stops at the first probe that is not in
    the ledger, or runs out of fuel when the first [fuel + 1] probes are
    all taken. *)
Lemma free_timestamp_Some fuel timestamps c c' :
  in_int64 c →
  free_timestamp fuel timestamps c = Some c' →
  ∃ k, 0 ≤ k ≤ Z.of_nat fuel ∧ c' = probe c k ∧ (c' ∉ timestamps) ∧
       ∀ j, 0 ≤ j < k → probe c j ∈ timestamps.
Proof.
  revert c. induction fuel as [|fuel IH]; intros c Hc; simpl;
    destruct (decide (c ∈ timestamps)) as [Hin|Hout]; intros ?; simplify_eq.
  - exists 0. rewrite probe_0 by done. split_and!; [lia..|done|lia].
  - destruct (IH (incr64 c)) as (k & ? & -> & ? & Hlt); [apply wrap64_in_int64|done|].
    exists (k + 1). rewrite <-probe_incr64. split_and!; [lia..|done|].
    intros j ?. destruct (decide (j = 0)) as [->|]; [by rewrite probe_0|].
    replace j with (j - 1 + 1) by lia. rewrite <-probe_incr64. apply Hlt. lia.
  - exists 0. rewrite probe_0 by done. split_and!; [lia..|done|lia].
Qed.

Lemma free_timestamp_None fuel timestamps c :
  in_int64 c →
  free_timestamp fuel timestamps c = None →
  ∀ k, 0 ≤ k ≤ Z.of_nat fuel → probe c k ∈ timestamps.
Proof.
  revert c. induction fuel as [|fuel IH]; intros c Hc; simpl;
    destruct (decide (c ∈ timestamps)) as [Hin|Hout]; intros ? k ?; simplify_eq.
  - replace k with 0 by lia. by rewrite probe_0.
  - destruct (decide (k = 0)) as [->|]; [by rewrite probe_0|].
    replace k with (k - 1 + 1) by lia. rewrite <-probe_incr64.
    apply IH; [apply wrap64_in_int64|done|lia].
Qed.

(** Pigeonhole: [n] distinct probes cannot all lie in a smaller ledger. *)
Lemma probes_exceed_ledger timestamps c (n : nat) :
  Z.of_nat n ≤ 2 ^ 64 →
  (∀ k, 0 ≤ k < Z.of_nat n → probe c k ∈ timestamps) →
  (n ≤ size timestamps)%nat.
Proof.
  intros Hn Hall. set (l := probe c <$> seqZ 0 (Z.of_nat n)).
  assert (NoDup l) as Hnd.
  { apply NoDup_fmap_2_strong; [|apply NoDup_seqZ].
    intros j k [??]%elem_of_seqZ [??]%elem_of_seqZ. apply probe_inj; lia. }
  assert (length l = n) as Hlen by (unfold l; rewrite length_fmap, length_seqZ; lia).
  rewrite <-Hlen, <-(size_list_to_set (C:=gset Z) l) by done.
  apply subseteq_size. intros x [k [-> [??]%elem_of_seqZ]]%elem_of_list_to_set%list_elem_of_fmap.
  apply Hall. lia.
Qed.

Lemma free_timestamp_is_Some timestamps c :
  in_int64 c →
  Z.of_nat (size timestamps) < 2 ^ 64 →
  is_Some (free_timestamp (size timestamps) timestamps c).
Proof.
  intros Hc Hsz.
  destruct (free_timestamp _ _ _) eqn:Hnone; [by eexists|exfalso].
  pose proof (free_timestamp_None _ _ _ Hc Hnone) as Hall.
  opose proof* (probes_exceed_ledger timestamps c (S (size timestamps))) as Hle;
    [lia| |lia].
  intros k ?. apply Hall. lia.
Qed.
End free_timestamp.

Lemma free_timestamp_not_elem fuel timestamps c c' :
  free_timestamp fuel timestamps c = Some c' → c' ∉ timestamps.
Proof.
  revert c. induction fuel as [|n IH]; intros c; simpl;
    destruct (decide (c ∈ timestamps)); intros; simplify_eq; eauto.
Qed.

Lemma avoid_timestamp_duplication_Some timestamps ts' createAt c :
  avoid_timestamp_duplication timestamps createAt = Some (c, ts') →
  free_timestamp (size timestamps) timestamps createAt = Some c ∧
  (c ∉ timestamps) ∧ ts' = {[c]} ∪ timestamps.
Proof.
  unfold avoid_timestamp_duplication. intros Heq.
  destruct (free_timestamp _ _ _) as [c0|] eqn:Hfree; simplify_eq.
  eauto using free_timestamp_not_elem.
Qed.

(** C11. The de-duplication loop terminates: started from an [int64] on a
    ledger of fewer than 2^64 stamps it assigns a time, overflow of
    [CreateAt] included, and records it in the ledger. *)
Theorem avoid_timestamp_duplication_terminates (timestamps : gset Z) (createAt : Z) :
  in_int64 createAt →
  Z.of_nat (size timestamps) < 2 ^ 64 →
  ∃ c, avoid_timestamp_duplication timestamps createAt = Some (c, {[c]} ∪ timestamps) ∧
       in_int64 c.
Proof.
  intros Hc Hsize. unfold avoid_timestamp_duplication.
  destruct (free_timestamp_is_Some timestamps createAt Hc Hsize) as [c Hfree].
  rewrite Hfree. exists c. split; [done|].
  destruct (free_timestamp_Some _ _ _ _ Hc Hfree) as (k & _ & -> & _).
  apply wrap64_in_int64.
Qed.

Lemma avoid_timestamp_duplication_terminates_witness :
  ∃ c, avoid_timestamp_duplication {[10; 11]} 10 = Some (c, {[c]} ∪ {[10; 11]}) ∧
       in_int64 c.
Proof.
  apply avoid_timestamp_duplication_terminates;
    [vm_compute; split; discriminate|vm_compute; reflexivity].
Defined.

(** C12. The time assigned to a post is not in the ledger beforehand and is in
    it afterwards; the ledger grows by exactly that one stamp. *)
Theorem avoid_timestamp_duplication_fresh (timestamps ts' : gset Z) (createAt c : Z) :
  avoid_timestamp_duplication timestamps createAt = Some (c, ts') →
  (c ∉ timestamps) ∧ c ∈ ts' ∧ timestamps ⊆ ts' ∧ size ts' = S (size timestamps).
Proof.
  intros (_ & Hout & ->)%avoid_timestamp_duplication_Some.
  split_and!; [done|set_solver..|].
  rewrite size_union, size_singleton by set_solver. done.
Qed.

Lemma avoid_timestamp_duplication_fresh_witness :
  ((12 : Z) ∉ ({[10; 11]} : gset Z)) ∧ (12 : Z) ∈ ({[12; 10; 11]} : gset Z) ∧
  ({[10; 11]} : gset Z) ⊆ {[12; 10; 11]} ∧
  size ({[12; 10; 11]} : gset Z) = S (size ({[10; 11]} : gset Z)).
Proof.
  apply (avoid_timestamp_duplication_fresh {[10; 11]} {[12; 10; 11]} 10 12).
  vm_compute. reflexivity.
Defined.

(** Without overflow the loop stops at the least free time at or after
    the one it starts from. *)
Lemma free_timestamp_no_overflow fuel timestamps createAt c :
  in_int64 createAt →
  createAt + Z.of_nat fuel ≤ int64_max →
  free_timestamp fuel timestamps createAt = Some c →
  createAt ≤ c ≤ createAt + Z.of_nat fuel ∧ (c ∉ timestamps) ∧
  ∀ x, createAt ≤ x < c → x ∈ timestamps.
Proof.
  intros Hc Hmax Hfree.
  destruct (free_timestamp_Some _ _ _ _ Hc Hfree) as (k & ? & -> & ? & Hlt).
  rewrite probe_no_overflow in * by (done || lia).
  split_and!; [lia..|done|].
  intros x ?. replace x with (createAt + (x - createAt)) by lia.
  rewrite <-probe_no_overflow by (done || lia). apply Hlt. lia.
Qed.

(** Two posts of the same time, one after the other: the second is moved
    past the first. *)
Lemma avoid_timestamp_duplication_twice timestamps createAt c1 ts1 c2 ts2 :
  in_int64 createAt →
  createAt + Z.of_nat (size timestamps) + 1 ≤ int64_max →
  avoid_timestamp_duplication timestamps createAt = Some (c1, ts1) →
  avoid_timestamp_duplication ts1 createAt = Some (c2, ts2) →
  createAt ≤ c1 < c2 ∧ (c1 ∉ timestamps) ∧ (c2 ∉ timestamps) ∧
  ts2 = {[c2]} ∪ ({[c1]} ∪ timestamps).
Proof.
  intros Hc Hmax (Hf1 & Hc1 & ->)%avoid_timestamp_duplication_Some
    (Hf2 & Hc2 & ->)%avoid_timestamp_duplication_Some.
  rewrite size_union, size_singleton in Hf2 by set_solver.
  apply free_timestamp_no_overflow in Hf1 as (? & _ & Hlt1); [|done|lia].
  apply free_timestamp_no_overflow in Hf2 as (? & _ & _); [|done|lia].
  apply not_elem_of_union in Hc2 as [Hne%not_elem_of_singleton Hc2].
  split_and!; [lia| |done..].
  destruct (decide (c2 < c1)); [|lia]. destruct Hc2. apply Hlt1. lia.
Qed.

(** C35. Without overflow the assigned time is the least free time at or
    after the original one: every time in between is taken, and the shift
    is at most the number of stamps in the ledger. *)
Theorem free_timestamp_least (timestamps : gset Z) (createAt : Z) :
  in_int64 createAt →
  createAt + Z.of_nat (size timestamps) ≤ int64_max →
  ∃ c, free_timestamp (size timestamps) timestamps createAt = Some c ∧
       createAt ≤ c ≤ createAt + Z.of_nat (size timestamps) ∧
       (c ∉ timestamps) ∧
       ∀ x, createAt ≤ x < c → x ∈ timestamps.
Proof.
  intros Hc Hmax.
  destruct (free_timestamp_is_Some timestamps createAt) as [c Hfree];
    [done|int64_lia|].
  exists c. split; [done|]. by eapply free_timestamp_no_overflow.
Qed.

Lemma free_timestamp_least_witness :
  ∃ c, free_timestamp (size ({[10; 11]} : gset Z)) {[10; 11]} 10 = Some c ∧
       10 ≤ c ≤ 10 + Z.of_nat (size ({[10; 11]} : gset Z)) ∧
       (c ∉ ({[10; 11]} : gset Z)) ∧
       ∀ x, 10 ≤ x < c → x ∈ ({[10; 11]} : gset Z).
Proof.
  apply (free_timestamp_least {[10; 11]} 10);
    [vm_compute; split; discriminate|vm_compute; discriminate].
Defined.

(** A time that is not in the ledger is kept as it is, whatever the fuel. *)
Lemma free_timestamp_unused (fuel : nat) (timestamps : gset Z) (createAt : Z) :
  createAt ∉ timestamps → free_timestamp fuel timestamps createAt = Some createAt.
Proof. intros. destruct fuel; simpl; by rewrite decide_False. Qed.

(** C13. Two posts of a channel with the same time: without overflow both
    get times that the ledger did not hold, the first strictly less than
    the second, and the ledger records both. *)
Theorem avoid_timestamp_duplication_ordered (timestamps ts1 ts2 : gset Z)
    (createAt c1 c2 : Z) :
  in_int64 createAt →
  createAt + Z.of_nat (size timestamps) + 1 ≤ int64_max →
  avoid_timestamp_duplication timestamps createAt = Some (c1, ts1) →
  avoid_timestamp_duplication ts1 createAt = Some (c2, ts2) →
  createAt ≤ c1 < c2 ∧ (c1 ∉ timestamps) ∧ (c2 ∉ timestamps) ∧
  ts2 = {[c2]} ∪ ({[c1]} ∪ timestamps).
Proof. apply avoid_timestamp_duplication_twice. Qed.

Lemma avoid_timestamp_duplication_ordered_witness :
  10 ≤ 12 < 13 ∧ (12 ∉ ({[10; 11]} : gset Z)) ∧ (13 ∉ ({[10; 11]} : gset Z)) ∧
  ({[13; 12; 10; 11]} : gset Z) = {[13]} ∪ ({[12]} ∪ {[10; 11]}).
Proof.
  apply (avoid_timestamp_duplication_ordered {[10; 11]} {[12; 10; 11]} {[13; 12; 10; 11]}
           10 12 13);
    [vm_compute; split; discriminate|vm_compute; discriminate|vm_compute; reflexivity..].
Defined.

(** At the top of the range the increment wraps, as Go's [int64] does. *)
Lemma incr64_max : incr64 int64_max = int64_min.
Proof. by vm_compute. Qed.

(** A post at the maximal time whose time is taken is moved to the
    minimal one when that is free. *)
Lemma free_timestamp_max fuel timestamps :
  int64_max ∈ timestamps → int64_min ∉ timestamps →
  free_timestamp (S fuel) timestamps int64_max = Some int64_min.
Proof.
  intros Hmax Hmin. cbn [free_timestamp]. rewrite decide_True, incr64_max by done.
  by apply free_timestamp_unused.
Qed.

(** C36. At the top of the [int64] range the de-duplication wraps: of two
    posts of a channel at the maximal time, on a ledger that holds neither
    the maximal nor the minimal time, the first keeps the maximal time and
    the second gets the minimal one, which is less than the first's. *)
Theorem avoid_timestamp_duplication_wraps (timestamps : gset Z) :
  int64_max ∉ timestamps → int64_min ∉ timestamps →
  avoid_timestamp_duplication timestamps int64_max
    = Some (int64_max, {[int64_max]} ∪ timestamps) ∧
  avoid_timestamp_duplication ({[int64_max]} ∪ timestamps) int64_max
    = Some (int64_min, {[int64_min]} ∪ ({[int64_max]} ∪ timestamps)) ∧
  int64_min < int64_max.
Proof.
  intros Hmax Hmin. unfold avoid_timestamp_duplication. split_and!; [| |done].
  - by rewrite free_timestamp_unused.
  - rewrite size_union, size_singleton by set_solver.
    rewrite free_timestamp_max; [done|set_solver|].
    apply not_elem_of_union. split; [|done]. by apply not_elem_of_singleton.
Qed.

Lemma avoid_timestamp_duplication_wraps_witness :
  avoid_timestamp_duplication {[10]} int64_max = Some (int64_max, {[int64_max]} ∪ {[10]}) ∧
  avoid_timestamp_duplication ({[int64_max]} ∪ {[10]}) int64_max
    = Some (int64_min, {[int64_min]} ∪ ({[int64_max]} ∪ {[10]})) ∧
  int64_min < int64_max.
Proof.
  apply (avoid_timestamp_duplication_wraps {[10]}); by apply not_elem_of_singleton.
Defined.

(** The ledger stays within [int64]. *)
Lemma avoid_timestamp_duplication_ledger_ok timestamps ts' createAt c :
  in_int64 createAt → ledger_ok timestamps →
  avoid_timestamp_duplication timestamps createAt = Some (c, ts') →
  in_int64 c ∧ ledger_ok ts'.
Proof.
  unfold avoid_timestamp_duplication. intros Hc Hok Heq.
  destruct (free_timestamp _ _ _) as [c0|] eqn:Hfree; simplify_eq.
  destruct (free_timestamp_Some _ _ _ _ Hc Hfree) as (k & _ & -> & _).
  split; [apply wrap64_in_int64|].
  intros x [->%elem_of_singleton|?]%elem_of_union; [apply wrap64_in_int64|by apply Hok].
Qed.

#[export] Hint Resolve avoid_timestamp_duplication_ledger_ok : mm.
