(* ===== verification/Utf8.v ===== *)
(** * Runes of a Go string

    The sanitisers of src/unnamed/part_001 measure strings with
    [utf8.RuneCountInString] and cut them with [string([]rune(s)[:n])].  A Go
    string is a sequence of bytes, here a [string] whose characters are the
    bytes; this file models the two conversions of the Go runtime that the
    sanitisers rely on: [runes] is [[]rune(s)] (every byte that does not
    start a well-formed encoding becomes U+FFFD and is skipped alone) and
    [string_of_runes] is [string(rs)] (every rune that is not a Unicode
    scalar value is encoded as U+FFFD).  The bit masks and shifts of the
    runtime are written with division and remainder by powers of 64. *)

From Stdlib Require Import Ascii.
From S2P Require Import Prelude.

#[local] Open Scope Z_scope.

Definition byte_of (a : ascii) : Z := Z.of_N (N_of_ascii a).
Definition ascii_of (b : Z) : ascii := ascii_of_N (Z.to_N b).

Definition RuneError : Z := 65533.
Definition MaxRune : Z := 1114111.

(** What the first byte of an encoding announces: a one-byte rune, an
    invalid byte, or a sequence of [width] bytes whose second byte lies in
    [lo..hi]. *)
Inductive first_byte : Type :=
  | FAscii
  | FInvalid
  | FLead (width : nat) (lo hi : Z).

Definition first (b0 : Z) : first_byte :=
  if b0 <? 128 then FAscii
  else if b0 <? 194 then FInvalid
  else if b0 <? 224 then FLead 2 128 191
  else if b0 =? 224 then FLead 3 160 191
  else if b0 =? 237 then FLead 3 128 159
  else if b0 <? 240 then FLead 3 128 191
  else if b0 =? 240 then FLead 4 144 191
  else if b0 <? 244 then FLead 4 128 191
  else if b0 =? 244 then FLead 4 128 143
  else FInvalid.

Definition in_range (lo hi b : Z) : bool := (lo <=? b) && (b <=? hi).
Definition is_cont (b : Z) : bool := in_range 128 191 b.

(** One decoding step of [[]rune(s)] on the string [String a0 s1]: the rune
    and the bytes left. *)
Definition decode_rune (a0 : ascii) (s1 : string) : Z * string :=
  let b0 := byte_of a0 in
  match first b0, s1 with
  | FAscii, _ => (b0, s1)
  | FLead 2 lo hi, String a1 s2 =>
    let b1 := byte_of a1 in
    if in_range lo hi b1
    then ((b0 - 192) * 64 + (b1 - 128), s2)
    else (RuneError, s1)
  | FLead 3 lo hi, String a1 (String a2 s3) =>
    let b1 := byte_of a1 in
    let b2 := byte_of a2 in
    if in_range lo hi b1 && is_cont b2
    then ((b0 - 224) * 4096 + (b1 - 128) * 64 + (b2 - 128), s3)
    else (RuneError, s1)
  | FLead 4 lo hi, String a1 (String a2 (String a3 s4)) =>
    let b1 := byte_of a1 in
    let b2 := byte_of a2 in
    let b3 := byte_of a3 in
    if in_range lo hi b1 && is_cont b2 && is_cont b3
    then ((b0 - 240) * 262144 + (b1 - 128) * 4096 + (b2 - 128) * 64 + (b3 - 128), s4)
    else (RuneError, s1)
  | _, _ => (RuneError, s1)
  end.

(** [[]rune(s)] *)
Fixpoint runes (s : string) : list Z :=
  match s with
  | EmptyString => []
  | String a0 s1 =>
    let b0 := byte_of a0 in
    match first b0, s1 with
    | FAscii, _ => b0 :: runes s1
    | FLead 2 lo hi, String a1 s2 =>
      let b1 := byte_of a1 in
      if in_range lo hi b1
      then ((b0 - 192) * 64 + (b1 - 128)) :: runes s2
      else RuneError :: runes s1
    | FLead 3 lo hi, String a1 (String a2 s3) =>
      let b1 := byte_of a1 in
      let b2 := byte_of a2 in
      if in_range lo hi b1 && is_cont b2
      then ((b0 - 224) * 4096 + (b1 - 128) * 64 + (b2 - 128)) :: runes s3
      else RuneError :: runes s1
    | FLead 4 lo hi, String a1 (String a2 (String a3 s4)) =>
      let b1 := byte_of a1 in
      let b2 := byte_of a2 in
      let b3 := byte_of a3 in
      if in_range lo hi b1 && is_cont b2 && is_cont b3
      then ((b0 - 240) * 262144 + (b1 - 128) * 4096 + (b2 - 128) * 64 + (b3 - 128))
             :: runes s4
      else RuneError :: runes s1
    | _, _ => RuneError :: runes s1
    end
  end.

(** [utf8.RuneCountInString(s)] *)
Definition RuneCountInString (s : string) : nat := length (runes s).

Definition is_scalar (r : Z) : bool :=
  (0 <=? r) && (r <=? MaxRune) && negb ((55296 <=? r) && (r <=? 57343)).

Definition string_of_bytes (bs : list Z) : string :=
  foldr (λ b s, String (ascii_of b) s) EmptyString bs.

Definition encode_bytes (r : Z) : list Z :=
  if negb (is_scalar r) then [239; 191; 189]
  else if r <? 128 then [r]
  else if r <? 2048 then [192 + r / 64; 128 + r `mod` 64]
  else if r <? 65536 then [224 + r / 4096; 128 + (r / 64) `mod` 64; 128 + r `mod` 64]
  else [240 + r / 262144; 128 + (r / 4096) `mod` 64; 128 + (r / 64) `mod` 64;
        128 + r `mod` 64].

(** [string(rs)] for [rs []rune] *)
Definition string_of_runes (rs : list Z) : string :=
  string_of_bytes (rs ≫= encode_bytes).

(** [string([]rune(s)[:n])], for [n] at most the rune count of [s] *)
Definition first_runes (n : nat) (s : string) : string :=
  string_of_runes (take n (runes s)).

(** [s[0:n]] on the bytes of a string, for [n] at most its length. *)
Fixpoint byte_take (n : nat) (s : string) : string :=
  match n, s with
  | S n', String a s' => String a (byte_take n' s')
  | _, _ => EmptyString
  end.

(** [strings.Trim(s, cutset)] for a cutset of ASCII characters: the bytes
    of the cutset are dropped from both ends. *)
Definition in_cutset (cutset : string) (a : ascii) : bool :=
  bool_decide (a ∈ String.list_ascii_of_string cutset).

Fixpoint trim_left (cutset s : string) : string :=
  match s with
  | String a s' => if in_cutset cutset a then trim_left cutset s' else s
  | EmptyString => EmptyString
  end.

Definition strings_Trim (s cutset : string) : string :=
  String.rev (trim_left cutset (String.rev (trim_left cutset s))).

(** [truncateRunes(s, i)] of the package: the first [i] runes of a longer
    string. *)
Definition truncateRunes (s : string) (i : nat) : string :=
  if decide (i < length (runes s))%nat then string_of_runes (take i (runes s)) else s.

(** A string of one-byte runes only. *)
Fixpoint is_ascii_string (s : string) : bool :=
  match s with
  | EmptyString => true
  | String a s' => (byte_of a <? 128) && is_ascii_string s'
  end.

Section runes.
Implicit Types (s : string) (a : ascii) (b r : Z).

Lemma byte_of_range a : 0 ≤ byte_of a < 256.
Proof. unfold byte_of. pose proof (N_ascii_bounded a). lia. Qed.

Lemma ascii_of_byte_of a : ascii_of (byte_of a) = a.
Proof. unfold ascii_of, byte_of. by rewrite N2Z.id, ascii_N_embedding. Qed.

Lemma byte_of_ascii_of b : 0 ≤ b < 256 → byte_of (ascii_of b) = b.
Proof. intros. unfold ascii_of, byte_of. rewrite N_ascii_embedding; lia. Qed.

Lemma first_ascii b : b < 128 → first b = FAscii.
Proof. intros. unfold first. by rewrite (proj2 (Z.ltb_lt _ _)). Qed.

(** [runes] decodes one rune and continues on what [decode_rune] leaves. *)
Lemma runes_cons a0 s1 :
  runes (String a0 s1) = (decode_rune a0 s1).1 :: runes (decode_rune a0 s1).2.
Proof.
  unfold decode_rune. cbn [runes]. generalize (first (byte_of a0)).
  intros [| |[|[|[|[|[|w]]]]] lo hi]; try reflexivity;
    destruct s1 as [|a1 [|a2 [|a3 s4]]]; try reflexivity; cbn zeta.
  all: match goal with |- (if ?c then _ else _) = _ => by destruct c end.
Qed.

(** Every rune consumes at least one byte. *)
Lemma decode_rune_rest a0 s1 :
  (String.length (decode_rune a0 s1).2 ≤ String.length s1)%nat.
Proof.
  unfold decode_rune. generalize (first (byte_of a0)).
  intros [| |[|[|[|[|[|w]]]]] lo hi]; try reflexivity;
    destruct s1 as [|a1 [|a2 [|a3 s4]]]; try reflexivity; cbn zeta.
  all: match goal with |- context [if ?c then _ else _] => destruct c end.
  all: cbn [snd String.length]; lia.
Qed.

Lemma runes_length_le_aux (n : nat) s :
  (String.length s ≤ n)%nat → (length (runes s) ≤ String.length s)%nat.
Proof.
  revert s. induction n as [|n IH]; intros [|a0 s1] Hn; simpl in Hn; try (simpl; lia).
  rewrite runes_cons. pose proof (decode_rune_rest a0 s1).
  opose proof* (IH (decode_rune a0 s1).2); [lia|]. simpl. lia.
Qed.

Lemma RuneCountInString_le_length s : (RuneCountInString s ≤ String.length s)%nat.
Proof. by apply (runes_length_le_aux (String.length s)). Qed.

Lemma runes_ascii s : is_ascii_string s = true → runes s = byte_of <$> String.list_ascii_of_string s.
Proof.
  induction s as [|a s IH]; [done|]. simpl.
  intros [Ha Hs]%andb_prop. apply Z.ltb_lt in Ha.
  rewrite first_ascii by done. f_equal. by apply IH.
Qed.

Lemma RuneCountInString_ascii s :
  is_ascii_string s = true → RuneCountInString s = String.length s.
Proof.
  intros Hs. unfold RuneCountInString. rewrite runes_ascii by done.
  rewrite length_fmap. clear Hs. induction s; simpl; congruence.
Qed.

Lemma length_append s1 s2 :
  String.length (s1 +:+ s2) = (String.length s1 + String.length s2)%nat.
Proof.
  induction s1 as [|a s1 IH]; [done|].
  change (String a s1 +:+ s2) with (String a (s1 +:+ s2)). simpl. by rewrite IH.
Qed.

Lemma length_byte_take n s : String.length (byte_take n s) = (n `min` String.length s)%nat.
Proof. revert s. induction n as [|n IH]; intros [|a s]; simpl; auto. Qed.

Lemma byte_take_all n s : (String.length s ≤ n)%nat → byte_take n s = s.
Proof.
  revert s. induction n as [|n IH]; intros [|a s]; simpl; try done; [lia|].
  intros. f_equal. apply IH. lia.
Qed.

Lemma RuneCountInString_byte_take n s : (RuneCountInString (byte_take n s) ≤ n)%nat.
Proof.
  etrans; [apply RuneCountInString_le_length|]. rewrite length_byte_take. lia.
Qed.

Lemma length_first_runes_runes n s : (length (take n (runes s)) ≤ n)%nat.
Proof. rewrite length_take. lia. Qed.
End runes.

#[export] Hint Resolve RuneCountInString_le_length : mm.

(** ** Encoding and decoding

    [string(rs)] followed by [[]rune(s)] gives the runes back, as far as
    they are scalar values; the runes of any string are scalar values. *)

(** Decide the comparisons of the goal one at a time, closing the branch
    that arithmetic refutes. *)
Ltac z_tests :=
  repeat match goal with
    | |- context [?a =? ?b] =>
      destruct (Z.eqb_spec a b); try (exfalso; Z.div_mod_to_equations; lia)
    | |- context [?a <? ?b] =>
      destruct (Z.ltb_spec a b); try (exfalso; Z.div_mod_to_equations; lia)
    | |- context [?a <=? ?b] =>
      destruct (Z.leb_spec a b); try (exfalso; Z.div_mod_to_equations; lia)
    end.

Section round_trip.
Implicit Types (s : string) (r b : Z) (rs bs : list Z).

Lemma first_2 b : 194 ≤ b < 224 → first b = FLead 2 128 191.
Proof. intros. unfold first. by z_tests. Qed.

Lemma first_3 b :
  224 ≤ b < 240 →
  first b = FLead 3 (if b =? 224 then 160 else 128) (if b =? 237 then 159 else 191).
Proof. intros. unfold first. by z_tests. Qed.

Lemma first_4 b :
  240 ≤ b < 245 →
  first b = FLead 4 (if b =? 240 then 144 else 128) (if b =? 244 then 143 else 191).
Proof. intros. unfold first. by z_tests. Qed.

Lemma decode_rune_1 r s : 0 ≤ r < 128 → decode_rune (ascii_of r) s = (r, s).
Proof.
  intros. unfold decode_rune. rewrite byte_of_ascii_of by lia. by rewrite first_ascii by lia.
Qed.

Lemma decode_rune_2 r s :
  128 ≤ r < 2048 →
  decode_rune (ascii_of (192 + r / 64)) (String (ascii_of (128 + r `mod` 64)) s) = (r, s).
Proof.
  intros. unfold decode_rune.
  rewrite !byte_of_ascii_of by (Z.div_mod_to_equations; lia).
  rewrite first_2 by (Z.div_mod_to_equations; lia). unfold in_range. cbn zeta.
  z_tests. simpl. f_equal. Z.div_mod_to_equations; lia.
Qed.

Lemma decode_rune_3 r s :
  2048 ≤ r < 65536 → ¬ (55296 ≤ r ≤ 57343) →
  decode_rune (ascii_of (224 + r / 4096))
    (String (ascii_of (128 + (r / 64) `mod` 64)) (String (ascii_of (128 + r `mod` 64)) s))
  = (r, s).
Proof.
  intros. unfold decode_rune.
  rewrite !byte_of_ascii_of by (Z.div_mod_to_equations; lia).
  rewrite first_3 by (Z.div_mod_to_equations; lia). unfold is_cont, in_range. cbn zeta.
  z_tests; simpl; f_equal; Z.div_mod_to_equations; lia.
Qed.

Lemma decode_rune_4 r s :
  65536 ≤ r ≤ MaxRune →
  decode_rune (ascii_of (240 + r / 262144))
    (String (ascii_of (128 + (r / 4096) `mod` 64))
       (String (ascii_of (128 + (r / 64) `mod` 64)) (String (ascii_of (128 + r `mod` 64)) s)))
  = (r, s).
Proof.
  unfold MaxRune. intros. unfold decode_rune.
  rewrite !byte_of_ascii_of by (Z.div_mod_to_equations; lia).
  rewrite first_4 by (Z.div_mod_to_equations; lia). unfold is_cont, in_range. cbn zeta.
  z_tests; simpl; f_equal; Z.div_mod_to_equations; lia.
Qed.
Lemma runes_encode r bs :
  is_scalar r = true →
  runes (string_of_bytes (encode_bytes r ++ bs)) = r :: runes (string_of_bytes bs).
Proof.
  unfold is_scalar, encode_bytes, MaxRune.
  intros [[?%Z.leb_le ?%Z.leb_le]%andb_prop Hs%negb_true_iff]%andb_prop.
  assert (¬ (55296 ≤ r ≤ 57343)) by (intros [?%Z.leb_le ?%Z.leb_le]; by rewrite andb_false_iff in Hs; destruct Hs; congruence).
  assert (is_scalar r = true) as -> by (unfold is_scalar, MaxRune; z_tests; done || lia).
  simpl negb. cbv iota. z_tests; simpl string_of_bytes; rewrite runes_cons.
  - by rewrite decode_rune_1 by lia.
  - by rewrite decode_rune_2 by lia.
  - by rewrite decode_rune_3 by lia.
  - by rewrite decode_rune_4 by (unfold MaxRune; lia).
Qed.

Lemma runes_string_of_runes rs :
  Forall (λ r, is_scalar r = true) rs → runes (string_of_runes rs) = rs.
Proof.
  unfold string_of_runes. induction 1 as [|r rs Hr _ IH]; [done|].
  rewrite bind_cons, runes_encode by done. by rewrite IH.
Qed.

Lemma decode_rune_scalar a0 s1 : is_scalar (decode_rune a0 s1).1 = true.
Proof.
  pose proof (byte_of_range a0). unfold decode_rune, first.
  destruct s1 as [|a1 [|a2 [|a3 s4]]];
    try pose proof (byte_of_range a1); try pose proof (byte_of_range a2);
    try pose proof (byte_of_range a3); cbn zeta; z_tests; try done;
    unfold is_cont, in_range; z_tests; try done;
    unfold is_scalar, MaxRune; simpl fst; z_tests; done || lia.
Qed.

Lemma runes_scalar_aux (n : nat) s :
  (String.length s ≤ n)%nat → Forall (λ r, is_scalar r = true) (runes s).
Proof.
  revert s. induction n as [|n IH]; intros [|a0 s1] Hn; simpl in Hn; try done; [lia|].
  rewrite runes_cons. constructor; [apply decode_rune_scalar|].
  apply IH. pose proof (decode_rune_rest a0 s1). lia.
Qed.

Lemma runes_scalar s : Forall (λ r, is_scalar r = true) (runes s).
Proof. by apply (runes_scalar_aux (String.length s)). Qed.

(** Cutting a string to its first [n] runes gives those runes. *)
Lemma runes_first_runes n s : runes (first_runes n s) = take n (runes s).
Proof. apply runes_string_of_runes, Forall_take, runes_scalar. Qed.

Lemma runes_truncateRunes s n : runes (truncateRunes s n) = take n (runes s).
Proof.
  unfold truncateRunes. case_decide; [apply runes_first_runes|].
  by rewrite take_ge by lia.
Qed.

Lemma RuneCountInString_first_runes n s : (RuneCountInString (first_runes n s) ≤ n)%nat.
Proof. unfold RuneCountInString. rewrite runes_first_runes, length_take. lia. Qed.

Lemma RuneCountInString_truncateRunes s n : (RuneCountInString (truncateRunes s n) ≤ n)%nat.
Proof. unfold RuneCountInString. rewrite runes_truncateRunes, length_take. lia. Qed.

End round_trip.

(** ** The size of an encoding

    A rune takes at least one byte, and at least two unless it is ASCII:
    a string of [n] runes with one of them beyond ASCII has more than [n]
    bytes. *)
Lemma length_string_of_bytes bs : String.length (string_of_bytes bs) = length bs.
Proof. induction bs as [|b bs IH]; simpl; [done|by rewrite IH]. Qed.

Lemma length_encode_bytes r :
  (1 ≤ length (encode_bytes r))%nat ∧ (128 ≤ r → (2 ≤ length (encode_bytes r))%nat).
Proof.
  unfold encode_bytes. destruct (negb (is_scalar r)); [simpl; lia|].
  repeat case_match; simpl; lia.
Qed.

Lemma length_string_of_runes rs :
  (length rs ≤ String.length (string_of_runes rs))%nat ∧
  ((∃ r, r ∈ rs ∧ 128 ≤ r) → (length rs < String.length (string_of_runes rs))%nat).
Proof.
  unfold string_of_runes. rewrite length_string_of_bytes.
  induction rs as [|r rs [IH1 IH2]]; [split; [done|by intros (? & ?%elem_of_nil & _)]|].
  rewrite bind_cons, length_app. simpl.
  destruct (length_encode_bytes r) as [H1 H2]. split; [lia|].
  intros (r' & [->|Hin]%elem_of_cons & Hr'); [specialize (H2 Hr'); lia|].
  assert (length rs < length (rs ≫= encode_bytes))%nat by eauto. lia.
Qed.

(** The first [n] runes of a string that has more, one of them beyond
    ASCII, take more than [n] bytes. *)
Lemma length_truncateRunes_multibyte s n :
  (n < RuneCountInString s)%nat →
  (∃ r, r ∈ take n (runes s) ∧ 128 ≤ r) →
  (n < String.length (truncateRunes s n))%nat.
Proof.
  intros Hn Hr. unfold truncateRunes, RuneCountInString in *. rewrite decide_True by done.
  destruct (length_string_of_runes (take n (runes s))) as [_ Hlt].
  specialize (Hlt Hr). rewrite length_take in Hlt. lia.
Qed.

(** C29. Encoding and decoding are inverse on scalar values: a slice of
    runes that are Unicode scalar values, converted to a string and back,
    is the same slice; the string has as many runes as the slice, and
    cutting the string to its first [n] runes is cutting the slice. *)
Theorem utf8_round_trip (rs : list Z) (n : nat) :
  Forall (λ r, is_scalar r = true) rs →
  runes (string_of_runes rs) = rs ∧
  RuneCountInString (string_of_runes rs) = length rs ∧
  first_runes n (string_of_runes rs) = string_of_runes (take n rs).
Proof.
  intros Hrs. pose proof (runes_string_of_runes rs Hrs) as Heq.
  unfold RuneCountInString, first_runes. by rewrite Heq.
Qed.

Lemma utf8_round_trip_witness :
  runes (string_of_runes [97; 233; 8364; 128512]) = [97; 233; 8364; 128512] ∧
  RuneCountInString (string_of_runes [97; 233; 8364; 128512])
    = length [97; 233; 8364; 128512] ∧
  first_runes 2 (string_of_runes [97; 233; 8364; 128512])
    = string_of_runes (take 2 [97; 233; 8364; 128512]).
Proof. apply utf8_round_trip. by repeat constructor. Defined.
