(* ===== verification/Model.v ===== *)
(** * The intermediate representation

    The records of services/slack/intermediate.go (src/unnamed/part_001):
    [IntermediateChannel], [IntermediateUser], [IntermediatePost],
    [Intermediate] and [TransformConfig], with the fields of the source under
    a short record prefix ([ch_], [u_], [p_], [im_], [cfg_]), and the input
    records of the Slack export that the transformers read.  The input records
    and the constants of the Mattermost [model] package are declared in files
    that are not part of the sources; they are modelled from their uses.

    A [*IntermediatePost] is a location [loc]; [p_Replies] holds locations,
    as the source holds pointers. *)

From S2P Require Import Prelude Utf8.

(** ** Constants *)

(** Limits of the Mattermost [model] package (v6.5) used by the sanitisers. *)
Module model.
Definition ChannelNameMaxLength : nat := 64.
Definition ChannelDisplayNameMaxRunes : nat := 64.
Definition ChannelPurposeMaxRunes : nat := 250.
Definition ChannelHeaderMaxRunes : nat := 1024.
Definition ChannelGroupMaxUsers : nat := 8.
Definition UserPositionMaxRunes : nat := 128.
Definition UserFirstNameMaxRunes : nat := 64.
Definition UserLastNameMaxRunes : nat := 64.
Definition PostPropsMaxRunes : nat := Z.to_nat 800000.
End model.

(** [model.ChannelType] *)
Inductive ChannelType : Type :=
  | ChannelTypeOpen
  | ChannelTypePrivate
  | ChannelTypeDirect
  | ChannelTypeGroup.

#[export] Instance ChannelType_eq_dec : EqDecision ChannelType.
Proof. solve_decision. Defined.

Definition WorkflowUserName : string := "imported-workflow".

(** "PosgreSQLMaxPostSize is the default PostgreSQL max post size in
    mattermost 6.6": [65535 / 4] in integer arithmetic. *)
Definition PosgreSQLMaxPostSize : nat := Z.to_nat (65535 / 4).

(** ** Records of the intermediate representation *)

Record IntermediateChannel : Type := mkIntermediateChannel {
  ch_Id : string;
  ch_OriginalName : string;
  ch_Name : string;
  ch_DisplayName : string;
  ch_Members : list string;
  ch_MembersUsernames : list string;
  ch_Purpose : string;
  ch_Header : string;
  ch_Topic : string;
  ch_Type : ChannelType;
}.

Record IntermediateUser : Type := mkIntermediateUser {
  u_Id : string;
  u_Username : string;
  u_FirstName : string;
  u_LastName : string;
  u_Position : string;
  u_Email : string;
  u_Password : string;
  u_Memberships : list string;
  u_AuthData : option string;
  u_AuthService : string;
}.

(** A pointer to an [IntermediatePost]. *)
Definition loc : Type := positive.

(** A Slack attachment is carried through opaquely; it is modelled by its
    JSON text, which is all that the size check of the properties reads. *)
Definition SlackAttachment : Type := string.

(** [model.StringInterface]: the only entry the program ever stores is
    ["attachments"]; the nil map is the empty map. *)
Definition StringInterface : Type := gmap string (list SlackAttachment).

Record IntermediatePost : Type := mkIntermediatePost {
  p_User : string;
  p_Channel : string;
  p_Message : string;
  p_Props : StringInterface;
  p_CreateAt : Z;
  p_Attachments : list string;
  p_Replies : list loc;
  p_IsDirect : bool;
  p_ChannelMembers : list string;
}.

Record Intermediate : Type := mkIntermediate {
  im_PublicChannels : list IntermediateChannel;
  im_PrivateChannels : list IntermediateChannel;
  im_GroupChannels : list IntermediateChannel;
  im_DirectChannels : list IntermediateChannel;
  im_UsersById : gmap string IntermediateUser;
  im_Posts : list loc;
}.

(** Connection parameters of the cache backend. *)
Record RedisConfig : Type := mkRedisConfig {
  rc_Addr : string;
  rc_User : string;
  rc_Password : string;
}.

Record TransformConfig : Type := mkTransformConfig {
  cfg_AttachmentsDir : string;
  cfg_SkipAttachments : bool;
  cfg_DiscardInvalidProps : bool;
  cfg_AuthDataAsEmail : bool;
  cfg_AuthService : string;
  cfg_ImportWorkflowMessages : bool;
  cfg_SkipPosts : bool;
  cfg_SkipChannels : bool;
  cfg_RedisConfig : option RedisConfig;
}.

#[export] Instance IntermediateChannel_eq_dec : EqDecision IntermediateChannel.
Proof. solve_decision. Defined.
#[export] Instance IntermediateUser_eq_dec : EqDecision IntermediateUser.
Proof. solve_decision. Defined.
#[export] Instance IntermediatePost_eq_dec : EqDecision IntermediatePost.
Proof. solve_decision. Defined.
#[export] Instance RedisConfig_eq_dec : EqDecision RedisConfig.
Proof. solve_decision. Defined.

(** ** Field updates of a post *)

Definition set_IsDirect (b : bool) (p : IntermediatePost) : IntermediatePost :=
  mkIntermediatePost (p_User p) (p_Channel p) (p_Message p) (p_Props p) (p_CreateAt p)
    (p_Attachments p) (p_Replies p) b (p_ChannelMembers p).

Definition set_ChannelMembers (ms : list string) (p : IntermediatePost) : IntermediatePost :=
  mkIntermediatePost (p_User p) (p_Channel p) (p_Message p) (p_Props p) (p_CreateAt p)
    (p_Attachments p) (p_Replies p) (p_IsDirect p) ms.

Definition set_CreateAt (c : Z) (p : IntermediatePost) : IntermediatePost :=
  mkIntermediatePost (p_User p) (p_Channel p) (p_Message p) (p_Props p) c
    (p_Attachments p) (p_Replies p) (p_IsDirect p) (p_ChannelMembers p).

Definition set_Message (m : string) (p : IntermediatePost) : IntermediatePost :=
  mkIntermediatePost (p_User p) (p_Channel p) m (p_Props p) (p_CreateAt p)
    (p_Attachments p) (p_Replies p) (p_IsDirect p) (p_ChannelMembers p).

Definition set_Props (ps : StringInterface) (p : IntermediatePost) : IntermediatePost :=
  mkIntermediatePost (p_User p) (p_Channel p) (p_Message p) ps (p_CreateAt p)
    (p_Attachments p) (p_Replies p) (p_IsDirect p) (p_ChannelMembers p).

Definition set_Attachments (as_ : list string) (p : IntermediatePost) : IntermediatePost :=
  mkIntermediatePost (p_User p) (p_Channel p) (p_Message p) (p_Props p) (p_CreateAt p)
    as_ (p_Replies p) (p_IsDirect p) (p_ChannelMembers p).

Definition set_Replies (rs : list loc) (p : IntermediatePost) : IntermediatePost :=
  mkIntermediatePost (p_User p) (p_Channel p) (p_Message p) (p_Props p) (p_CreateAt p)
    (p_Attachments p) rs (p_IsDirect p) (p_ChannelMembers p).

(** ** Field updates of a user *)

Definition set_Email (e : string) (u : IntermediateUser) : IntermediateUser :=
  mkIntermediateUser (u_Id u) (u_Username u) (u_FirstName u) (u_LastName u) (u_Position u)
    e (u_Password u) (u_Memberships u) (u_AuthData u) (u_AuthService u).

Definition set_Position (s : string) (u : IntermediateUser) : IntermediateUser :=
  mkIntermediateUser (u_Id u) (u_Username u) (u_FirstName u) (u_LastName u) s
    (u_Email u) (u_Password u) (u_Memberships u) (u_AuthData u) (u_AuthService u).

Definition set_FirstName (s : string) (u : IntermediateUser) : IntermediateUser :=
  mkIntermediateUser (u_Id u) (u_Username u) s (u_LastName u) (u_Position u)
    (u_Email u) (u_Password u) (u_Memberships u) (u_AuthData u) (u_AuthService u).

Definition set_LastName (s : string) (u : IntermediateUser) : IntermediateUser :=
  mkIntermediateUser (u_Id u) (u_Username u) (u_FirstName u) s (u_Position u)
    (u_Email u) (u_Password u) (u_Memberships u) (u_AuthData u) (u_AuthService u).

Definition set_Memberships (ms : list string) (u : IntermediateUser) : IntermediateUser :=
  mkIntermediateUser (u_Id u) (u_Username u) (u_FirstName u) (u_LastName u) (u_Position u)
    (u_Email u) (u_Password u) ms (u_AuthData u) (u_AuthService u).

Definition set_AuthData (a : option string) (service : string) (u : IntermediateUser)
    : IntermediateUser :=
  mkIntermediateUser (u_Id u) (u_Username u) (u_FirstName u) (u_LastName u) (u_Position u)
    (u_Email u) (u_Password u) (u_Memberships u) a service.

(** ** Field updates of a channel *)

Definition set_Name (s : string) (c : IntermediateChannel) : IntermediateChannel :=
  mkIntermediateChannel (ch_Id c) (ch_OriginalName c) s (ch_DisplayName c) (ch_Members c)
    (ch_MembersUsernames c) (ch_Purpose c) (ch_Header c) (ch_Topic c) (ch_Type c).

Definition set_DisplayName (s : string) (c : IntermediateChannel) : IntermediateChannel :=
  mkIntermediateChannel (ch_Id c) (ch_OriginalName c) (ch_Name c) s (ch_Members c)
    (ch_MembersUsernames c) (ch_Purpose c) (ch_Header c) (ch_Topic c) (ch_Type c).

Definition set_Purpose (s : string) (c : IntermediateChannel) : IntermediateChannel :=
  mkIntermediateChannel (ch_Id c) (ch_OriginalName c) (ch_Name c) (ch_DisplayName c)
    (ch_Members c) (ch_MembersUsernames c) s (ch_Header c) (ch_Topic c) (ch_Type c).

Definition set_Header (s : string) (c : IntermediateChannel) : IntermediateChannel :=
  mkIntermediateChannel (ch_Id c) (ch_OriginalName c) (ch_Name c) (ch_DisplayName c)
    (ch_Members c) (ch_MembersUsernames c) (ch_Purpose c) s (ch_Topic c) (ch_Type c).

Definition set_MembersUsernames (ms : list string) (c : IntermediateChannel)
    : IntermediateChannel :=
  mkIntermediateChannel (ch_Id c) (ch_OriginalName c) (ch_Name c) (ch_DisplayName c)
    (ch_Members c) ms (ch_Purpose c) (ch_Header c) (ch_Topic c) (ch_Type c).

(** [&IntermediatePost{User: u, Channel: c, Message: m, CreateAt: t}]: the
    other fields take their zero values. *)
Definition new_post (user channel message : string) (createAt : Z) : IntermediatePost :=
  mkIntermediatePost user channel message ∅ createAt [] [] false [].

(** [func (s *IntermediatePost) Sanitise()], as a function of the pointee. *)
Definition Sanitise_post (s : IntermediatePost) : IntermediatePost :=
  if decide (PosgreSQLMaxPostSize < RuneCountInString (p_Message s))
  then set_Message (first_runes PosgreSQLMaxPostSize (p_Message s)) s
  else s.

(** ** Records of the Slack export read by the post pipeline *)

Record SlackFile : Type := mkSlackFile {
  sf_Id : string;
  sf_Name : string;
}.

Record SlackComment : Type := mkSlackComment {
  sc_User : string;
  sc_Comment : string;
}.

(** A raw message.  [sp_File] and [sp_Comment] are pointers that may be nil;
    [sp_Files] and [sp_Attachments] are slices, nil being the empty list. *)
Record SlackPost : Type := mkSlackPost {
  sp_User : string;
  sp_Text : string;
  sp_TimeStamp : string;
  sp_ThreadTS : string;
  sp_Type : string;
  sp_SubType : string;
  sp_File : option SlackFile;
  sp_Files : list SlackFile;
  sp_Attachments : list SlackAttachment;
  sp_Comment : option SlackComment;
}.

(** A [*zip.File] of the uploads: what [Open] and reading it give, [None]
    when [Open] fails. *)
Record ZipFile : Type := mkZipFile {
  zf_content : option string;
}.

(** [user.Profile] *)
Record SlackProfile : Type := mkSlackProfile {
  pf_FirstName : string;
  pf_LastName : string;
  pf_Title : string;
  pf_Email : string;
}.

Record SlackUser : Type := mkSlackUser {
  su_Id : string;
  su_Username : string;
  su_Profile : SlackProfile;
}.

(** A channel of the export; [sc_Purpose] and [sc_Topic] are
    [channel.Purpose.Value] and [channel.Topic.Value]. *)
Record SlackChannel : Type := mkSlackChannel {
  sch_Id : string;
  sch_Name : string;
  sch_Members : list string;
  sch_Purpose : string;
  sch_Topic : string;
  sch_Type : ChannelType;
}.

(** The parsed export, as far as the transformers read it.  [se_Posts] is
    the map from channel names to messages in the order in which the
    [range] loop happens to visit it. *)
Record SlackExport : Type := mkSlackExport {
  se_PublicChannels : list SlackChannel;
  se_PrivateChannels : list SlackChannel;
  se_GroupChannels : list SlackChannel;
  se_DirectChannels : list SlackChannel;
  se_Users : list SlackUser;
  se_Posts : list (string * list SlackPost);
  se_Uploads : gmap string ZipFile;
}.

#[export] Instance SlackChannel_eq_dec : EqDecision SlackChannel.
Proof. solve_decision. Defined.
#[export] Instance SlackFile_eq_dec : EqDecision SlackFile.
Proof. solve_decision. Defined.
#[export] Instance SlackComment_eq_dec : EqDecision SlackComment.
Proof. solve_decision. Defined.
#[export] Instance SlackPost_eq_dec : EqDecision SlackPost.
Proof. solve_decision. Defined.

(** ** Log events

    One constructor per logging call of the sources, carrying the arguments
    of the format string; [slackImport] tells the two messages of the
    channel-name case, which start with "Slack Import: ", from the others.  The package-level logger ([log.Printf],
    [log.Println]) and the transformer's logger ([t.Logger]) write to the
    same list. *)

(** The errors of [addFileToPost]. *)
Inductive FileError : Type :=
  | ErrRetrieveFile (id : string)
  | ErrOpenAttachment (id : string)
  | ErrCreateFile (id : string)
  | ErrCopyFile (id : string).

Inductive LogEvent : Type :=
  | ErrRootPostNotFound (original : SlackPost)
  | WarnOverwritingRoot (threadTS : string)
  | SuccessCopyingFile (id dest : string)
  | InfoTransformingPosts
  | WarnChannelNotFound (originalChannelName : string)
  | WarnUserFieldMissing (slackImport : bool)
  | WarnUserDoesNotExist (slackImport : bool) (user : string)
  | ErrorAddFileToPost (err : FileError)
  | WarnPropsSkipPost
  | WarnPropsDropped
  | WarnNoComments
  | WarnUnsupportedType (type subtype : string)
  | InfoTransformingUsers
  | DebugUserImported (email : string)
  | WarnNoEmail (username email : string)
  | WarnPositionTooLong (username position : string)
  | WarnFirstNameTooLong (username firstName : string)
  | WarnLastNameTooLong (username lastName : string)
  | WarnChannelHandleTooLong (displayName : string)
  | WarnChannelDisplayNameTooLong (displayName : string)
  | WarnChannelPurposeTooLong (displayName : string)
  | WarnChannelHeaderTooLong (displayName : string)
  | WarnSingleMemberChannel (name : string)
  | InfoPopulatingUserMemberships
  | InfoPopulatingChannelMemberships
  | InfoTransformingChannels
  | InfoTransformationSucceeded.

(** How a run of the program ends when it does not return normally: a
    run-time panic of Go, an [error] value handed to the caller, or a state
    the sources cannot be in (a pointer that addresses no post, a loop of
    the model out of fuel). *)
Inductive Error : Type :=
  | PanicSliceBounds (hi len : nat)
  | ErrRedisFactory (cfg : RedisConfig)
  | ErrTransformPosts (e : string)
  | Unreachable.

#[export] Instance FileError_eq_dec : EqDecision FileError.
Proof. solve_decision. Defined.
#[export] Instance LogEvent_eq_dec : EqDecision LogEvent.
Proof. solve_decision. Defined.

(** ** Sanitising a post *)

Section sanitise.
Implicit Types (s p : IntermediatePost).

Lemma Sanitise_post_short s :
  RuneCountInString (p_Message s) ≤ PosgreSQLMaxPostSize → Sanitise_post s = s.
Proof. intros. unfold Sanitise_post. rewrite decide_False; [done|lia]. Qed.

Lemma Sanitise_post_long s :
  PosgreSQLMaxPostSize < RuneCountInString (p_Message s) →
  Sanitise_post s = set_Message (first_runes PosgreSQLMaxPostSize (p_Message s)) s.
Proof. intros. unfold Sanitise_post. by rewrite decide_True. Qed.

(** Only the message is touched. *)
Lemma Sanitise_post_fields s :
  p_User (Sanitise_post s) = p_User s ∧
  p_Channel (Sanitise_post s) = p_Channel s ∧
  p_Props (Sanitise_post s) = p_Props s ∧
  p_CreateAt (Sanitise_post s) = p_CreateAt s ∧
  p_Attachments (Sanitise_post s) = p_Attachments s ∧
  p_Replies (Sanitise_post s) = p_Replies s ∧
  p_IsDirect (Sanitise_post s) = p_IsDirect s ∧
  p_ChannelMembers (Sanitise_post s) = p_ChannelMembers s.
Proof. unfold Sanitise_post. by case_decide. Qed.

Lemma Sanitise_post_Replies s : p_Replies (Sanitise_post s) = p_Replies s.
Proof. apply Sanitise_post_fields. Qed.

Lemma Sanitise_post_CreateAt s : p_CreateAt (Sanitise_post s) = p_CreateAt s.
Proof. apply Sanitise_post_fields. Qed.
End sanitise.

#[export] Hint Rewrite Sanitise_post_Replies Sanitise_post_CreateAt : mm.

(** C34. [Sanitise] of a post leaves a message of at most
    [PosgreSQLMaxPostSize] runes: the first runes of the original message,
    all of them when it is short enough.  No other field changes, and a
    second [Sanitise] changes nothing. *)
Theorem Sanitise_post_bound (s : IntermediatePost) :
  RuneCountInString (p_Message (Sanitise_post s)) ≤ PosgreSQLMaxPostSize ∧
  runes (p_Message (Sanitise_post s)) = take PosgreSQLMaxPostSize (runes (p_Message s)) ∧
  set_Message (p_Message s) (Sanitise_post s) = s ∧
  Sanitise_post (Sanitise_post s) = Sanitise_post s.
Proof.
  assert (RuneCountInString (p_Message (Sanitise_post s)) ≤ PosgreSQLMaxPostSize) as Hle.
  { unfold Sanitise_post. case_decide; [apply RuneCountInString_first_runes|lia]. }
  split_and!; [done| | |by apply Sanitise_post_short].
  - unfold Sanitise_post. case_decide; [apply runes_first_runes|].
    rewrite take_ge; [done|]. unfold RuneCountInString in *. lia.
  - unfold Sanitise_post. case_decide; by destruct s.
Qed.
