(* ===== verification/Env.v ===== *)
(** * The environment

    What the sources take from other packages and from the parts of their
    own package that are not among them: the conversion of timestamps and
    channel names, the predicates on the kind of a message, the rune count
    of the serialised properties, the order that [sort.Slice] produces,
    the outcome of creating and copying files and of connecting to the
    cache backend.  The definitions and theorems of the development hold
    for every [Env] (with [EnvLaws] where they rely on what the libraries
    promise); [example_env] is one, on which the examples run. *)

From stdpp Require Import sorting.
From S2P Require Import Prelude Utf8 Model.

Class Env : Type := {
  (** [SlackConvertTimeStamp(ts)], an [int64] *)
  SlackConvertTimeStamp : string → Z;
  (** the methods [post.IsPlainMessage()] ... of a raw message *)
  IsPlainMessage : SlackPost → bool;
  IsFileComment : SlackPost → bool;
  IsBotMessage : SlackPost → bool;
  IsJoinLeaveMessage : SlackPost → bool;
  IsMeMessage : SlackPost → bool;
  IsChannelTopicMessage : SlackPost → bool;
  IsChannelPurposeMessage : SlackPost → bool;
  IsChannelNameMessage : SlackPost → bool;
  (** [utf8.RuneCountInString(string(propsB))] for [propsB] the JSON of the
      properties *)
  props_runes : StringInterface → nat;
  (** [sort.Slice(channelPosts, less)] with the comparison of converted
      timestamps: some sorted permutation, the sort is not stable *)
  sort_posts : list SlackPost → list SlackPost;
  (** [path.Join] and [norm.NFC] *)
  path_Join : string → string → string;
  norm_NFC : string → string;
  (** whether [os.Create] and [io.Copy] succeed, given the files written so
      far *)
  os_Create : gmap string string → string → bool;
  io_Copy : gmap string string → string → string → bool;
  (** whether [newRedisFactory] connects *)
  redis_connect : RedisConfig → bool;
  (** [model.NewId()] *)
  NewId : string;
  (** [strings.ToLower] and the regular expression of channel names *)
  strings_ToLower : string → string;
  isValidChannelNameCharacters : string → bool;
  (** [SlackConvertChannelName(name, id)] and
      [SplitChannelsByMemberSize(channels, limit)] of the parser *)
  SlackConvertChannelName : string → string → string;
  SplitChannelsByMemberSize : list SlackChannel → nat → list SlackChannel * list SlackChannel;
}.

(** What the libraries promise of an environment. *)
Class EnvLaws `{Env} : Prop := {
  SlackConvertTimeStamp_int64 ts : in_int64 (SlackConvertTimeStamp ts);
  sort_posts_perm posts : sort_posts posts ≡ₚ posts;
  sort_posts_sorted posts :
    Sorted (λ x y, SlackConvertTimeStamp (sp_TimeStamp x)
                   ≤ SlackConvertTimeStamp (sp_TimeStamp y))%Z (sort_posts posts);
}.

(** ** An environment

    The functions of the other packages as far as the examples need them:
    timestamps of seconds and a fraction are converted to milliseconds, the
    kinds of message are told apart by type and subtype, a stable merge
    sort stands for [sort.Slice], every file operation succeeds and the
    backend accepts connections. *)

(** [strconv.ParseInt] on the part before the dot, [0] on a syntax error. *)
Fixpoint parse_seconds (s : string) (acc : Z) : Z :=
  match s with
  | EmptyString => acc
  | String a s' =>
    if bool_decide (byte_of a = 46)%Z then acc
    else if bool_decide (48 ≤ byte_of a ≤ 57)%Z
         then parse_seconds s' (acc * 10 + (byte_of a - 48))
         else 0%Z
  end.

Definition example_SlackConvertTimeStamp (ts : string) : Z :=
  wrap64 (parse_seconds ts 0 * 1000).

Definition is_message (subtypes : list string) (post : SlackPost) : bool :=
  bool_decide (sp_Type post = "message") && bool_decide (sp_SubType post ∈ subtypes).

Definition example_less (x y : SlackPost) : Prop :=
  (example_SlackConvertTimeStamp (sp_TimeStamp x)
   ≤ example_SlackConvertTimeStamp (sp_TimeStamp y))%Z.

#[export] Instance example_less_dec x y : Decision (example_less x y).
Proof. unfold example_less. apply _. Defined.

(** [strings.ToLower] on the letters of ASCII. *)
Definition example_ToLower (s : string) : string :=
  string_of_bytes ((λ a, let b := byte_of a in
                         if bool_decide (65 ≤ b ≤ 90)%Z then (b + 32)%Z else b)
                     <$> String.list_ascii_of_string s).

(** Letters, digits, hyphen and underscore, at least one. *)
Definition example_isValidChannelNameCharacters (s : string) : bool :=
  bool_decide (s ≠ EmptyString) &&
  forallb (λ a, let b := byte_of a in
                bool_decide ((48 ≤ b ≤ 57) ∨ (65 ≤ b ≤ 90) ∨ (97 ≤ b ≤ 122) ∨ b = 45 ∨ b = 95)%Z)
    (String.list_ascii_of_string s).

#[export] Instance example_env : Env := {
  SlackConvertTimeStamp := example_SlackConvertTimeStamp;
  IsPlainMessage := is_message [""; "file_share"; "thread_broadcast"];
  IsFileComment := is_message ["file_comment"];
  IsBotMessage := is_message ["bot_message"];
  IsJoinLeaveMessage := is_message ["channel_join"; "channel_leave"];
  IsMeMessage := is_message ["me_message"];
  IsChannelTopicMessage := is_message ["channel_topic"];
  IsChannelPurposeMessage := is_message ["channel_purpose"];
  IsChannelNameMessage := is_message ["channel_name"];
  props_runes props :=
    18 + sum_list ((λ a, S (RuneCountInString a)) <$> default [] (props !! "attachments"));
  sort_posts := merge_sort example_less;
  path_Join dir name := if bool_decide (dir = EmptyString) then name else dir +:+ "/" +:+ name;
  norm_NFC s := s;
  os_Create _ _ := true;
  io_Copy _ _ _ := true;
  redis_connect _ := true;
  NewId := "nnnnnnnnnnnnnnnnnnnnnnnnnn";
  strings_ToLower := example_ToLower;
  isValidChannelNameCharacters := example_isValidChannelNameCharacters;
  SlackConvertChannelName name id :=
    let name := example_ToLower name in
    if example_isValidChannelNameCharacters name then name else example_ToLower id;
  SplitChannelsByMemberSize channels limit :=
    (filter (λ c, length (sch_Members c) ≤ limit) channels,
     filter (λ c, limit < length (sch_Members c)) channels);
}.

(** ** The example environment keeps the promises *)

#[export] Instance example_less_total : Total example_less.
Proof. intros x y. unfold example_less. lia. Qed.

#[export] Instance example_env_laws : EnvLaws.
Proof.
  split.
  - intros ts. apply wrap64_in_int64.
  - intros posts. apply merge_sort_Permutation.
  - intros posts. apply (Sorted_merge_sort example_less _).
Qed.

