(* ===== verification/Entities.v ===== *)
(** * Sanitising the entities

    [func (u *IntermediateUser) Sanitise(logger)] (src/unnamed/part_001,
    lines 88-108): the placeholder e-mail address and the cuts of the
    position and the names; [func (c *IntermediateChannel)
    Sanitise(logger)] (lines 38-73): the handle, the display name, the
    purpose and the header.  The methods mutate their receiver and write
    to the logger they are given; here each is a computation on the log
    that returns the entity.

    The user's limits are counted in runes and its cuts are taken in bytes
    ([u.Position[0:n]]), which is what Go's slice of a string does; the
    channel's handle is measured and cut in bytes, its other fields in
    runes by [truncateRunes].  A slice beyond the length would panic;
    [Sanitise_user_total] and [Sanitise_channel_total] show that none
    does.  [returns c a] says that a computation on the log ends normally
    with [a] and only adds to the log. *)

From S2P Require Import Prelude Utf8 Model Env.

#[local] Open Scope mm_scope.

(** [logger.Warnf(...)] and the like: one more event in the log. *)
Definition warn {E} (e : LogEvent) : M (list LogEvent) E unit :=
  modify (λ l, l ++ [e]).

(** Go's [s[0:n]] on a string. *)
Definition slice_to {St} (n : nat) (s : string) : M St Error string :=
  if decide (n ≤ String.length s) then ret (byte_take n s)
  else throw (PanicSliceBounds n (String.length s)).

(** One field cut to [max]: the warning, then the slice. *)
Definition truncate_field (max : nat) (w : LogEvent) (s : string)
    : M (list LogEvent) Error string :=
  if decide (max < RuneCountInString s)
  then warn w ;; slice_to max s
  else ret s.

Definition Sanitise_user (u : IntermediateUser) : M (list LogEvent) Error IntermediateUser :=
  do u <- (if decide (u_Email u = EmptyString)
           then let u' := set_Email (u_Username u +:+ "@example.com") u in
                warn (WarnNoEmail (u_Username u') (u_Email u')) ;; ret u'
           else ret u);
  do position <- truncate_field model.UserPositionMaxRunes
                   (WarnPositionTooLong (u_Username u) (u_Position u)) (u_Position u);
  let u := set_Position position u in
  do firstName <- truncate_field model.UserFirstNameMaxRunes
                    (WarnFirstNameTooLong (u_Username u) (u_FirstName u)) (u_FirstName u);
  let u := set_FirstName firstName u in
  do lastName <- truncate_field model.UserLastNameMaxRunes
                   (WarnLastNameTooLong (u_Username u) (u_LastName u)) (u_LastName u);
  ret (set_LastName lastName u).

(** What the cuts leave: [cut] is the slice in bytes at a limit in runes,
    [cut_bytes] the slice in bytes at a limit in bytes, [cut_runes] the cut
    in runes. *)
Definition cut (max : nat) (s : string) : string :=
  if decide (max < RuneCountInString s) then byte_take max s else s.

Definition cut_bytes (max : nat) (s : string) : string :=
  if decide (max < String.length s) then byte_take max s else s.

Definition cut_runes (max : nat) (s : string) : string :=
  if decide (max < RuneCountInString s) then truncateRunes s max else s.

(** One field cut to [max] runes by [truncateRunes]. *)
Definition truncate_runes_field (max : nat) (w : LogEvent) (s : string)
    : M (list LogEvent) Error string :=
  if decide (max < RuneCountInString s)
  then warn w ;; ret (truncateRunes s max)
  else ret s.

(** "slack-channel-" before a name of one byte. *)
Definition pad_single (s : string) : string :=
  if decide (String.length s = 1) then "slack-channel-" +:+ s else s.

(** [func (c *IntermediateChannel) Sanitise(logger)] *)
Definition Sanitise_channel `{Env} (c : IntermediateChannel)
    : M (list LogEvent) Error IntermediateChannel :=
  if decide (ch_Type c = ChannelTypeDirect) then ret c
  else
    let c := set_Name (strings_Trim (ch_Name c) "_-") c in
    do name <- (if decide (model.ChannelNameMaxLength < String.length (ch_Name c))
                then warn (WarnChannelHandleTooLong (ch_DisplayName c)) ;;
                     slice_to model.ChannelNameMaxLength (ch_Name c)
                else ret (ch_Name c));
    let c := set_Name (pad_single name) c in
    let c := if isValidChannelNameCharacters (ch_Name c) then c
             else set_Name (strings_ToLower (ch_Id c)) c in
    let c := set_DisplayName (strings_Trim (ch_DisplayName c) "_-") c in
    do displayName <- truncate_runes_field model.ChannelDisplayNameMaxRunes
                        (WarnChannelDisplayNameTooLong (ch_DisplayName c)) (ch_DisplayName c);
    let c := set_DisplayName (pad_single displayName) c in
    do purpose <- truncate_runes_field model.ChannelPurposeMaxRunes
                    (WarnChannelPurposeTooLong (ch_DisplayName c)) (ch_Purpose c);
    let c := set_Purpose purpose c in
    do header <- truncate_runes_field model.ChannelHeaderMaxRunes
                   (WarnChannelHeaderTooLong (ch_DisplayName c)) (ch_Header c);
    ret (set_Header header c).

(** The channel that [Sanitise] leaves. *)
Definition sanitised_channel `{Env} (c : IntermediateChannel) : IntermediateChannel :=
  if decide (ch_Type c = ChannelTypeDirect) then c
  else
    let name := pad_single (cut_bytes model.ChannelNameMaxLength (strings_Trim (ch_Name c) "_-")) in
    let name := if isValidChannelNameCharacters name then name else strings_ToLower (ch_Id c) in
    let displayName :=
      pad_single (cut_runes model.ChannelDisplayNameMaxRunes
                    (strings_Trim (ch_DisplayName c) "_-")) in
    set_Header (cut_runes model.ChannelHeaderMaxRunes (ch_Header c))
      (set_Purpose (cut_runes model.ChannelPurposeMaxRunes (ch_Purpose c))
         (set_DisplayName displayName (set_Name name c))).

(** The user that [Sanitise] leaves when it does not panic. *)

Definition sanitised_user (u : IntermediateUser) : IntermediateUser :=
  let u := if decide (u_Email u = EmptyString)
           then set_Email (u_Username u +:+ "@example.com") u else u in
  set_LastName (cut model.UserLastNameMaxRunes (u_LastName u))
    (set_FirstName (cut model.UserFirstNameMaxRunes (u_FirstName u))
       (set_Position (cut model.UserPositionMaxRunes (u_Position u)) u)).

(** A first name of 65 runes in 129 bytes: an [a] and 64 times [é]. *)
Definition example_user : IntermediateUser :=
  mkIntermediateUser "U1" "alice" (string_of_bytes (97%Z :: mjoin (replicate 64 [195; 169]%Z)))
    "" "" "" "" [] None "".

(** [returns c a]: the computation [c] ends normally with [a], whatever
    the log it starts from, and only adds to the log. *)
Definition returns {A} (c : M (list LogEvent) Error A) (a : A) : Prop :=
  ∀ log, ∃ log', c log = (Ok a, log') ∧ log `prefix_of` log'.

Section sanitise_user.
Implicit Types (u : IntermediateUser) (log : list LogEvent) (s : string).

Lemma returns_ret {A} (a : A) : returns (ret a) a.
Proof. intros log. by exists log. Qed.

Lemma returns_ret_eq {A} (a b : A) : a = b → returns (ret a) b.
Proof. intros ->. apply returns_ret. Qed.

Lemma returns_bind {A B} (c : M (list LogEvent) Error A) (k : A → M (list LogEvent) Error B) a b :
  returns c a → returns (k a) b → returns (bind c k) b.
Proof.
  intros Hc Hk log. destruct (Hc log) as (l1 & Hc1 & ?), (Hk l1) as (l2 & Hk1 & ?).
  exists l2. unfold bind. rewrite Hc1. split; [done|by etrans].
Qed.

Lemma returns_warn w : returns (warn w) tt.
Proof. intros log. eexists. split; [done|]. by apply prefix_app_r. Qed.

Lemma RuneCountInString_cut max s : (RuneCountInString (cut max s) ≤ max)%nat.
Proof. unfold cut. case_decide; [apply RuneCountInString_byte_take|lia]. Qed.

Lemma truncate_field_returns max w s : returns (truncate_field max w s) (cut max s).
Proof.
  unfold truncate_field, cut, slice_to. case_decide as Hlt; [|apply returns_ret].
  pose proof (RuneCountInString_le_length s).
  rewrite decide_True by lia. eauto using returns_bind, returns_warn, returns_ret.
Qed.

Lemma Sanitise_user_returns u : returns (Sanitise_user u) (sanitised_user u).
Proof.
  unfold Sanitise_user, sanitised_user.
  eapply (returns_bind _ _ (if decide (u_Email u = EmptyString)
                            then set_Email (u_Username u +:+ "@example.com") u else u)).
  { case_decide; eauto using returns_bind, returns_warn, returns_ret. }
  repeat (eapply returns_bind; [apply truncate_field_returns|]; cbn zeta).
  apply returns_ret.
Qed.
Lemma truncate_runes_field_returns max w s :
  returns (truncate_runes_field max w s) (cut_runes max s).
Proof.
  unfold truncate_runes_field, cut_runes. case_decide;
    eauto using returns_bind, returns_warn, returns_ret.
Qed.

Lemma slice_name_returns `{Env} c :
  returns (if decide (model.ChannelNameMaxLength < String.length (ch_Name c))
           then warn (WarnChannelHandleTooLong (ch_DisplayName c)) ;;
                slice_to model.ChannelNameMaxLength (ch_Name c)
           else ret (ch_Name c))
    (cut_bytes model.ChannelNameMaxLength (ch_Name c)).
Proof.
  unfold cut_bytes, slice_to. case_decide; [|apply returns_ret].
  rewrite decide_True by lia. eauto using returns_bind, returns_warn, returns_ret.
Qed.

Lemma Sanitise_channel_returns `{Env} c : returns (Sanitise_channel c) (sanitised_channel c).
Proof.
  unfold Sanitise_channel, sanitised_channel. case_decide; [apply returns_ret|].
  eapply returns_bind; [apply slice_name_returns|]. cbn zeta.
  repeat (eapply returns_bind; [apply truncate_runes_field_returns|]; cbn zeta).
  apply returns_ret_eq. by destruct (isValidChannelNameCharacters _).
Qed.

End sanitise_user.

(** C21. [Sanitise] of a user returns without a panic, although it slices
    by bytes at limits counted in runes: a string of more than [n] runes
    has more than [n] bytes.  The user it leaves has an e-mail address and
    a position and names within the limits of the model package, and the
    log has only grown. *)
Theorem Sanitise_user_total (u : IntermediateUser) (log : list LogEvent) :
  ∃ u' log', Sanitise_user u log = (Ok u', log') ∧ log `prefix_of` log' ∧
    u_Email u' ≠ EmptyString ∧
    RuneCountInString (u_Position u') ≤ model.UserPositionMaxRunes ∧
    RuneCountInString (u_FirstName u') ≤ model.UserFirstNameMaxRunes ∧
    RuneCountInString (u_LastName u') ≤ model.UserLastNameMaxRunes.
Proof.
  destruct (Sanitise_user_returns u log) as (log' & Heq & Hlog).
  exists (sanitised_user u), log'.
  split_and!; [done|done| |apply RuneCountInString_cut|apply RuneCountInString_cut|apply RuneCountInString_cut].
  unfold sanitised_user. simpl. case_decide; [simpl|done]. by destruct (u_Username u).
Qed.

(** The first name that [Sanitise] leaves. *)
Lemma sanitised_user_FirstName u :
  u_FirstName (sanitised_user u) = cut model.UserFirstNameMaxRunes (u_FirstName u).
Proof. unfold sanitised_user. by case_decide. Qed.

(** C22. The cut of a user's name is taken in bytes at a limit counted in
    runes: a first name of more than [UserFirstNameMaxRunes] runes is cut
    to its first [UserFirstNameMaxRunes] bytes, and when one of its first
    [UserFirstNameMaxRunes] runes is beyond ASCII these runes take more
    bytes than that, so the name kept is shorter than the limit allows,
    or ends inside a rune. *)
Theorem Sanitise_user_cuts_bytes (u : IntermediateUser) (log : list LogEvent) :
  model.UserFirstNameMaxRunes < RuneCountInString (u_FirstName u) →
  (∃ r, r ∈ take model.UserFirstNameMaxRunes (runes (u_FirstName u)) ∧ (128 ≤ r)%Z) →
  ∃ u' log', Sanitise_user u log = (Ok u', log') ∧
    u_FirstName u' = byte_take model.UserFirstNameMaxRunes (u_FirstName u) ∧
    String.length (u_FirstName u') = model.UserFirstNameMaxRunes ∧
    model.UserFirstNameMaxRunes
      < String.length (truncateRunes (u_FirstName u) model.UserFirstNameMaxRunes).
Proof.
  intros Hlong Hrune. destruct (Sanitise_user_returns u log) as (log' & Heq & _).
  exists (sanitised_user u), log'. rewrite sanitised_user_FirstName.
  unfold cut. rewrite decide_True by done.
  split_and!; [done..| |by apply length_truncateRunes_multibyte].
  rewrite length_byte_take. pose proof (RuneCountInString_le_length (u_FirstName u)). lia.
Qed.

Lemma Sanitise_user_cuts_bytes_witness :
  ∃ u' log', Sanitise_user example_user [] = (Ok u', log') ∧
    u_FirstName u' = byte_take model.UserFirstNameMaxRunes (u_FirstName example_user) ∧
    String.length (u_FirstName u') = model.UserFirstNameMaxRunes ∧
    model.UserFirstNameMaxRunes
      < String.length (truncateRunes (u_FirstName example_user) model.UserFirstNameMaxRunes).
Proof.
  apply Sanitise_user_cuts_bytes; [vm_compute; lia|].
  exists 233%Z. split; [|done]. vm_compute. do 1 right. left.
Defined.

(** The example run: a first name of 65 runes in 129 bytes is cut to 64
    bytes, in the middle of a rune; what is left is 32 of its runes
    followed by half an encoding, which reads as U+FFFD. *)
Example Sanitise_user_splits_rune :
  ∃ u' log', Sanitise_user example_user [] = (Ok u', log') ∧
    String.length (u_FirstName u') = 64 ∧
    RuneCountInString (u_FirstName u') = 33 ∧
    list.last (runes (u_FirstName u')) = Some RuneError ∧
    u_FirstName u' ≠ first_runes model.UserFirstNameMaxRunes (u_FirstName example_user).
Proof. do 2 eexists. split_and!; [vm_compute; reflexivity..|]. by vm_compute. Qed.

Lemma RuneCountInString_pad_single max s :
  15 ≤ max → RuneCountInString s ≤ max → RuneCountInString (pad_single s) ≤ max.
Proof.
  intros Hmax Hs. unfold pad_single. case_decide as Hlen; [|done].
  etrans; [apply RuneCountInString_le_length|]. rewrite length_append, Hlen. simpl. lia.
Qed.

Lemma RuneCountInString_cut_runes max s : RuneCountInString (cut_runes max s) ≤ max.
Proof. unfold cut_runes. case_decide; [apply RuneCountInString_truncateRunes|lia]. Qed.

Lemma length_cut_bytes max s : String.length (cut_bytes max s) ≤ max.
Proof. unfold cut_bytes. case_decide; [rewrite length_byte_take|]; lia. Qed.

(** C20. [Sanitise] of a channel returns without a panic; a direct channel
    is left as it is, and any other channel gets a display name, a purpose
    and a header within the rune limits of the model package, and a handle
    that is either the lower-cased identifier or at most
    [ChannelNameMaxLength] bytes long. *)
Theorem Sanitise_channel_total `{Env} (c : IntermediateChannel) (log : list LogEvent) :
  ∃ c' log', Sanitise_channel c log = (Ok c', log') ∧ log `prefix_of` log' ∧
    (ch_Type c = ChannelTypeDirect → c' = c ∧ log' = log) ∧
    (ch_Type c ≠ ChannelTypeDirect →
       RuneCountInString (ch_DisplayName c') ≤ model.ChannelDisplayNameMaxRunes ∧
       RuneCountInString (ch_Purpose c') ≤ model.ChannelPurposeMaxRunes ∧
       RuneCountInString (ch_Header c') ≤ model.ChannelHeaderMaxRunes ∧
       (ch_Name c' = strings_ToLower (ch_Id c) ∨
        String.length (ch_Name c') ≤ model.ChannelNameMaxLength)).
Proof.
  destruct (Sanitise_channel_returns c log) as (log' & Heq & Hlog).
  exists (sanitised_channel c), log'. split_and!; [done..| |].
  - intros Hd. revert Heq. unfold Sanitise_channel, sanitised_channel.
    rewrite !decide_True by done. by intros [= <-].
  - intros Hd. unfold sanitised_channel. rewrite decide_False by done. simpl.
    split_and!; try apply RuneCountInString_cut_runes.
    + apply RuneCountInString_pad_single; [unfold model.ChannelDisplayNameMaxRunes; lia|].
      apply RuneCountInString_cut_runes.
    + destruct (isValidChannelNameCharacters _); [right|by left].
      unfold pad_single. case_decide as Hlen; [|apply length_cut_bytes].
      rewrite length_append, Hlen. unfold model.ChannelNameMaxLength. simpl. lia.
Qed.
