(* ===== verification/Heap.v ===== *)
(** * The heap of posts

    The thread engine shares posts by pointer: the storage hands out the
    root it holds and [AddPostToThreads] appends to its [Replies] in place.
    This file is the store of [IntermediatePost] cells that those pointers
    address: allocation ([&IntermediatePost{...}]), dereference, in-place
    update, and the two directions between a pointer graph and the value it
    denotes: [resolve] reads the post at a location with all its replies
    (what [json.Marshal] of a [*IntermediatePost] serialises, what the
    export finally writes), [alloc_tree] builds fresh cells for such a value
    (what [json.Unmarshal] does).  Both keep every field of the post as
    it is: the encoding itself is not modelled.

    [resolve] takes as fuel the depth to which it follows [Replies]; threads
    built by the pipeline have depth 2 (a root and its replies), see
    [Threads]. *)

From S2P Require Import Prelude Model.

Record Heap : Type := mkHeap {
  cells : gmap loc IntermediatePost;
  next : loc;
}.

Definition empty_heap : Heap := mkHeap ∅ 1%positive.

(** [&IntermediatePost{...}] *)
Definition alloc (p : IntermediatePost) (h : Heap) : loc * Heap :=
  (next h, mkHeap (<[next h := p]> (cells h)) (Pos.succ (next h))).
#[global] Arguments alloc : simpl never.

(** the pointee of [l] *)
Definition deref (h : Heap) (l : loc) : option IntermediatePost := cells h !! l.

(** the assignment of [f] of the pointee to the pointee of [l] *)
Definition update (l : loc) (f : IntermediatePost → IntermediatePost) (h : Heap) : Heap :=
  mkHeap (alter f l (cells h)) (next h).

(** The value of a post with its replies: the document that serialising
    a [*IntermediatePost] produces.  The node carries the post's own fields
    with [p_Replies] emptied; the replies are the children. *)
#[local] Unset Elimination Schemes.
Inductive PostTree : Type :=
  | PostNode (p : IntermediatePost) (replies : list PostTree).
#[local] Set Elimination Schemes.

Definition tree_post (t : PostTree) : IntermediatePost :=
  match t with PostNode p _ => p end.
Definition tree_replies (t : PostTree) : list PostTree :=
  match t with PostNode _ rs => rs end.

Fixpoint resolve (fuel : nat) (h : Heap) (l : loc) : option PostTree :=
  match fuel with
  | O => None
  | S fuel' =>
    p ← deref h l;
    rs ← mapM (resolve fuel' h) (p_Replies p);
    Some (PostNode (set_Replies [] p) rs)
  end.
#[global] Arguments resolve : simpl never.

(** Allocation of a list of values, left to right. *)
Definition alloc_list {A} (f : A → Heap → loc * Heap) : list A → Heap → list loc * Heap :=
  fix go xs h :=
    match xs with
    | [] => ([], h)
    | x :: xs' =>
      let '(l, h1) := f x h in
      let '(ls, h2) := go xs' h1 in
      (l :: ls, h2)
    end.

Fixpoint alloc_tree (t : PostTree) (h : Heap) : loc * Heap :=
  match t with
  | PostNode p rs =>
    let '(ls, h') := alloc_list alloc_tree rs h in
    alloc (set_Replies ls p) h'
  end.

Fixpoint tree_depth (t : PostTree) : nat :=
  match t with
  | PostNode _ rs => S (foldr (λ r d, tree_depth r `max` d) 0 rs)
  end.

(** A tree as [resolve] produces them: no node keeps pointers of its own. *)
Fixpoint tree_ok (t : PostTree) : Prop :=
  match t with
  | PostNode p rs => p_Replies p = [] ∧ foldr (λ r P, tree_ok r ∧ P) True rs
  end.
#[global] Arguments tree_ok : simpl never.

(** Every allocated location lies below the allocation pointer. *)
Definition heap_ok (h : Heap) : Prop :=
  ∀ l, is_Some (deref h l) → (l < next h)%positive.

(** [h'] extends [h]: every cell of [h] is in [h'] unchanged. *)
Definition heap_extends (h h' : Heap) : Prop :=
  cells h ⊆ cells h' ∧ (next h ≤ next h')%positive.

(** The thread at [l] is flat: its replies are allocated and have no replies
    of their own. *)
Definition flat_thread (h : Heap) (l : loc) : Prop :=
  ∃ p, deref h l = Some p ∧
       ∀ r, r ∈ p_Replies p → ∃ q, deref h r = Some q ∧ p_Replies q = [].

(** The thread at [l] of [h'] is made of cells that [h] does not have. *)
Definition fresh_thread (h h' : Heap) (l : loc) : Prop :=
  deref h l = None ∧ flat_thread h' l ∧
  ∀ p, deref h' l = Some p → ∀ r, r ∈ p_Replies p → deref h r = None.

(** The roots held by a store: each is a flat thread and no reply of a
    root is itself a root (a post is stored or appended, never both). *)
Definition roots_ok (roots : list loc) (h : Heap) : Prop :=
  ∀ l, l ∈ roots →
    flat_thread h l ∧ ∀ p, deref h l = Some p → ∀ r, r ∈ p_Replies p → r ∉ roots.

(** Nothing refers to [post] yet: it is no root and no reply of a root. *)
Definition unreferenced (roots : list loc) (h : Heap) (post : loc) : Prop :=
  (post ∉ roots) ∧ ∀ l q, l ∈ roots → deref h l = Some q → post ∉ p_Replies q.

(** [p.Replies = append(p.Replies, post)] *)
Definition set_Replies_app (post : loc) (p : IntermediatePost) : IntermediatePost :=
  set_Replies (p_Replies p ++ [post]) p.

#[export] Instance heap_extends_preorder : PreOrder heap_extends.
Proof.
  split; [by split|]. intros h1 h2 h3 [??] [??]. split; [by etrans|lia].
Qed.

Section heap.
Implicit Types (h : Heap) (l : loc) (p q : IntermediatePost) (t : PostTree).

(** Induction on trees with the hypothesis for every reply. *)
Lemma PostTree_ind (P : PostTree → Prop) :
  (∀ p rs, Forall P rs → P (PostNode p rs)) → ∀ t, P t.
Proof.
  intros Hnode. fix IH 1. intros [p rs]. apply Hnode.
  induction rs as [|r rs IHrs]; constructor; [apply IH|apply IHrs].
Qed.

Lemma tree_ok_node p rs : tree_ok (PostNode p rs) ↔ p_Replies p = [] ∧ Forall tree_ok rs.
Proof.
  change (tree_ok (PostNode p rs))
    with (p_Replies p = [] ∧ foldr (λ r P, tree_ok r ∧ P) True rs).
  split; intros [? Hrs]; (split; [done|]).
  - induction rs as [|r rs IH]; constructor; [apply Hrs|apply IH, Hrs].
  - induction Hrs; simpl; auto.
Qed.

Lemma tree_depth_node p rs t : t ∈ rs → tree_depth t < tree_depth (PostNode p rs).
Proof.
  simpl. induction 1 as [t rs|t t' rs _ IH]; simpl; lia.
Qed.

(** *** Allocation, dereference, update *)

Lemma deref_alloc p h : deref (alloc p h).2 (alloc p h).1 = Some p.
Proof. unfold deref, alloc. simpl. apply lookup_insert_eq. Qed.

Lemma deref_alloc_ne p h l : l ≠ next h → deref (alloc p h).2 l = deref h l.
Proof. intros. unfold deref, alloc. simpl. by rewrite lookup_insert_ne. Qed.

Lemma deref_next h : heap_ok h → deref h (next h) = None.
Proof.
  intros Hok. destruct (deref h (next h)) eqn:Hd; [|done].
  opose proof* (Hok (next h)); [by eexists|lia].
Qed.

Lemma alloc_ok p h : heap_ok h → heap_ok (alloc p h).2.
Proof.
  intros Hok l [q Hq]. unfold alloc, deref in *. simpl in *.
  destruct (decide (l = next h)) as [->|]; [lia|].
  rewrite lookup_insert_ne in Hq by done. opose proof* (Hok l); [by eexists|lia].
Qed.

Lemma alloc_extends p h : heap_ok h → heap_extends h (alloc p h).2.
Proof.
  intros Hok. unfold alloc. split; simpl; [|lia].
  apply insert_subseteq. by apply deref_next.
Qed.

Lemma deref_extends h h' l p : heap_extends h h' → deref h l = Some p → deref h' l = Some p.
Proof. intros [Hsub _] Hl. unfold deref in *. by eapply lookup_weaken. Qed.

Lemma deref_update l f h : deref (update l f h) l = f <$> deref h l.
Proof. unfold deref, update. simpl. apply lookup_alter_eq. Qed.

Lemma deref_update_ne l l' f h : l ≠ l' → deref (update l f h) l' = deref h l'.
Proof. intros. unfold deref, update. simpl. by apply lookup_alter_ne. Qed.

Lemma update_ok l f h : heap_ok h → heap_ok (update l f h).
Proof.
  intros Hok l' [q Hq]. simpl. apply Hok.
  destruct (decide (l = l')) as [->|].
  - rewrite deref_update in Hq. by destruct (deref h l'); [eexists|].
  - rewrite deref_update_ne in Hq by done. by eexists.
Qed.

Lemma next_update l f h : next (update l f h) = next h.
Proof. done. Qed.

(** *** Resolving *)

Lemma resolve_S fuel h l :
  resolve (S fuel) h l =
    p ← deref h l; rs ← mapM (resolve fuel h) (p_Replies p);
    Some (PostNode (set_Replies [] p) rs).
Proof. done. Qed.

(** More fuel or a larger heap resolves to the same tree. *)
Lemma resolve_mono fuel fuel' h h' l t :
  fuel ≤ fuel' → heap_extends h h' →
  resolve fuel h l = Some t → resolve fuel' h' l = Some t.
Proof.
  intros Hle Hext. revert fuel' Hle l t.
  induction fuel as [|fuel IH]; intros [|fuel'] ? l t Hres; try done; try lia.
  rewrite resolve_S in *.
  destruct (deref h l) as [p|] eqn:Hp; simplify_eq/=.
  rewrite (deref_extends _ _ _ _ Hext Hp). simpl.
  destruct (mapM _ _) as [rs|] eqn:Hrs; simplify_eq/=.
  apply mapM_Some in Hrs.
  erewrite (proj2 (mapM_Some _ _ _)); [done|].
  eapply Forall2_impl in Hrs; [exact Hrs|]. intros ???. apply IH; [lia|done].
Qed.

(** A location without replies resolves with any fuel. *)
Lemma resolve_leaf fuel h l p :
  deref h l = Some p → p_Replies p = [] →
  resolve (S fuel) h l = Some (PostNode (set_Replies [] p) []).
Proof. intros Hp Hr. rewrite resolve_S, Hp. simpl. by rewrite Hr. Qed.

(** A flat thread resolves with fuel 2 to its root and its replies. *)
Lemma resolve_flat h l :
  flat_thread h l → is_Some (resolve 2 h l).
Proof.
  intros (p & Hp & Hrs). rewrite resolve_S, Hp.
  assert (is_Some (mapM (resolve 1 h) (p_Replies p))) as [rs Hm].
  { apply mapM_is_Some, Forall_forall. intros r Hr%list_elem_of_In.
    destruct (Hrs r Hr) as (q & Hq & Hqr). change (is_Some (resolve 1 h r)).
    rewrite (resolve_leaf 0 _ _ _ Hq Hqr). by eexists. }
  simpl. rewrite Hm. by eexists.
Qed.

(** *** Building the cells of a tree *)

(** The statement of the round trip for one tree: on a well-formed heap
    the cells built for [t] resolve to [t] again, and only fresh cells are
    written. *)
Definition alloc_tree_spec (t : PostTree) : Prop :=
  ∀ h, heap_ok h → tree_ok t →
    resolve (tree_depth t) (alloc_tree t h).2 (alloc_tree t h).1 = Some t ∧
    heap_ok (alloc_tree t h).2 ∧ heap_extends h (alloc_tree t h).2.

Lemma alloc_list_spec (rs : list PostTree) h :
  Forall alloc_tree_spec rs → heap_ok h → Forall tree_ok rs →
  Forall2 (λ l t, resolve (tree_depth t) (alloc_list alloc_tree rs h).2 l = Some t)
    (alloc_list alloc_tree rs h).1 rs ∧
  heap_ok (alloc_list alloc_tree rs h).2 ∧
  heap_extends h (alloc_list alloc_tree rs h).2.
Proof.
  intros Hspec. revert h.
  induction Hspec as [|t rs Ht _ IH]; intros h Hok Htok; simpl; [done|].
  apply Forall_cons_1 in Htok as [Htk Hrsk].
  destruct (Ht h Hok Htk) as (Hres & Hok1 & Hext1).
  destruct (alloc_tree t h) as [l h1]; simpl in *.
  destruct (IH h1 Hok1 Hrsk) as (Hall & Hok2 & Hext2).
  destruct (alloc_list alloc_tree rs h1) as [ls h2]; simpl in *.
  split_and!; [|done|by etrans].
  constructor; [|done]. by eapply resolve_mono.
Qed.

Lemma mapM_resolve_mono (ls : list loc) (rs : list PostTree) h h' (d : nat) :
  heap_extends h h' → (∀ t, t ∈ rs → tree_depth t ≤ d) →
  Forall2 (λ l t, resolve (tree_depth t) h l = Some t) ls rs →
  mapM (resolve d h') ls = Some rs.
Proof.
  intros Hext Hd Hall. apply mapM_Some.
  induction Hall as [|l t ls rs Hres _ IH]; constructor.
  - eapply resolve_mono; [apply Hd; left|done..].
  - apply IH. intros t' ?. apply Hd. by right.
Qed.

Lemma alloc_tree_node p rs h :
  alloc_tree (PostNode p rs) h =
    alloc (set_Replies (alloc_list alloc_tree rs h).1 p) (alloc_list alloc_tree rs h).2.
Proof. simpl. by destruct (alloc_list _ _ _). Qed.

Lemma alloc_tree_spec_all t : alloc_tree_spec t.
Proof.
  induction t as [p rs IH] using PostTree_ind. intros h Hok [Hp Hrs]%tree_ok_node.
  pose proof (λ t, tree_depth_node p rs t) as Hdepth.
  rewrite alloc_tree_node. cbn [tree_depth] in *.
  destruct (alloc_list_spec rs h IH Hok Hrs) as (Hall & Hok1 & Hext1).
  destruct (alloc_list alloc_tree rs h) as [ls h1]; cbn [fst snd] in *.
  split_and!; [|by apply alloc_ok|etrans; [done|by apply alloc_extends]].
  rewrite resolve_S, deref_alloc. cbn [mbind option_bind]. change (p_Replies (set_Replies ls p)) with ls.
  erewrite mapM_resolve_mono; [|by apply alloc_extends| |done].
  - cbn. do 2 f_equal. destruct p; simpl in *; by subst.
  - intros t Ht. specialize (Hdepth t Ht). lia.
Qed.

(** Unmarshalling what was marshalled gives back the same document. *)
Lemma alloc_tree_resolve t h :
  heap_ok h → tree_ok t →
  resolve (tree_depth t) (alloc_tree t h).2 (alloc_tree t h).1 = Some t.
Proof. intros. by apply alloc_tree_spec_all. Qed.

Lemma alloc_tree_ok t h : heap_ok h → tree_ok t → heap_ok (alloc_tree t h).2.
Proof. intros. by apply alloc_tree_spec_all. Qed.

Lemma alloc_tree_extends t h : heap_ok h → tree_ok t → heap_extends h (alloc_tree t h).2.
Proof. intros. by apply alloc_tree_spec_all. Qed.

(** *** Flat threads *)

Lemma flat_thread_extends h h' l : heap_extends h h' → flat_thread h l → flat_thread h' l.
Proof.
  intros Hext (p & Hp & Hrs). exists p. split; [by eapply deref_extends|].
  intros r Hr. destruct (Hrs r Hr) as (q & Hq & Hqr). exists q.
  split; [by eapply deref_extends|done].
Qed.

(** A freshly allocated post without replies is a flat thread. *)
Lemma flat_thread_alloc p h : p_Replies p = [] → flat_thread (alloc p h).2 (alloc p h).1.
Proof. intros Hp. exists p. rewrite deref_alloc, Hp. split; [done|]. by intros r ?%elem_of_nil. Qed.

Lemma resolve_tree_ok fuel h l t : resolve fuel h l = Some t → tree_ok t.
Proof.
  revert l t. induction fuel as [|fuel IH]; intros l t Hres; [done|].
  rewrite resolve_S in Hres. destruct (deref h l) as [p|]; simplify_eq/=.
  destruct (mapM _ _) as [rs|] eqn:Hrs; simplify_eq/=.
  apply tree_ok_node. split; [done|]. apply mapM_Some in Hrs.
  induction Hrs; constructor; eauto.
Qed.

(** The document of a flat thread has depth at most 2. *)
Lemma resolve_flat_depth fuel h l t :
  flat_thread h l → resolve fuel h l = Some t → tree_depth t ≤ 2.
Proof.
  intros (p & Hp & Hflat) Hres. destruct fuel as [|fuel]; [done|].
  rewrite resolve_S, Hp in Hres. simpl in Hres.
  destruct (mapM _ _) as [rs|] eqn:Hrs; simplify_eq/=.
  apply mapM_Some in Hrs. apply le_n_S.
  induction Hrs as [|r t rs' ts Hr _ IH]; simpl; [lia|].
  opose proof* IH as IH'; [intros; apply Hflat; by right|].
  destruct (Hflat r) as (q & Hq & Hqr); [by left|].
  destruct fuel as [|fuel]; [done|].
  rewrite (resolve_leaf _ _ _ _ Hq Hqr) in Hr. simplify_eq/=. lia.
Qed.

(** The cells built for a document of depth at most 2 are a flat thread. *)
Lemma alloc_tree_flat t h :
  heap_ok h → tree_ok t → tree_depth t ≤ 2 → flat_thread (alloc_tree t h).2 (alloc_tree t h).1.
Proof.
  intros Hok Htok Hd. pose proof (alloc_tree_resolve t h Hok Htok) as Hres.
  destruct (alloc_tree t h) as [l h']; simpl in *.
  destruct t as [p0 rs]. pose proof (tree_depth_node p0 rs) as Hlt.
  cbn [tree_depth] in *. rewrite resolve_S in Hres.
  destruct (deref h' l) as [p|] eqn:Hp; simplify_eq/=.
  destruct (mapM _ _) as [rs'|] eqn:Hrs; simplify_eq/=.
  exists p. split; [done|]. intros r Hr.
  apply mapM_Some in Hrs.
  apply list_elem_of_lookup in Hr as [i Hi].
  destruct (Forall2_lookup_l _ _ _ _ _ Hrs Hi) as (t & Ht & Hres).
  opose proof* (Hlt t) as Hlt'; [by eapply list_elem_of_lookup_2|].
  destruct t as [q qs]. cbn [tree_depth] in *.
  destruct (foldr _ _ qs) as [|d] eqn:Hf; [|lia].
  destruct (foldr _ _ rs) as [|[|d]]; try lia.
  rewrite resolve_S in Hres. destruct (deref h' r) as [q'|]; simplify_eq/=.
  destruct (mapM _ _) as [qs'|] eqn:Hqs; simplify_eq/=.
  exists q'. split; [done|]. by destruct (p_Replies q').
Qed.

(** *** Fresh cells *)

Lemma deref_fresh h l : heap_ok h → (next h ≤ l)%positive → deref h l = None.
Proof.
  intros Hok Hle. destruct (deref h l) eqn:Hd; [|done].
  opose proof* (Hok l); [by eexists|lia].
Qed.

Lemma alloc_tree_root t h :
  deref (alloc_tree t h).2 (alloc_tree t h).1 =
    Some (set_Replies (alloc_list alloc_tree (tree_replies t) h).1 (tree_post t)).
Proof. destruct t as [p rs]. by rewrite alloc_tree_node, deref_alloc. Qed.

Lemma alloc_tree_loc_ge t h :
  heap_ok h → tree_ok t → (next h ≤ (alloc_tree t h).1)%positive.
Proof.
  destruct t as [p rs]. intros Hok [_ Hrs]%tree_ok_node. rewrite alloc_tree_node.
  destruct (alloc_list_spec rs h) as (_ & _ & [_ Hle]); [|done..].
  apply Forall_forall. intros; apply alloc_tree_spec_all.
Qed.

Lemma alloc_list_locs_ge (rs : list PostTree) h l :
  heap_ok h → Forall tree_ok rs → l ∈ (alloc_list alloc_tree rs h).1 →
  (next h ≤ l)%positive.
Proof.
  revert h. induction rs as [|t rs IH]; intros h Hok Hrs; simpl; [by intros ?%elem_of_nil|].
  apply Forall_cons_1 in Hrs as [Ht Hrs].
  pose proof (alloc_tree_loc_ge t h Hok Ht) as Hge.
  pose proof (alloc_tree_ok t h Hok Ht) as Hok1.
  destruct (alloc_tree_extends t h Hok Ht) as [_ Hle].
  destruct (alloc_tree t h) as [l1 h1]; simpl in *.
  specialize (IH h1 Hok1 Hrs). destruct (alloc_list alloc_tree rs h1) as [ls h2]; simpl in *.
  intros [->|Hl]%elem_of_cons; [done|]. specialize (IH Hl). lia.
Qed.

(** The cells built for a document of depth at most 2 are a thread of
    fresh cells. *)
Lemma alloc_tree_fresh_thread t h :
  heap_ok h → tree_ok t → tree_depth t ≤ 2 →
  fresh_thread h (alloc_tree t h).2 (alloc_tree t h).1.
Proof.
  intros Hok Htok Hd. split_and!.
  - by apply deref_fresh, alloc_tree_loc_ge.
  - by apply alloc_tree_flat.
  - rewrite alloc_tree_root. intros p [= <-] r Hr. apply deref_fresh; [done|].
    destruct t as [p rs]. apply tree_ok_node in Htok as [_ Hrs].
    by eapply alloc_list_locs_ge.
Qed.

(** *** Roots *)

Lemma roots_ok_nil h : roots_ok [] h.
Proof. by intros l ?%elem_of_nil. Qed.

Lemma roots_ok_subseteq roots roots' h : roots' ⊆ roots → roots_ok roots h → roots_ok roots' h.
Proof.
  intros Hsub Hok l Hl. destruct (Hok l (Hsub _ Hl)) as [Hflat Hrs].
  split; [done|]. intros p Hp r Hr Hin. by eapply Hrs, Hsub.
Qed.

Lemma roots_ok_extends roots h h' : heap_extends h h' → roots_ok roots h → roots_ok roots h'.
Proof.
  intros Hext Hok l Hl. destruct (Hok l Hl) as [Hflat Hrs].
  split; [by eapply flat_thread_extends|].
  destruct Hflat as (p & Hp & _). intros p' Hp'.
  rewrite (deref_extends _ _ _ _ Hext Hp) in Hp'. simplify_eq. by apply Hrs.
Qed.

(** Roots and their replies are allocated. *)
Lemma roots_ok_allocated roots h l :
  roots_ok roots h → l ∈ roots → is_Some (deref h l).
Proof. intros Hok Hl. destruct (Hok l Hl) as [(p & Hp & _) _]. by eexists. Qed.

Lemma deref_update_Some l f h p : deref h l = Some p → deref (update l f h) l = Some (f p).
Proof. intros Hp. by rewrite deref_update, Hp. Qed.

(** Changing a post that nothing refers to leaves the roots as they are. *)
Lemma roots_ok_update_unreferenced roots h l f :
  roots_ok roots h → unreferenced roots h l → roots_ok roots (update l f h).
Proof.
  intros Hok [Hl Hrep] r Hr. destruct (Hok r Hr) as [(p & Hp & Hflat) Hrs].
  assert (l ≠ r) by (by intros ->).
  split; [|rewrite deref_update_ne by done; apply Hrs].
  exists p. rewrite deref_update_ne by done. split; [done|].
  intros q Hq. rewrite deref_update_ne; [by apply Hflat|].
  intros ->. by eapply Hrep.
Qed.

Lemma unreferenced_update roots h l f :
  unreferenced roots h l → unreferenced roots (update l f h) l.
Proof.
  intros [Hl Hrep]. split; [done|]. intros r q Hr.
  rewrite deref_update_ne by (by intros ->). by apply Hrep.
Qed.

(** A post without replies that nothing refers to may become a root. *)
Lemma roots_ok_cons_post roots h l p :
  roots_ok roots h → unreferenced roots h l → deref h l = Some p → p_Replies p = [] →
  roots_ok (l :: roots) h.
Proof.
  intros Hok [Hl Hrep] Hp Hnil r [->|Hr]%elem_of_cons.
  - split; [exists p; split; [done|]; rewrite Hnil; by intros ? ?%elem_of_nil|].
    intros p' Hp' q. rewrite Hp in Hp'. simplify_eq. rewrite Hnil. by intros ?%elem_of_nil.
  - destruct (Hok r Hr) as [Hflat Hrs]. split; [done|].
    intros p' Hp' q Hq [->|?]%elem_of_cons; [by eapply Hrep|by eapply Hrs].
Qed.

(** A thread of fresh cells may join the roots. *)
Lemma roots_ok_cons_fresh roots h h' l :
  roots_ok roots h → heap_extends h h' → fresh_thread h h' l → roots_ok (l :: roots) h'.
Proof.
  intros Hok Hext (Hl & Hflat & Hfresh) r [->|Hr]%elem_of_cons.
  - split; [done|]. destruct Hflat as (p & Hp & Hleaf).
    intros p' Hp' q Hq. rewrite Hp in Hp'. simplify_eq. intros [->|Hin]%elem_of_cons.
    + destruct (Hleaf _ Hq) as (? & ? & Hnil). simplify_eq. rewrite Hnil in Hq.
      by apply elem_of_nil in Hq.
    + destruct (roots_ok_allocated _ _ _ Hok Hin) as [? Hsome].
      by rewrite (Hfresh _ Hp _ Hq) in Hsome.
  - destruct (roots_ok_extends _ _ _ Hext Hok r Hr) as [Hflat' Hrs]. split; [done|].
    intros p' Hp' q Hq [->|?]%elem_of_cons; [|by eapply Hrs].
    destruct (Hok r Hr) as [(p & Hp & Hleaf) _].
    rewrite (deref_extends _ _ _ _ Hext Hp) in Hp'. simplify_eq.
    destruct (Hleaf _ Hq) as (? & Hsome & _). by rewrite Hl in Hsome.
Qed.

(** An allocated post that nothing refers to is not referred to by a
    thread of fresh cells either. *)
Lemma unreferenced_cons_fresh roots h h' l post :
  roots_ok roots h → heap_extends h h' → fresh_thread h h' l →
  is_Some (deref h post) → unreferenced roots h post → unreferenced (l :: roots) h' post.
Proof.
  intros Hok Hext (Hl & Hflat & Hfresh) [pp Hpost] [Hp Hrep]. split.
  - intros [->|?]%elem_of_cons; [by rewrite Hl in Hpost|done].
  - intros r q [->|Hr]%elem_of_cons Hq Hin.
    + by rewrite (Hfresh _ Hq _ Hin) in Hpost.
    + destruct (roots_ok_allocated _ _ _ Hok Hr) as [q' Hq'].
      rewrite (deref_extends _ _ _ _ Hext Hq') in Hq. simplify_eq. by eapply Hrep.
Qed.

Lemma unreferenced_subseteq roots roots' h post :
  roots' ⊆ roots → unreferenced roots h post → unreferenced roots' h post.
Proof. intros Hsub [Hp Hrep]. split; [by intros ?%Hsub|]. intros l q ?%Hsub. by apply Hrep. Qed.

(** A cell that was just allocated is referred to by nothing. *)
Lemma unreferenced_alloc roots h p :
  heap_ok h → roots_ok roots h → unreferenced roots (alloc p h).2 (alloc p h).1.
Proof.
  intros Hh Hok. split.
  - intros [? Hsome]%(roots_ok_allocated _ h); [|done]. by rewrite deref_next in Hsome.
  - intros l q Hl Hq Hin. destruct (Hok l Hl) as [(q' & Hq' & Hleaf) _].
    rewrite (deref_extends h _ l q') in Hq by auto using alloc_extends. simplify_eq.
    destruct (Hleaf _ Hin) as (? & Hsome & _). simpl in Hsome. by rewrite deref_next in Hsome.
Qed.
End heap.

Lemma empty_heap_ok : heap_ok empty_heap.
Proof. intros l [p Hp]. unfold deref in Hp. simpl in Hp. by rewrite lookup_empty in Hp. Qed.

Lemma update_update l f g h : update l f (update l g h) = update l (f ∘ g) h.
Proof. unfold update. simpl. by rewrite alter_alter_eq. Qed.

Lemma flat_thread_leaf h l p : deref h l = Some p → p_Replies p = [] → flat_thread h l.
Proof. intros Hp Hr. exists p. split; [done|]. rewrite Hr. by intros r ?%elem_of_nil. Qed.

(** Appending a cell that no thread mentions to the replies of a root keeps
    the threads flat and disjoint. *)
Lemma roots_ok_append_reply roots h r post q :
  roots_ok roots h → r ∈ roots → unreferenced roots h post →
  deref h post = Some q → p_Replies q = [] →
  roots_ok roots (update r (set_Replies_app post) h).
Proof.
  intros Hroots Hr [Hpost _] Hq Hq0 l Hl.
  destruct (Hroots l Hl) as [(p & Hp & Hflat) Hout].
  assert (∀ x, x ∉ roots → deref (update r (set_Replies_app post) h) x = deref h x) as Hsame.
  { intros x Hx. apply deref_update_ne. by intros ->. }
  destruct (decide (l = r)) as [->|Hne].
  - pose proof (deref_update_Some _ (set_Replies_app post) _ _ Hp) as Hp'. split.
    + exists (set_Replies_app post p). split; [done|].
      intros x [Hx| ->%list_elem_of_singleton]%elem_of_app.
      * rewrite Hsame by eauto. eauto.
      * rewrite Hsame by done. eauto.
    + rewrite Hp'. intros ? [= <-] x [Hx| ->%list_elem_of_singleton]%elem_of_app; eauto.
  - split; [|by rewrite deref_update_ne by congruence].
    exists p. split; [by rewrite deref_update_ne by congruence|].
    intros x Hx. rewrite Hsame by eauto. eauto.
Qed.

#[export] Hint Resolve alloc_ok update_ok alloc_extends empty_heap_ok roots_ok_nil : mm.
#[export] Hint Rewrite deref_alloc deref_update next_update : mm.

(** ** The round trip of a serialised thread *)

(** A root with one reply, as the cache backend holds it. *)
Definition example_tree : PostTree :=
  PostNode (new_post "alice" "general" "root" 10000)
    [PostNode (new_post "bob" "general" "reply" 15000) []].

(** C28. Reading a serialised thread into the heap and serialising it again
    gives the same document: on a well-formed heap the cells built for a
    well-formed document resolve to it, the heap stays well formed and no
    cell that existed before is changed. *)
Theorem alloc_tree_round_trip (t : PostTree) (h : Heap) :
  heap_ok h → tree_ok t →
  resolve (tree_depth t) (alloc_tree t h).2 (alloc_tree t h).1 = Some t ∧
  heap_ok (alloc_tree t h).2 ∧ heap_extends h (alloc_tree t h).2 ∧
  deref h (alloc_tree t h).1 = None.
Proof.
  intros Hh Ht. destruct (alloc_tree_spec_all t h Hh Ht) as (? & ? & ?).
  split_and!; [done..|]. by apply deref_fresh, alloc_tree_loc_ge.
Qed.

Lemma alloc_tree_round_trip_witness :
  resolve (tree_depth example_tree) (alloc_tree example_tree empty_heap).2
    (alloc_tree example_tree empty_heap).1 = Some example_tree ∧
  heap_ok (alloc_tree example_tree empty_heap).2 ∧
  heap_extends empty_heap (alloc_tree example_tree empty_heap).2 ∧
  deref empty_heap (alloc_tree example_tree empty_heap).1 = None.
Proof.
  apply alloc_tree_round_trip; [apply empty_heap_ok|].
  apply tree_ok_node. split; [done|]. repeat constructor.
Defined.
