(* ===== verification/Storage.v ===== *)
(** * The thread store

    [AddPostToThreads] and [TransformPosts] (src/unnamed/part_001) use a
    [ThreadsStorage] through four methods: [HasThread], [LookupThread],
    [StoreThread] and [GetChangedThreads].  The interface and its two
    implementations are declared in a file that is not part of the sources;
    they are modelled here from their contract and from the repository's
    test of the cache-backed variant (src/unnamed/part_000), which this file
    replays as [TestRedisStorage].

    - [ThreadsStorage] is the interface, as a class of operations on a store
      state [S], the heap of posts and the remote backend.
    - [MemoryStorage] keeps a map from thread timestamp to root pointer.
    - [RedisStorage] keeps a local cache of the roots it has stored or
      fetched and reads the remote backend on a cache miss, building fresh
      cells for the document it finds.  [StoreThread] puts the root in the
      cache and writes its serialised value under ["<channel>:<threadTS>"];
      the write is modelled as immediate (the program is single-threaded and
      the test reads the key from a second store right away).
    - [Storage] is an interface value: either variant, dispatched by tag
      (what [newChannelThreadsStorage] returns).
    - [ThreadsStorageLaws] is the contract that clients are proved against;
      both variants and the sum satisfy it.

    In-place changes of a fetched or stored root are visible through every
    later [LookupThread] of the same store (the pointer is stable), but do
    not reach the backend: only [StoreThread] writes it. *)

From S2P Require Import Prelude Model Heap.

(** The remote key-value server: key to serialised post. *)
Abbreviation Backend := (gmap string PostTree).

Class ThreadsStorage (S : Type) : Type := {
  HasThread : string → S → Backend → bool;
  LookupThread : string → S → Heap → Backend → option loc * S * Heap;
  StoreThread : string → loc → S → Heap → Backend → S * Backend;
  GetChangedThreads : S → list loc;
}.

(** ** The in-memory variant *)

Record MemoryStorage : Type := mkMemoryStorage {
  ms_threads : gmap string loc;
}.

Definition newMemoryStorage : MemoryStorage := mkMemoryStorage ∅.

#[export] Instance MemoryStorage_ops : ThreadsStorage MemoryStorage := {
  HasThread threadTS s _ := bool_decide (is_Some (ms_threads s !! threadTS));
  LookupThread threadTS s h _ := (ms_threads s !! threadTS, s, h);
  StoreThread threadTS post s _ b := (mkMemoryStorage (<[threadTS := post]> (ms_threads s)), b);
  GetChangedThreads s := map_values (ms_threads s);
}.

(** ** The cache-backed variant *)

Record RedisStorage : Type := mkRedisStorage {
  rs_channel : string;
  rs_cache : gmap string loc;
}.

Definition newRedisStorage (channelName : string) : RedisStorage :=
  mkRedisStorage channelName ∅.

(** Keys are namespaced as ["<channel-name>:<thread-timestamp>"]. *)
Definition redis_key (channel threadTS : string) : string :=
  channel +:+ ":" +:+ threadTS.

(** The serialised form of the post at [l]: the post with all its replies.
    An acyclic graph of [n] cells has depth at most [n], so the allocation
    pointer is fuel enough; a cyclic one has no serialised form. *)
Definition marshal (h : Heap) (l : loc) : option PostTree :=
  resolve (Pos.to_nat (next h)) h l.

Definition redis_lookup (threadTS : string) (s : RedisStorage) (h : Heap) (b : Backend)
    : option loc * RedisStorage * Heap :=
  match rs_cache s !! threadTS with
  | Some l => (Some l, s, h)
  | None =>
    match b !! redis_key (rs_channel s) threadTS with
    | Some doc =>
      let '(l, h') := alloc_tree doc h in
      (Some l, mkRedisStorage (rs_channel s) (<[threadTS := l]> (rs_cache s)), h')
    | None => (None, s, h)
    end
  end.

Definition redis_store (threadTS : string) (post : loc) (s : RedisStorage) (h : Heap)
    (b : Backend) : RedisStorage * Backend :=
  (mkRedisStorage (rs_channel s) (<[threadTS := post]> (rs_cache s)),
   match marshal h post with
   | Some doc => <[redis_key (rs_channel s) threadTS := doc]> b
   | None => b
   end).

#[export] Instance RedisStorage_ops : ThreadsStorage RedisStorage := {
  HasThread threadTS s b :=
    bool_decide (is_Some (rs_cache s !! threadTS)) ||
    bool_decide (is_Some (b !! redis_key (rs_channel s) threadTS));
  LookupThread := redis_lookup;
  StoreThread := redis_store;
  GetChangedThreads s := map_values (rs_cache s);
}.

(** ** An interface value *)

Inductive Storage : Type :=
  | InMemory (m : MemoryStorage)
  | InRedis (r : RedisStorage).

#[export] Instance Storage_ops : ThreadsStorage Storage := {
  HasThread threadTS s b :=
    match s with
    | InMemory m => HasThread threadTS m b
    | InRedis r => HasThread threadTS r b
    end;
  LookupThread threadTS s h b :=
    match s with
    | InMemory m => let '(o, m', h') := LookupThread threadTS m h b in (o, InMemory m', h')
    | InRedis r => let '(o, r', h') := LookupThread threadTS r h b in (o, InRedis r', h')
    end;
  StoreThread threadTS post s h b :=
    match s with
    | InMemory m => let '(m', b') := StoreThread threadTS post m h b in (InMemory m', b')
    | InRedis r => let '(r', b') := StoreThread threadTS post r h b in (InRedis r', b')
    end;
  GetChangedThreads s :=
    match s with
    | InMemory m => GetChangedThreads m
    | InRedis r => GetChangedThreads r
    end;
}.

(** ** The repository's test of the cache-backed variant

    Each sub-test returns the conjunction of its assertions and the state it
    leaves behind; the three share one server, as the test shares one
    miniredis instance.  [newRedisStorage] of the repository also returns
    an error, which the test asserts to be nil; the constructor of the
    model is total. *)

Definition msg_of (h : Heap) (o : option loc) : option string :=
  l ← o; p_Message <$> deref h l.

(** "store, lookup post" *)
Definition test_store_lookup (h0 : Heap) (b0 : Backend) : bool * Heap * Backend :=
  let storage := newRedisStorage "channel" in
  let threadTS := "11" in
  let '(post, h1) := alloc (new_post "" "" "msg" 0) h0 in
  let a1 := negb (HasThread threadTS storage b0) in
  let '(o2, storage, h2) := LookupThread threadTS storage h1 b0 in
  let a2 := bool_decide (o2 = None) in
  let '(storage, b1) := StoreThread threadTS post storage h2 b0 in
  let a3 := HasThread threadTS storage b1 in
  let '(o4, storage, h3) := LookupThread threadTS storage h2 b1 in
  let a4 := bool_decide (is_Some o4) in
  let '(o5, storage, h4) := LookupThread threadTS storage h3 b1 in
  let a5 := bool_decide (msg_of h4 o5 = Some "msg") in
  (a1 && a2 && a3 && a4 && a5, h4, b1).

(** "lookup post from another storage" *)
Definition test_lookup_from_another (h0 : Heap) (b0 : Backend) : bool * Heap * Backend :=
  let storage := newRedisStorage "channel" in
  let threadTS := "21" in
  let '(post, h1) := alloc (new_post "" "" "msg" 0) h0 in
  let '(storage, b1) := StoreThread threadTS post storage h1 b0 in
  let '(storage, b2) := StoreThread "22" post storage h1 b1 in
  let a1 := bool_decide (length (GetChangedThreads storage) = 2) in
  let anotherStorage := newRedisStorage "channel" in
  let '(o2, anotherStorage, h2) := LookupThread threadTS anotherStorage h1 b2 in
  let a2 := bool_decide (is_Some o2) in
  let '(o3, anotherStorage, h3) := LookupThread threadTS anotherStorage h2 b2 in
  let a3 := bool_decide (msg_of h3 o3 = Some "msg") in
  let a4 := bool_decide (length (GetChangedThreads anotherStorage) = 1) in
  (a1 && a2 && a3 && a4, h3, b2).

(** "post should retain replies" *)
Definition test_retain_replies (h0 : Heap) (b0 : Backend) : bool * Heap * Backend :=
  let storage := newRedisStorage "channel" in
  let threadTS := "31" in
  let '(post, h1) := alloc (new_post "" "" "msg" 0) h0 in
  let '(storage, b1) := StoreThread threadTS post storage h1 b0 in
  let '(o1, storage, h2) := LookupThread threadTS storage h1 b1 in
  let a1 := bool_decide ((length ∘ p_Replies <$> (o1 ≫= deref h2)) = Some 0) in
  let '(o2, storage, h3) := LookupThread threadTS storage h2 b1 in
  match o2 with
  | None => (false, h3, b1)
  | Some post =>
    let '(reply, h4) := alloc (new_post "" "" "" 0) h3 in
    let h5 := update post (λ p, set_Replies (p_Replies p ++ [reply]) p) h4 in
    let '(o3, storage, h6) := LookupThread threadTS storage h5 b1 in
    let a2 := bool_decide ((length ∘ p_Replies <$> (o3 ≫= deref h6)) = Some 1) in
    (a1 && a2, h6, b1)
  end.

Definition TestRedisStorage : bool :=
  let '(r1, h1, b1) := test_store_lookup empty_heap ∅ in
  let '(r2, h2, b2) := test_lookup_from_another h1 b1 in
  let '(r3, h3, b3) := test_retain_replies h2 b2 in
  r1 && r2 && r3.

(** ** The contract

    What a client may rely on, whatever the variant.  [store_ok] is what the
    variant needs of the backend (for the cache-backed variant: its
    documents are well-formed threads). *)

Class ThreadsStorageLaws (S : Type) `{!ThreadsStorage S} : Type := {
  store_ok : S → Backend → Prop;
  (** after [StoreThread(t, l)], [LookupThread(t)] returns the pointer [l] *)
  lookup_store t l s h b s' b' :
    StoreThread t l s h b = (s', b') →
    ∀ h2 b2, LookupThread t s' h2 b2 = (Some l, s', h2);
  (** a pointer handed out once is handed out again, whatever happened to
      the heap or the backend in between *)
  lookup_stable t s h b l s' h' :
    LookupThread t s h b = (Some l, s', h') →
    ∀ h2 b2, LookupThread t s' h2 b2 = (Some l, s', h2);
  (** a miss changes nothing *)
  lookup_miss t s h b s' h' :
    LookupThread t s h b = (None, s', h') → s' = s ∧ h' = h;
  (** [HasThread] tells whether [LookupThread] would find a root *)
  has_lookup t s h b :
    HasThread t s b = bool_decide (is_Some (LookupThread t s h b).1.1);
  (** a lookup only allocates *)
  lookup_ok t s h b o s' h' :
    heap_ok h → store_ok s b → LookupThread t s h b = (o, s', h') →
    heap_ok h' ∧ heap_extends h h' ∧ store_ok s' b;
  (** what a lookup returns is a root the store held already, or a thread
      of fresh cells *)
  lookup_root t s h b l s' h' :
    heap_ok h → store_ok s b → LookupThread t s h b = (Some l, s', h') →
    (l ∈ GetChangedThreads s ∧ h' = h) ∨ fresh_thread h h' l;
  store_store_ok t l s h b s' b' :
    store_ok s b → flat_thread h l → StoreThread t l s h b = (s', b') →
    store_ok s' b';
  (** the changed set grows by exactly the pointers stored or handed out *)
  changed_store t l s h b s' b' :
    StoreThread t l s h b = (s', b') →
    l ∈ GetChangedThreads s' ∧ GetChangedThreads s' ⊆ l :: GetChangedThreads s;
  changed_lookup t s h b l s' h' :
    LookupThread t s h b = (Some l, s', h') →
    l ∈ GetChangedThreads s' ∧ GetChangedThreads s' ⊆ l :: GetChangedThreads s;
  (** storing under one timestamp does not affect the others *)
  store_other t t' l s h b s' b' :
    t ≠ t' → StoreThread t l s h b = (s', b') →
    ∀ h2, (LookupThread t' s' h2 b').1.1 = (LookupThread t' s h2 b).1.1;
}.

(** The documents of the backend are well-formed threads. *)
Definition backend_ok (b : Backend) : Prop :=
  ∀ k doc, b !! k = Some doc → tree_ok doc ∧ tree_depth doc ≤ 2.

(** The in-memory store has no state to keep consistent with the backend,
    which it leaves alone. *)
Definition memory_ok (s : MemoryStorage) (b : Backend) : Prop := backend_ok b.

Definition redis_ok (s : RedisStorage) (b : Backend) : Prop := backend_ok b.

Definition storage_ok (s : Storage) (b : Backend) : Prop :=
  match s with
  | InMemory m => memory_ok m b
  | InRedis r => redis_ok r b
  end.

(** ** Shared lemmas on maps of roots *)

Section roots.
Implicit Types (m : gmap string loc) (t : string) (l : loc).

Lemma map_values_insert_elem m t l : l ∈ map_values (<[t:=l]> m).
Proof. apply elem_of_map_values. exists t. apply lookup_insert_eq. Qed.

Lemma map_values_insert_subseteq m t l : map_values (<[t:=l]> m) ⊆ l :: map_values m.
Proof.
  intros x [k Hk]%elem_of_map_values.
  destruct (decide (t = k)) as [->|].
  - rewrite lookup_insert_eq in Hk. simplify_eq. by left.
  - rewrite lookup_insert_ne in Hk by done. right. apply elem_of_map_values. eauto.
Qed.

Lemma redis_key_inj channel t t' : redis_key channel t = redis_key channel t' → t = t'.
Proof.
  unfold redis_key. induction channel as [|a c IH]; simpl; intros Heq; simplify_eq/=; auto.
Qed.
End roots.

(** ** The in-memory variant satisfies the contract *)

Section memory.
Implicit Types (s : MemoryStorage) (h : Heap) (b : Backend) (t : string) (l : loc).

Lemma memory_lookup_store t l s h b s' b' :
  StoreThread t l s h b = (s', b') → ∀ h2 b2, LookupThread t s' h2 b2 = (Some l, s', h2).
Proof. intros [= <- <-] h2 b2. simpl. by rewrite lookup_insert_eq. Qed.

Lemma memory_lookup_stable t s h b l s' h' :
  LookupThread t s h b = (Some l, s', h') → ∀ h2 b2, LookupThread t s' h2 b2 = (Some l, s', h2).
Proof. intros [= Hl <- <-] h2 b2. simpl. by rewrite Hl. Qed.

Lemma memory_lookup_miss t s h b s' h' :
  LookupThread t s h b = (None, s', h') → s' = s ∧ h' = h.
Proof. by intros [= _ <- <-]. Qed.

Lemma memory_has_lookup t s h b :
  HasThread t s b = bool_decide (is_Some (LookupThread t s h b).1.1).
Proof. done. Qed.

Lemma memory_lookup_ok t s h b o s' h' :
  heap_ok h → memory_ok s b → LookupThread t s h b = (o, s', h') →
  heap_ok h' ∧ heap_extends h h' ∧ memory_ok s' b.
Proof. by intros Hok Hs [= <- <- <-]. Qed.

Lemma memory_lookup_root t s h b l s' h' :
  heap_ok h → memory_ok s b → LookupThread t s h b = (Some l, s', h') →
  (l ∈ GetChangedThreads s ∧ h' = h) ∨ fresh_thread h h' l.
Proof. intros _ _ [= Hl <- <-]. left. split; [|done]. apply elem_of_map_values. eauto. Qed.

Lemma memory_store_ok t l s h b s' b' :
  memory_ok s b → flat_thread h l → StoreThread t l s h b = (s', b') → memory_ok s' b'.
Proof. by intros ? _ [= <- <-]. Qed.

Lemma memory_changed_store t l s h b s' b' :
  StoreThread t l s h b = (s', b') →
  l ∈ GetChangedThreads s' ∧ GetChangedThreads s' ⊆ l :: GetChangedThreads s.
Proof.
  intros [= <- <-]. simpl.
  split; [apply map_values_insert_elem|apply map_values_insert_subseteq].
Qed.

Lemma memory_changed_lookup t s h b l s' h' :
  LookupThread t s h b = (Some l, s', h') →
  l ∈ GetChangedThreads s' ∧ GetChangedThreads s' ⊆ l :: GetChangedThreads s.
Proof.
  intros [= Hl <- <-]. split; [apply elem_of_map_values; eauto|].
  intros x ?. by right.
Qed.

Lemma memory_store_other t t' l s h b s' b' :
  t ≠ t' → StoreThread t l s h b = (s', b') →
  ∀ h2, (LookupThread t' s' h2 b').1.1 = (LookupThread t' s h2 b).1.1.
Proof. intros Hne [= <- <-] h2. simpl. by rewrite lookup_insert_ne. Qed.
End memory.

#[export] Instance MemoryStorage_laws : ThreadsStorageLaws MemoryStorage := {|
  store_ok := memory_ok;
  lookup_store := memory_lookup_store;
  lookup_stable := memory_lookup_stable;
  lookup_miss := memory_lookup_miss;
  has_lookup := memory_has_lookup;
  lookup_ok := memory_lookup_ok;
  lookup_root := memory_lookup_root;
  store_store_ok := memory_store_ok;
  changed_store := memory_changed_store;
  changed_lookup := memory_changed_lookup;
  store_other := memory_store_other;
|}.

(** ** The cache-backed variant satisfies the contract *)

Section redis.
Implicit Types (s : RedisStorage) (h : Heap) (b : Backend) (t : string) (l : loc).

Lemma redis_lookup_hit t s h b l :
  rs_cache s !! t = Some l → redis_lookup t s h b = (Some l, s, h).
Proof. intros Hl. unfold redis_lookup. by rewrite Hl. Qed.

Lemma redis_lookup_fetch t s h b doc :
  rs_cache s !! t = None → b !! redis_key (rs_channel s) t = Some doc →
  redis_lookup t s h b =
    (Some (alloc_tree doc h).1,
     mkRedisStorage (rs_channel s) (<[t := (alloc_tree doc h).1]> (rs_cache s)),
     (alloc_tree doc h).2).
Proof. intros Hc Hb. unfold redis_lookup. rewrite Hc, Hb. by destruct (alloc_tree doc h). Qed.

Lemma redis_lookup_absent t s h b :
  rs_cache s !! t = None → b !! redis_key (rs_channel s) t = None →
  redis_lookup t s h b = (None, s, h).
Proof. intros Hc Hb. unfold redis_lookup. by rewrite Hc, Hb. Qed.

(** The three ways a lookup can go. *)
Lemma redis_lookup_cases t s h b :
  (∃ l, rs_cache s !! t = Some l ∧ redis_lookup t s h b = (Some l, s, h)) ∨
  (∃ doc, rs_cache s !! t = None ∧ b !! redis_key (rs_channel s) t = Some doc ∧
     redis_lookup t s h b =
       (Some (alloc_tree doc h).1,
        mkRedisStorage (rs_channel s) (<[t := (alloc_tree doc h).1]> (rs_cache s)),
        (alloc_tree doc h).2)) ∨
  (rs_cache s !! t = None ∧ b !! redis_key (rs_channel s) t = None ∧
     redis_lookup t s h b = (None, s, h)).
Proof.
  destruct (rs_cache s !! t) as [l|] eqn:Hc; [left; eauto using redis_lookup_hit|right].
  destruct (b !! redis_key (rs_channel s) t) as [doc|] eqn:Hb.
  - left. eauto using redis_lookup_fetch.
  - right. eauto using redis_lookup_absent.
Qed.

Lemma redis_lookup_store t l s h b s' b' :
  StoreThread t l s h b = (s', b') → ∀ h2 b2, LookupThread t s' h2 b2 = (Some l, s', h2).
Proof. intros [= <- <-] h2 b2. apply redis_lookup_hit. simpl. apply lookup_insert_eq. Qed.

Lemma redis_lookup_stable t s h b l s' h' :
  LookupThread t s h b = (Some l, s', h') → ∀ h2 b2, LookupThread t s' h2 b2 = (Some l, s', h2).
Proof.
  simpl. intros Hlook h2 b2.
  destruct (redis_lookup_cases t s h b) as [(l0 & ? & Heq)|[(doc & ? & ? & Heq)|(? & ? & Heq)]];
    rewrite Heq in Hlook; simplify_eq; apply redis_lookup_hit; [done|].
  simpl. apply lookup_insert_eq.
Qed.

Lemma redis_lookup_miss t s h b s' h' :
  LookupThread t s h b = (None, s', h') → s' = s ∧ h' = h.
Proof.
  simpl. intros Hlook.
  destruct (redis_lookup_cases t s h b) as [(l0 & ? & Heq)|[(doc & ? & ? & Heq)|(? & ? & Heq)]];
    rewrite Heq in Hlook; by simplify_eq.
Qed.

Lemma redis_has_lookup t s h b :
  HasThread t s b = bool_decide (is_Some (LookupThread t s h b).1.1).
Proof.
  simpl.
  destruct (redis_lookup_cases t s h b) as [(l0 & Hc & ->)|[(doc & Hc & Hb & ->)|(Hc & Hb & ->)]];
    rewrite Hc, ?Hb; simpl; by rewrite ?bool_decide_eq_true_2 by eauto.
Qed.

Lemma redis_lookup_ok t s h b o s' h' :
  heap_ok h → redis_ok s b → LookupThread t s h b = (o, s', h') →
  heap_ok h' ∧ heap_extends h h' ∧ redis_ok s' b.
Proof.
  simpl. intros Hok Hb Hlook.
  destruct (redis_lookup_cases t s h b) as [(l0 & ? & Heq)|[(doc & ? & Hdoc & Heq)|(? & ? & Heq)]];
    rewrite Heq in Hlook; simplify_eq; [done| |done].
  destruct (Hb _ _ Hdoc) as [Htok Hdepth].
  split_and!; [by apply alloc_tree_ok|by apply alloc_tree_extends|done].
Qed.

Lemma redis_lookup_root t s h b l s' h' :
  heap_ok h → redis_ok s b → LookupThread t s h b = (Some l, s', h') →
  (l ∈ GetChangedThreads s ∧ h' = h) ∨ fresh_thread h h' l.
Proof.
  simpl. intros Hok Hb Hlook.
  destruct (redis_lookup_cases t s h b) as [(l0 & ? & Heq)|[(doc & ? & Hdoc & Heq)|(? & ? & Heq)]];
    rewrite Heq in Hlook; simplify_eq.
  - left. split; [|done]. apply elem_of_map_values. eauto.
  - right. destruct (Hb _ _ Hdoc) as [Htok Hdepth]. by apply alloc_tree_fresh_thread.
Qed.

Lemma redis_store_ok t l s h b s' b' :
  redis_ok s b → flat_thread h l → StoreThread t l s h b = (s', b') → redis_ok s' b'.
Proof.
  intros Hb Hl [= <- <-].
  destruct (marshal h l) as [doc|] eqn:Hm; [|done].
  intros k d. destruct (decide (redis_key (rs_channel s) t = k)) as [<-|].
  - rewrite lookup_insert_eq. intros [= <-].
    split; [by eapply resolve_tree_ok|by eapply resolve_flat_depth].
  - rewrite lookup_insert_ne by done. apply Hb.
Qed.

Lemma redis_changed_store t l s h b s' b' :
  StoreThread t l s h b = (s', b') →
  l ∈ GetChangedThreads s' ∧ GetChangedThreads s' ⊆ l :: GetChangedThreads s.
Proof.
  intros [= <- <-]. simpl.
  split; [apply map_values_insert_elem|apply map_values_insert_subseteq].
Qed.

Lemma redis_changed_lookup t s h b l s' h' :
  LookupThread t s h b = (Some l, s', h') →
  l ∈ GetChangedThreads s' ∧ GetChangedThreads s' ⊆ l :: GetChangedThreads s.
Proof.
  simpl. intros Hlook.
  destruct (redis_lookup_cases t s h b) as [(l0 & ? & Heq)|[(doc & ? & ? & Heq)|(? & ? & Heq)]];
    rewrite Heq in Hlook; simplify_eq; simpl.
  - split; [apply elem_of_map_values; eauto|]. intros x ?. by right.
  - split; [apply map_values_insert_elem|apply map_values_insert_subseteq].
Qed.

Lemma redis_store_other t t' l s h b s' b' :
  t ≠ t' → StoreThread t l s h b = (s', b') →
  ∀ h2, (LookupThread t' s' h2 b').1.1 = (LookupThread t' s h2 b).1.1.
Proof.
  intros Hne [= <- <-] h2. simpl. unfold redis_lookup. simpl.
  rewrite lookup_insert_ne by done.
  assert (∀ doc, <[redis_key (rs_channel s) t := doc]> b !! redis_key (rs_channel s) t'
                 = b !! redis_key (rs_channel s) t') as Hb.
  { intros doc. apply lookup_insert_ne. by intros ?%redis_key_inj. }
  destruct (marshal h l); rewrite ?Hb;
    destruct (rs_cache s !! t'); [done| |done|];
    destruct (b !! _); try done; by destruct (alloc_tree _ _).
Qed.
End redis.

#[export] Instance RedisStorage_laws : ThreadsStorageLaws RedisStorage := {|
  store_ok := redis_ok;
  lookup_store := redis_lookup_store;
  lookup_stable := redis_lookup_stable;
  lookup_miss := redis_lookup_miss;
  has_lookup := redis_has_lookup;
  lookup_ok := redis_lookup_ok;
  lookup_root := redis_lookup_root;
  store_store_ok := redis_store_ok;
  changed_store := redis_changed_store;
  changed_lookup := redis_changed_lookup;
  store_other := redis_store_other;
|}.

(** ** An interface value satisfies the contract *)

Section storage.
Implicit Types (s : Storage) (h : Heap) (b : Backend) (t : string) (l : loc).

Lemma storage_lookup_inv t s h b o s' h' :
  LookupThread t s h b = (o, s', h') →
  (∃ m m', s = InMemory m ∧ s' = InMemory m' ∧ LookupThread t m h b = (o, m', h')) ∨
  (∃ r r', s = InRedis r ∧ s' = InRedis r' ∧ LookupThread t r h b = (o, r', h')).
Proof.
  destruct s as [m|r]; simpl.
  - intros [= <- <- <-]. left. by eexists _, _.
  - destruct (redis_lookup t r h b) as [[o' r'] h''] eqn:Hlook.
    intros [= <- <- <-]. right. by eexists _, _.
Qed.

Lemma storage_store_inv t l s h b s' b' :
  StoreThread t l s h b = (s', b') →
  (∃ m m', s = InMemory m ∧ s' = InMemory m' ∧ StoreThread t l m h b = (m', b')) ∨
  (∃ r r', s = InRedis r ∧ s' = InRedis r' ∧ StoreThread t l r h b = (r', b')).
Proof.
  destruct s as [m|r]; simpl; intros [= <- <-]; [left|right]; by eexists _, _.
Qed.

Lemma storage_lookup_variant_m t m h b :
  LookupThread t (InMemory m) h b =
    ((LookupThread t m h b).1.1, InMemory (LookupThread t m h b).1.2, (LookupThread t m h b).2).
Proof. done. Qed.

Lemma storage_lookup_variant_r t r h b :
  LookupThread t (InRedis r) h b =
    ((LookupThread t r h b).1.1, InRedis (LookupThread t r h b).1.2, (LookupThread t r h b).2).
Proof. simpl. by destruct (redis_lookup t r h b) as [[??]?]. Qed.

Lemma storage_lookup_store t l s h b s' b' :
  StoreThread t l s h b = (s', b') → ∀ h2 b2, LookupThread t s' h2 b2 = (Some l, s', h2).
Proof.
  intros [(m & m' & -> & -> & Hst)|(r & r' & -> & -> & Hst)]%storage_store_inv h2 b2.
  - by rewrite storage_lookup_variant_m, (memory_lookup_store _ _ _ _ _ _ _ Hst h2 b2).
  - by rewrite storage_lookup_variant_r, (redis_lookup_store _ _ _ _ _ _ _ Hst h2 b2).
Qed.

Lemma storage_lookup_stable t s h b l s' h' :
  LookupThread t s h b = (Some l, s', h') → ∀ h2 b2, LookupThread t s' h2 b2 = (Some l, s', h2).
Proof.
  intros [(m & m' & -> & -> & Hl)|(r & r' & -> & -> & Hl)]%storage_lookup_inv h2 b2.
  - by rewrite storage_lookup_variant_m, (memory_lookup_stable _ _ _ _ _ _ _ Hl h2 b2).
  - by rewrite storage_lookup_variant_r, (redis_lookup_stable _ _ _ _ _ _ _ Hl h2 b2).
Qed.

Lemma storage_lookup_miss t s h b s' h' :
  LookupThread t s h b = (None, s', h') → s' = s ∧ h' = h.
Proof.
  intros [(m & m' & -> & -> & Hl)|(r & r' & -> & -> & Hl)]%storage_lookup_inv.
  - by destruct (memory_lookup_miss _ _ _ _ _ _ Hl) as [-> ->].
  - by destruct (redis_lookup_miss _ _ _ _ _ _ Hl) as [-> ->].
Qed.

Lemma storage_has_lookup t s h b :
  HasThread t s b = bool_decide (is_Some (LookupThread t s h b).1.1).
Proof.
  destruct s as [m|r].
  - rewrite storage_lookup_variant_m. apply memory_has_lookup.
  - rewrite storage_lookup_variant_r. apply redis_has_lookup.
Qed.

Lemma storage_lookup_ok t s h b o s' h' :
  heap_ok h → storage_ok s b → LookupThread t s h b = (o, s', h') →
  heap_ok h' ∧ heap_extends h h' ∧ storage_ok s' b.
Proof.
  intros Hok Hs [(m & m' & -> & -> & Hl)|(r & r' & -> & -> & Hl)]%storage_lookup_inv.
  - by eapply memory_lookup_ok.
  - by eapply redis_lookup_ok.
Qed.

Lemma storage_lookup_root t s h b l s' h' :
  heap_ok h → storage_ok s b → LookupThread t s h b = (Some l, s', h') →
  (l ∈ GetChangedThreads s ∧ h' = h) ∨ fresh_thread h h' l.
Proof.
  intros Hok Hs [(m & m' & -> & -> & Hl)|(r & r' & -> & -> & Hl)]%storage_lookup_inv.
  - by eapply memory_lookup_root.
  - by eapply redis_lookup_root.
Qed.

Lemma storage_store_ok t l s h b s' b' :
  storage_ok s b → flat_thread h l → StoreThread t l s h b = (s', b') → storage_ok s' b'.
Proof.
  intros Hs Hl [(m & m' & -> & -> & Hst)|(r & r' & -> & -> & Hst)]%storage_store_inv.
  - by eapply memory_store_ok.
  - by eapply redis_store_ok.
Qed.

Lemma storage_changed_store t l s h b s' b' :
  StoreThread t l s h b = (s', b') →
  l ∈ GetChangedThreads s' ∧ GetChangedThreads s' ⊆ l :: GetChangedThreads s.
Proof.
  intros [(m & m' & -> & -> & Hst)|(r & r' & -> & -> & Hst)]%storage_store_inv.
  - by eapply memory_changed_store.
  - by eapply redis_changed_store.
Qed.

Lemma storage_changed_lookup t s h b l s' h' :
  LookupThread t s h b = (Some l, s', h') →
  l ∈ GetChangedThreads s' ∧ GetChangedThreads s' ⊆ l :: GetChangedThreads s.
Proof.
  intros [(m & m' & -> & -> & Hl)|(r & r' & -> & -> & Hl)]%storage_lookup_inv.
  - by eapply memory_changed_lookup.
  - by eapply redis_changed_lookup.
Qed.

Lemma storage_store_other t t' l s h b s' b' :
  t ≠ t' → StoreThread t l s h b = (s', b') →
  ∀ h2, (LookupThread t' s' h2 b').1.1 = (LookupThread t' s h2 b).1.1.
Proof.
  intros Hne [(m & m' & -> & -> & Hst)|(r & r' & -> & -> & Hst)]%storage_store_inv h2.
  - rewrite !storage_lookup_variant_m. by eapply memory_store_other.
  - rewrite !storage_lookup_variant_r. by eapply redis_store_other.
Qed.
End storage.

#[export] Instance Storage_laws : ThreadsStorageLaws Storage := {|
  store_ok := storage_ok;
  lookup_store := storage_lookup_store;
  lookup_stable := storage_lookup_stable;
  lookup_miss := storage_lookup_miss;
  has_lookup := storage_has_lookup;
  lookup_ok := storage_lookup_ok;
  lookup_root := storage_lookup_root;
  store_store_ok := storage_store_ok;
  changed_store := storage_changed_store;
  changed_lookup := storage_changed_lookup;
  store_other := storage_store_other;
|}.

(** The test of the cache-backed store passes on the model: a post
    stored is found with its message, a second store on the same backend
    and channel finds it too and marks only what it looked up as changed,
    and a reply appended to the pointer that a lookup returned is there at
    the next lookup. *)
Example TestRedisStorage_passes : TestRedisStorage = true.
Proof. vm_compute. reflexivity. Qed.

(** Whatever the variant, a consistent store has a well-formed backend, and
    a new store is consistent with a well-formed backend. *)
Lemma storage_ok_backend (s : Storage) (b : Backend) : store_ok s b ↔ backend_ok b.
Proof. by destruct s. Qed.

Lemma backend_ok_empty : backend_ok ∅.
Proof. intros k doc Hk. by rewrite lookup_empty in Hk. Qed.

Lemma GetChangedThreads_new_memory : GetChangedThreads (InMemory newMemoryStorage) = [].
Proof. apply map_values_empty. Qed.

Lemma GetChangedThreads_new_redis channelName :
  GetChangedThreads (InRedis (newRedisStorage channelName)) = [].
Proof. apply map_values_empty. Qed.

#[export] Hint Resolve backend_ok_empty : mm.

(** Storing under a key replaces what the map held under it. *)
Lemma map_values_insert_delete {K A} `{Countable K} (m : gmap K A) (k : K) (x : A) :
  map_values (<[k:=x]> m) ≡ₚ x :: map_values (delete k m).
Proof.
  rewrite <-(insert_delete_eq m k x). apply map_values_insert_fresh, lookup_delete_eq.
Qed.

(** A store with an empty cache that fetches a document lists exactly the
    copy as changed. *)
Lemma map_values_singleton {K A} `{Countable K} (k : K) (x : A) :
  map_values (<[k:=x]> (∅ : gmap K A)) = [x].
Proof. unfold map_values. by rewrite insert_empty, map_to_list_singleton. Qed.

(** What a new cache-backed store finds under a key of the backend. *)
Lemma redis_lookup_new channelName t h b doc :
  b !! redis_key channelName t = Some doc →
  LookupThread t (newRedisStorage channelName) h b
  = (Some (alloc_tree doc h).1,
     mkRedisStorage channelName {[t := (alloc_tree doc h).1]}, (alloc_tree doc h).2).
Proof. intros Hb. apply (redis_lookup_fetch t (newRedisStorage channelName)); by simpl. Qed.

(** ** The properties of the stores *)

(** C23. Store then look up, whatever the variant: the pointer stored under
    a timestamp is what the store hands out and reports to have from then
    on, whatever happens to the heap and the backend, and the other
    timestamps are not affected. *)
Theorem Storage_store_lookup (s : Storage) (t : string) (l : loc) (h h2 : Heap)
    (b b2 : Backend) :
  LookupThread t (StoreThread t l s h b).1 h2 b2 = (Some l, (StoreThread t l s h b).1, h2) ∧
  HasThread t (StoreThread t l s h b).1 b2 = true ∧
  l ∈ GetChangedThreads (StoreThread t l s h b).1 ∧
  ∀ t', t ≠ t' →
    (LookupThread t' (StoreThread t l s h b).1 h2 (StoreThread t l s h b).2).1.1
    = (LookupThread t' s h2 b).1.1.
Proof.
  destruct (StoreThread t l s h b) as [s' b'] eqn:Hst. cbn [fst snd].
  pose proof (storage_lookup_store _ _ _ _ _ _ _ Hst h2 b2) as Hl.
  split_and!; [done| | |].
  - rewrite (storage_has_lookup t s' h2 b2), Hl. by apply bool_decide_eq_true_2.
  - by eapply storage_changed_store.
  - intros t' Hne. by eapply storage_store_other.
Qed.

(** C24. The cache-backed stores of a channel share the backend: a thread
    that one store stored is found by a new store of the same channel, as a
    copy in fresh cells that serialises to the same document and is the
    only thread the new store lists as changed. *)
Theorem redis_store_shared (channelName t : string) (s : RedisStorage) (l : loc)
    (h h2 : Heap) (b : Backend) (doc : PostTree) :
  rs_channel s = channelName → marshal h l = Some doc → heap_ok h2 →
  ∃ l' s' h',
    LookupThread t (newRedisStorage channelName) h2 (StoreThread t l s h b).2
      = (Some l', s', h') ∧
    resolve (tree_depth doc) h' l' = Some doc ∧
    deref h2 l' = None ∧ heap_extends h2 h' ∧
    GetChangedThreads s' = [l'].
Proof.
  intros <- Hdoc Hh2. simpl. unfold redis_store. rewrite Hdoc. cbn [snd].
  do 3 eexists. split; [apply redis_lookup_new, lookup_insert_eq|].
  assert (tree_ok doc) as Hok by by eapply resolve_tree_ok.
  destruct (alloc_tree_spec_all doc h2 Hh2 Hok) as (? & ? & ?).
  split_and!; [done| |done|apply map_values_singleton].
  by apply deref_fresh, alloc_tree_loc_ge.
Qed.

Lemma redis_store_shared_witness :
  ∃ l' s' h',
    LookupThread "21" (newRedisStorage "channel") (alloc (new_post "" "" "msg" 0) empty_heap).2
      (StoreThread "21" (alloc (new_post "" "" "msg" 0) empty_heap).1
         (newRedisStorage "channel") (alloc (new_post "" "" "msg" 0) empty_heap).2 ∅).2
      = (Some l', s', h') ∧
    resolve (tree_depth (PostNode (new_post "" "" "msg" 0) [])) h' l'
      = Some (PostNode (new_post "" "" "msg" 0) []) ∧
    deref (alloc (new_post "" "" "msg" 0) empty_heap).2 l' = None ∧
    heap_extends (alloc (new_post "" "" "msg" 0) empty_heap).2 h' ∧
    GetChangedThreads s' = [l'].
Proof.
  apply (redis_store_shared "channel" "21" (newRedisStorage "channel")); [done|done|].
  apply alloc_ok, empty_heap_ok.
Defined.
