(* ===== verification/Threads.v ===== *)
(** * The thread assembly algorithm

    [AddPostToThreads] (src/unnamed/part_001, lines 289-336) takes a raw
    message, the post built from it (a pointer), the thread store and the
    timestamp ledger of the channel.  It marks the post of a direct or group
    channel, gives it a creation time that no other post of the channel has,
    and then either appends it to the root that its thread timestamp names
    or stores it as a root under its own timestamp.

    The function mutates the post, the ledger, the store and possibly the
    root it looks up; here it maps a [ThreadsState] (store, ledger, heap,
    backend, log) to the next one.  The result is [None] where the source
    would dereference a pointer that addresses no post, or where the
    de-duplication loop would not end; [AddPostToThreads_total] shows that
    neither happens on the states the pipeline produces.

    The theorems are proved for every store that satisfies
    [ThreadsStorageLaws], [AddPostToThreads_root_replaces] for the
    in-memory store.  [channel_run] is the sequence of calls that the loop
    of [TransformPosts] makes for one channel, each on a post made for it;
    the examples at the end run two channels on the in-memory store. *)

From S2P Require Import Prelude Timestamps Utf8 Model Heap Storage.

#[local] Open Scope Z_scope.

Record ThreadsState (S : Type) : Type := mkThreadsState {
  ts_threads : S;
  ts_timestamps : gset Z;
  ts_heap : Heap;
  ts_backend : Backend;
  ts_log : list LogEvent;
}.
Arguments mkThreadsState {S} _ _ _ _ _.
Arguments ts_threads {S} _.
Arguments ts_timestamps {S} _.
Arguments ts_heap {S} _.
Arguments ts_backend {S} _.
Arguments ts_log {S} _.

(** "direct and group posts need the channel members in the import line" *)
Definition mark_direct (channel : IntermediateChannel) (post : IntermediatePost)
    : IntermediatePost :=
  if bool_decide (ch_Type channel = ChannelTypeDirect ∨ ch_Type channel = ChannelTypeGroup)
  then set_ChannelMembers (ch_MembersUsernames channel) (set_IsDirect true post)
  else set_IsDirect false post.

(** "if post is part of a thread" *)
Definition is_reply (original : SlackPost) : bool :=
  bool_decide (sp_ThreadTS original ≠ "") &&
  bool_decide (sp_ThreadTS original ≠ sp_TimeStamp original).

(** The warning on an existing root followed by [threads.StoreThread]. *)
Definition store_root {S : Type} `{!ThreadsStorage S} (threadTS : string) (post : loc)
    (st : ThreadsState S) : ThreadsState S :=
  let log :=
    if HasThread threadTS (ts_threads st) (ts_backend st)
    then ts_log st ++ [WarnOverwritingRoot threadTS]
    else ts_log st in
  let '(threads, backend) :=
    StoreThread threadTS post (ts_threads st) (ts_heap st) (ts_backend st) in
  mkThreadsState threads (ts_timestamps st) (ts_heap st) backend log.

(** "direct and group posts need the channel members in the import line",
    then "avoid timestamp duplications": the time assigned, the ledger and
    the heap afterwards. *)
Definition stamp_post (post : loc) (channel : IntermediateChannel) (timestamps : gset Z)
    (h : Heap) : option (Z * gset Z * Heap) :=
  let h1 := update post (mark_direct channel) h in
  p ← deref h1 post;
  '(createAt, timestamps') ← avoid_timestamp_duplication timestamps (p_CreateAt p);
  Some (createAt, timestamps', update post (set_CreateAt createAt) h1).

(** "if post is part of a thread" *)
Definition add_reply {S : Type} `{!ThreadsStorage S} (original : SlackPost) (post : loc)
    (importWorkflowPosts : bool) (st : ThreadsState S) : option (ThreadsState S) :=
  let '(rootPost, threads, h) :=
    LookupThread (sp_ThreadTS original) (ts_threads st) (ts_heap st) (ts_backend st) in
  match rootPost with
  | None =>
    Some (mkThreadsState threads (ts_timestamps st) h (ts_backend st)
            (ts_log st ++ [ErrRootPostNotFound original]))
  | Some rootPost =>
    root ← deref h rootPost;
    if negb importWorkflowPosts && bool_decide (p_User root = WorkflowUserName)
    then Some (mkThreadsState threads (ts_timestamps st) h (ts_backend st) (ts_log st))
    else Some (mkThreadsState threads (ts_timestamps st)
                 (update rootPost (set_Replies_app post) h) (ts_backend st) (ts_log st))
  end.

(** [post.Sanitise()], then "if post is the root of a thread" and the
    final store under the post's own timestamp. *)
Definition add_root {S : Type} `{!ThreadsStorage S} (original : SlackPost) (post : loc)
    (st : ThreadsState S) : ThreadsState S :=
  let st' := mkThreadsState (ts_threads st) (ts_timestamps st)
               (update post Sanitise_post (ts_heap st)) (ts_backend st) (ts_log st) in
  if bool_decide (sp_TimeStamp original = sp_ThreadTS original)
  then store_root (sp_ThreadTS original) post st'
  else store_root (sp_TimeStamp original) post st'.

Definition AddPostToThreads {S : Type} `{!ThreadsStorage S} (original : SlackPost) (post : loc)
    (channel : IntermediateChannel) (importWorkflowPosts : bool) (st : ThreadsState S)
    : option (ThreadsState S) :=
  '(_, timestamps, h) ← stamp_post post channel (ts_timestamps st) (ts_heap st);
  let st1 := mkThreadsState (ts_threads st) timestamps h (ts_backend st) (ts_log st) in
  if is_reply original
  then add_reply original post importWorkflowPosts st1
  else Some (add_root original post st1).

(** The post as [AddPostToThreads] leaves it before filing it: marked and
    stamped with [createAt]. *)
Definition stamped (channel : IntermediateChannel) (createAt : Z) (p : IntermediatePost)
    : IntermediatePost :=
  set_CreateAt createAt (mark_direct channel p).

(** ** The invariant of a channel's state *)

Definition threads_inv {S : Type} `{!ThreadsStorage S, !ThreadsStorageLaws S}
    (st : ThreadsState S) : Prop :=
  heap_ok (ts_heap st) ∧
  store_ok (ts_threads st) (ts_backend st) ∧
  roots_ok (GetChangedThreads (ts_threads st)) (ts_heap st) ∧
  ledger_ok (ts_timestamps st).

Definition post_fresh {S : Type} `{!ThreadsStorage S} (st : ThreadsState S) (post : loc) : Prop :=
  ∃ p, deref (ts_heap st) post = Some p ∧ p_Replies p = [] ∧ in_int64 (p_CreateAt p) ∧
       unreferenced (GetChangedThreads (ts_threads st)) (ts_heap st) post.

(** ** The run of a channel

    The loop of [TransformPosts] over the messages of a channel makes a
    post for each message it accepts and hands it to [AddPostToThreads]:
    [file_post] is one such round, [channel_run] the states that the
    rounds reach from a ledger that is empty, with the pointers handed
    over so far. *)
Definition file_post {S : Type} `{!ThreadsStorage S} (original : SlackPost)
    (p : IntermediatePost) (channel : IntermediateChannel) (importWorkflowPosts : bool)
    (st : ThreadsState S) : option (ThreadsState S) :=
  let ph := alloc p (ts_heap st) in
  AddPostToThreads original ph.1 channel importWorkflowPosts
    (mkThreadsState (ts_threads st) (ts_timestamps st) ph.2 (ts_backend st) (ts_log st)).

Inductive channel_run {S : Type} `{!ThreadsStorage S, !ThreadsStorageLaws S}
    (channel : IntermediateChannel) (importWorkflowPosts : bool)
    : ThreadsState S → list loc → Prop :=
  | run_start st :
      threads_inv st → ts_timestamps st = ∅ →
      channel_run channel importWorkflowPosts st []
  | run_file st filed original p st' :
      channel_run channel importWorkflowPosts st filed →
      p_Replies p = [] → in_int64 (p_CreateAt p) →
      file_post original p channel importWorkflowPosts st = Some st' →
      channel_run channel importWorkflowPosts st' (filed ++ [next (ts_heap st)]).

(** The creation times of the posts filed, in the order of filing. *)
Definition times_of {S : Type} (st : ThreadsState S) (filed : list loc) (times : list Z)
    : Prop :=
  Forall2 (λ l c, p_CreateAt <$> deref (ts_heap st) l = Some c) filed times.

(** ** A channel on the in-memory store

    The messages of the examples: a root at "10", a reply to it at "15", a
    second message whose timestamp is "10" again, one in the same
    millisecond under another timestamp, and a reply whose root is not in
    the export. *)

Definition example_channel : IntermediateChannel :=
  mkIntermediateChannel "C1" "general" "general" "general" [] [] "" "" "" ChannelTypeOpen.

Definition example_message (ts thread text : string) : SlackPost :=
  mkSlackPost "U1" text ts thread "message" "" None [] [] None.

Definition example_root : SlackPost := example_message "10" "" "root".
Definition example_reply : SlackPost := example_message "15" "10" "reply".
Definition example_same : SlackPost := example_message "10" "" "other".
Definition example_near : SlackPost := example_message "10.1" "" "near".
Definition example_orphan : SlackPost := example_message "20" "19" "orphan".

Definition example_state0 : ThreadsState MemoryStorage :=
  mkThreadsState newMemoryStorage ∅ empty_heap ∅ [].

(** The post of a message, allocated: the pointer and the state in which
    the pipeline calls [AddPostToThreads]. *)
Definition example_alloc (original : SlackPost) (createAt : Z)
    (st : ThreadsState MemoryStorage) : loc * ThreadsState MemoryStorage :=
  let ph := alloc (new_post "alice" "general" (sp_Text original) createAt) (ts_heap st) in
  (ph.1, mkThreadsState (ts_threads st) (ts_timestamps st) ph.2 (ts_backend st) (ts_log st)).

Definition example_add (original : SlackPost) (createAt : Z)
    (st : ThreadsState MemoryStorage) : option (ThreadsState MemoryStorage) :=
  AddPostToThreads original (example_alloc original createAt st).1 example_channel false
    (example_alloc original createAt st).2.

(** The state after the root, and after the root and its reply. *)
Definition example_state1 : ThreadsState MemoryStorage :=
  default example_state0 (example_add example_root 10 example_state0).

Definition example_state2 : ThreadsState MemoryStorage :=
  default example_state0 (example_add example_reply 15 example_state1).

(** A reply to the root whose message is one rune over the size limit. *)
Definition example_long_text : string :=
  string_of_bytes (replicate (S PosgreSQLMaxPostSize) 97).

Definition example_long_reply : SlackPost := example_message "16" "10" example_long_text.

(** A sequence of messages with their creation times, added in order. *)
Fixpoint example_adds (msgs : list (SlackPost * Z)) (st : ThreadsState MemoryStorage)
    : option (ThreadsState MemoryStorage) :=
  match msgs with
  | [] => Some st
  | (original, createAt) :: msgs' =>
    st' ← example_add original createAt st; example_adds msgs' st'
  end.

Definition example_final (msgs : list (SlackPost * Z)) : ThreadsState MemoryStorage :=
  default example_state0 (example_adds msgs example_state0).

(** The threads of a state, resolved. *)
Definition resolved_threads {S : Type} `{!ThreadsStorage S} (st : ThreadsState S)
    : list (option PostTree) :=
  resolve 2 (ts_heap st) <$> GetChangedThreads (ts_threads st).

(** Projections of a state written out with its constructor. *)
Ltac st_simpl := cbn [ts_heap ts_threads ts_backend ts_timestamps ts_log] in *.

Section threads.
Context {S : Type} `{!ThreadsStorage S, !ThreadsStorageLaws S}.
Implicit Types (s : S) (st : ThreadsState S) (post root : loc) (original : SlackPost).
Implicit Types (channel : IntermediateChannel) (p : IntermediatePost) (h : Heap).
Implicit Types (b : Backend) (log : list LogEvent) (ts : gset Z).

Lemma mark_direct_Replies channel p : p_Replies (mark_direct channel p) = p_Replies p.
Proof. unfold mark_direct. by case_bool_decide. Qed.

Lemma mark_direct_CreateAt channel p : p_CreateAt (mark_direct channel p) = p_CreateAt p.
Proof. unfold mark_direct. by case_bool_decide. Qed.

Lemma mark_direct_Message channel p : p_Message (mark_direct channel p) = p_Message p.
Proof. unfold mark_direct. by case_bool_decide. Qed.

Lemma stamped_Replies channel c p : p_Replies (stamped channel c p) = p_Replies p.
Proof. apply mark_direct_Replies. Qed.

Lemma stamped_CreateAt channel c p : p_CreateAt (stamped channel c p) = c.
Proof. done. Qed.

(** ** Marking and stamping *)

Lemma stamp_post_eq post channel ts h p :
  deref h post = Some p →
  stamp_post post channel ts h =
    '(c, ts') ← avoid_timestamp_duplication ts (p_CreateAt p);
    Some (c, ts', update post (stamped channel c) h).
Proof.
  intros Hp. unfold stamp_post. rewrite (deref_update_Some _ _ _ _ Hp).
  cbn [mbind option_bind]. rewrite mark_direct_CreateAt.
  destruct (avoid_timestamp_duplication _ _) as [[c ts']|]; [|done].
  cbn. by rewrite update_update.
Qed.

Lemma stamp_post_inv post channel ts h c ts' h' :
  stamp_post post channel ts h = Some (c, ts', h') →
  ∃ p, deref h post = Some p ∧
       avoid_timestamp_duplication ts (p_CreateAt p) = Some (c, ts') ∧
       h' = update post (stamped channel c) h.
Proof.
  intros Hst. destruct (deref h post) as [p|] eqn:Hp.
  - rewrite (stamp_post_eq _ _ _ _ _ Hp) in Hst. exists p.
    destruct (avoid_timestamp_duplication _ _) as [[c1 ts1]|]; by simplify_eq/=.
  - unfold stamp_post in Hst. by rewrite deref_update, Hp in Hst.
Qed.

(** ** Updates of a cell that no thread mentions *)

Lemma threads_inv_update s ts h b log post f :
  threads_inv (mkThreadsState s ts h b log) →
  unreferenced (GetChangedThreads s) h post →
  threads_inv (mkThreadsState s ts (update post f h) b log).
Proof.
  unfold threads_inv. simpl. intros (?&?&?&?) ?.
  split_and!; [by apply update_ok|done|by apply roots_ok_update_unreferenced|done].
Qed.

Lemma post_fresh_update s ts h b log post f :
  (∀ p, p_Replies (f p) = p_Replies p) →
  (∀ p, in_int64 (p_CreateAt p) → in_int64 (p_CreateAt (f p))) →
  post_fresh (mkThreadsState s ts h b log) post →
  post_fresh (mkThreadsState s ts (update post f h) b log) post.
Proof.
  intros Hr Hc (p & Hp & Hp0 & Hin & Hun). exists (f p). simpl in *.
  rewrite Hr. eauto 10 using deref_update_Some, unreferenced_update.
Qed.

Lemma threads_inv_log s ts h b log log' :
  threads_inv (mkThreadsState s ts h b log) → threads_inv (mkThreadsState s ts h b log').
Proof. done. Qed.

Lemma stamp_post_threads_inv s ts h b log post channel c ts' h' :
  threads_inv (mkThreadsState s ts h b log) →
  post_fresh (mkThreadsState s ts h b log) post →
  stamp_post post channel ts h = Some (c, ts', h') →
  threads_inv (mkThreadsState s ts' h' b log) ∧
  post_fresh (mkThreadsState s ts' h' b log) post.
Proof.
  intros Hinv (p & Hp & Hp0 & Hin & Hun) (p' & Hp' & Hts & ->)%stamp_post_inv.
  simpl in *. simplify_eq. destruct Hinv as (?&?&?&Hl). simpl in *.
  destruct (avoid_timestamp_duplication_ledger_ok _ _ _ _ Hin Hl Hts).
  split.
  - by apply (threads_inv_update s ts' h b log post).
  - exists (stamped channel c p).
    split_and!; [by apply deref_update_Some|by rewrite stamped_Replies|done|].
    by apply unreferenced_update.
Qed.
(** ** Filing a root *)

Lemma store_root_eq t post s ts h b log :
  store_root t post (mkThreadsState s ts h b log) =
    mkThreadsState (StoreThread t post s h b).1 ts h (StoreThread t post s h b).2
      (if HasThread t s b then log ++ [WarnOverwritingRoot t] else log).
Proof. unfold store_root. simpl. by destruct (StoreThread t post s h b). Qed.

Lemma store_root_threads_inv t post st :
  threads_inv st → post_fresh st post → threads_inv (store_root t post st).
Proof.
  destruct st as [s ts h b log]. intros (?&?&?&?) (p & Hp & Hp0 & _ & Hun).
  rewrite store_root_eq. simpl in *.
  destruct (StoreThread t post s h b) as [s' b'] eqn:Hst. simpl.
  destruct (changed_store _ _ _ _ _ _ _ Hst) as [_ Hsub].
  split_and!; simpl; [done| |by eauto using roots_ok_subseteq, roots_ok_cons_post|done].
  eapply store_store_ok; [done| |done]. by eapply flat_thread_leaf.
Qed.

Lemma add_root_eq original post s ts h b log :
  add_root original post (mkThreadsState s ts h b log) =
    store_root (sp_TimeStamp original) post
      (mkThreadsState s ts (update post Sanitise_post h) b log).
Proof. unfold add_root. simpl. by case_bool_decide as Heq; [rewrite Heq|]. Qed.

Lemma add_root_threads_inv original post st :
  threads_inv st → post_fresh st post → threads_inv (add_root original post st).
Proof.
  destruct st as [s ts h b log]. intros Hinv Hfresh. rewrite add_root_eq.
  apply store_root_threads_inv.
  - apply threads_inv_update; [done|]. by destruct Hfresh as (?&?&?&?&?).
  - apply post_fresh_update; [apply Sanitise_post_Replies| |done].
    intros p. by rewrite Sanitise_post_CreateAt.
Qed.

(** ** Filing a reply *)

Lemma lookup_threads_inv t s ts h b log post o s' h' :
  threads_inv (mkThreadsState s ts h b log) →
  post_fresh (mkThreadsState s ts h b log) post →
  LookupThread t s h b = (o, s', h') →
  threads_inv (mkThreadsState s' ts h' b log) ∧
  post_fresh (mkThreadsState s' ts h' b log) post ∧
  ∀ root, o = Some root → root ∈ GetChangedThreads s' ∧ root ≠ post.
Proof.
  intros (Hh & Hs & Hroots & Hl) (p & Hp & Hp0 & Hin & Hun) Hlook. simpl in *.
  destruct (lookup_ok _ _ _ _ _ _ _ Hh Hs Hlook) as (Hh' & Hext & Hs').
  destruct o as [root|]; last first.
  { apply lookup_miss in Hlook as [-> ->]. split_and!; [done|by exists p|done]. }
  destruct (changed_lookup _ _ _ _ _ _ _ Hlook) as [Hin' Hsub].
  assert (roots_ok (root :: GetChangedThreads s) h' ∧
          unreferenced (root :: GetChangedThreads s) h' post) as [Hr' Hun'].
  { destruct (lookup_root _ _ _ _ _ _ _ Hh Hs Hlook) as [[Hold ->]|Hfresh].
    - assert (root :: GetChangedThreads s ⊆ GetChangedThreads s)
        by by apply list_subseteq_cons_iff.
      eauto using roots_ok_subseteq, unreferenced_subseteq.
    - eauto using roots_ok_cons_fresh, unreferenced_cons_fresh. }
  pose proof (unreferenced_subseteq _ _ _ _ Hsub Hun') as Hun''.
  split_and!.
  - split_and!; simpl; eauto using roots_ok_subseteq.
  - exists p. split_and!; eauto using deref_extends.
  - intros ? [= <-]. split; [done|]. intros ->. by destruct Hun''.
Qed.

Lemma add_reply_orphan original post iw s ts h b log :
  HasThread (sp_ThreadTS original) s b = false →
  add_reply original post iw (mkThreadsState s ts h b log) =
    Some (mkThreadsState s ts h b (log ++ [ErrRootPostNotFound original])).
Proof.
  rewrite (has_lookup _ _ h). unfold add_reply. simpl.
  destruct (LookupThread _ s h b) as [[[root|] s'] h'] eqn:Hlook; simpl.
  - done.
  - by apply lookup_miss in Hlook as [-> ->].
Qed.

Lemma add_reply_found original post iw s ts h b log root s' h' rp :
  LookupThread (sp_ThreadTS original) s h b = (Some root, s', h') →
  deref h' root = Some rp →
  add_reply original post iw (mkThreadsState s ts h b log) =
    Some (mkThreadsState s' ts
            (if negb iw && bool_decide (p_User rp = WorkflowUserName)
             then h' else update root (set_Replies_app post) h') b log).
Proof.
  intros Hlook Hrp. unfold add_reply. simpl. rewrite Hlook, Hrp. simpl.
  by destruct (negb iw && _).
Qed.

(** A reply finds its root allocated, whichever store holds it. *)
Lemma lookup_allocated t s ts h b log post root s' h' :
  threads_inv (mkThreadsState s ts h b log) →
  post_fresh (mkThreadsState s ts h b log) post →
  LookupThread t s h b = (Some root, s', h') →
  ∃ rp, deref h' root = Some rp.
Proof.
  intros Hinv Hfresh Hlook.
  destruct (lookup_threads_inv _ _ _ _ _ _ _ _ _ _ Hinv Hfresh Hlook)
    as ((_&_&Hroots&_) & _ & Hroot).
  destruct (Hroot root eq_refl) as [Hin _]. by eapply roots_ok_allocated.
Qed.

Lemma add_reply_threads_inv original post iw st :
  threads_inv st → post_fresh st post →
  ∃ st', add_reply original post iw st = Some st' ∧ threads_inv st'.
Proof.
  destruct st as [s ts h b log]. intros Hinv Hfresh.
  destruct (LookupThread (sp_ThreadTS original) s h b) as [[[root|] s'] h'] eqn:Hlook.
  - destruct (lookup_allocated _ _ _ _ _ _ _ _ _ _ Hinv Hfresh Hlook) as [rp Hrp].
    rewrite (add_reply_found _ _ _ _ _ _ _ _ _ _ _ _ Hlook Hrp). eexists. split; [done|].
    destruct (lookup_threads_inv _ _ _ _ _ _ _ _ _ _ Hinv Hfresh Hlook)
      as (Hinv' & (p & Hp & Hp0 & _ & Hun) & Hroot).
    destruct (negb iw && _); [done|]. destruct (Hroot root eq_refl) as [Hin _].
    destruct Hinv' as (?&?&?&?). split_and!; simpl in *;
      eauto using roots_ok_append_reply with mm.
  - rewrite add_reply_orphan.
    + eauto using threads_inv_log.
    + rewrite (has_lookup _ _ h), Hlook. by apply bool_decide_eq_false_2, is_Some_None.
Qed.

(** ** The whole operation *)

Lemma AddPostToThreads_eq original post channel iw s ts h b log p c ts' :
  deref h post = Some p →
  avoid_timestamp_duplication ts (p_CreateAt p) = Some (c, ts') →
  AddPostToThreads original post channel iw (mkThreadsState s ts h b log) =
    let st1 := mkThreadsState s ts' (update post (stamped channel c) h) b log in
    if is_reply original then add_reply original post iw st1
    else Some (add_root original post st1).
Proof.
  intros Hp Hts. unfold AddPostToThreads. simpl.
  by rewrite (stamp_post_eq _ _ _ _ _ Hp), Hts.
Qed.

Lemma AddPostToThreads_inv_eq original post channel iw st st' :
  AddPostToThreads original post channel iw st = Some st' →
  ∃ c ts' h',
    stamp_post post channel (ts_timestamps st) (ts_heap st) = Some (c, ts', h') ∧
    let st1 := mkThreadsState (ts_threads st) ts' h' (ts_backend st) (ts_log st) in
    if is_reply original then add_reply original post iw st1 = Some st'
    else add_root original post st1 = st'.
Proof.
  unfold AddPostToThreads. destruct (stamp_post _ _ _ _) as [[[c ts'] h']|]; [|done].
  simpl. intros Hst. exists c, ts', h'. split; [done|].
  destruct (is_reply original); congruence.
Qed.

Lemma stamp_post_is_Some s ts h b log post channel :
  post_fresh (mkThreadsState s ts h b log) post →
  Z.of_nat (size ts) < 2 ^ 64 →
  is_Some (stamp_post post channel ts h).
Proof.
  intros (p & Hp & _ & Hin & _) Hsize. simpl in *.
  rewrite (stamp_post_eq _ _ _ _ _ Hp). unfold avoid_timestamp_duplication.
  by destruct (free_timestamp_is_Some ts (p_CreateAt p) Hin Hsize) as [c ->].
Qed.

(** A post just allocated is fresh, and allocating it keeps the invariant:
    this is the state in which the pipeline calls [AddPostToThreads]. *)
Lemma threads_inv_alloc s ts h b log p :
  threads_inv (mkThreadsState s ts h b log) →
  p_Replies p = [] → in_int64 (p_CreateAt p) →
  threads_inv (mkThreadsState s ts (alloc p h).2 b log) ∧
  post_fresh (mkThreadsState s ts (alloc p h).2 b log) (alloc p h).1.
Proof.
  intros (Hh & Hs & Hroots & Hl) Hp0 Hin. st_simpl. split.
  - split_and!; st_simpl; eauto using roots_ok_extends with mm.
  - exists p. split_and!; st_simpl; eauto using deref_alloc, unreferenced_alloc.
Qed.

(** The cell of the post after the call: a reply keeps what the stamping
    left, a root is sanitised as well. *)
Lemma add_reply_post original post iw st st' q :
  threads_inv st → post_fresh st post →
  deref (ts_heap st) post = Some q →
  add_reply original post iw st = Some st' →
  deref (ts_heap st') post = Some q.
Proof.
  destruct st as [s ts h b log]. intros Hinv Hfresh Hq. simpl in Hq.
  destruct (LookupThread (sp_ThreadTS original) s h b) as [[[root|] s'] h'] eqn:Hlook.
  - destruct (lookup_allocated _ _ _ _ _ _ _ _ _ _ Hinv Hfresh Hlook) as [rp Hrp].
    rewrite (add_reply_found _ _ _ _ _ _ _ _ _ _ _ _ Hlook Hrp). intros [= <-]. simpl.
    destruct (lookup_threads_inv _ _ _ _ _ _ _ _ _ _ Hinv Hfresh Hlook)
      as ((Hh'&_) & _ & Hroot).
    destruct (Hroot root eq_refl) as [_ Hne].
    destruct (lookup_ok _ _ _ _ _ _ _ (proj1 Hinv) (proj1 (proj2 Hinv)) Hlook) as (_&Hext&_).
    pose proof (deref_extends _ _ _ _ Hext Hq).
    destruct (negb iw && _); [done|]. by rewrite deref_update_ne.
  - rewrite add_reply_orphan; [by intros [= <-]|].
    rewrite (has_lookup _ _ h), Hlook. by apply bool_decide_eq_false_2, is_Some_None.
Qed.

Lemma add_reply_frame original post iw st st' :
  add_reply original post iw st = Some st' →
  ts_timestamps st' = ts_timestamps st ∧ ts_backend st' = ts_backend st.
Proof.
  unfold add_reply. destruct (LookupThread _ _ _ _) as [[[root|] s'] h']; [|by intros [= <-]].
  destruct (deref h' root) as [rp|]; [simpl|done].
  by destruct (negb iw && _); intros [= <-].
Qed.

Lemma add_root_frame original post st :
  ts_timestamps (add_root original post st) = ts_timestamps st ∧
  ts_heap (add_root original post st) = update post Sanitise_post (ts_heap st).
Proof. destruct st. by rewrite add_root_eq, store_root_eq. Qed.

(** What a reply finds when the store has its thread. *)
Lemma lookup_found t s ts h b log post :
  threads_inv (mkThreadsState s ts h b log) →
  post_fresh (mkThreadsState s ts h b log) post →
  HasThread t s b = true →
  ∃ root s' h' rp,
    LookupThread t s h b = (Some root, s', h') ∧ deref h' root = Some rp ∧
    root ≠ post ∧ heap_extends h h' ∧ (post ∉ p_Replies rp).
Proof.
  intros Hinv Hfresh Hhas. rewrite (has_lookup _ _ h) in Hhas.
  apply bool_decide_eq_true in Hhas as [root Hroot].
  destruct (LookupThread t s h b) as [[o s'] h'] eqn:Hlook. simpl in Hroot. subst o.
  destruct (lookup_allocated _ _ _ _ _ _ _ _ _ _ Hinv Hfresh Hlook) as [rp Hrp].
  destruct (lookup_threads_inv _ _ _ _ _ _ _ _ _ _ Hinv Hfresh Hlook)
    as (_ & (_ & _ & _ & _ & _ & Hun) & Hin).
  destruct (Hin root eq_refl) as [Hin' Hne].
  destruct (lookup_ok _ _ _ _ _ _ _ (proj1 Hinv) (proj1 (proj2 Hinv)) Hlook) as (_&Hext&_).
  exists root, s', h', rp. split_and!; eauto.
Qed.

Lemma AddPostToThreads_reply_found original post channel iw s ts h b log st' :
  threads_inv (mkThreadsState s ts h b log) →
  post_fresh (mkThreadsState s ts h b log) post →
  is_reply original = true →
  HasThread (sp_ThreadTS original) s b = true →
  AddPostToThreads original post channel iw (mkThreadsState s ts h b log) = Some st' →
  ∃ root rp,
    (∀ h2 b2, LookupThread (sp_ThreadTS original) (ts_threads st') h2 b2
              = (Some root, ts_threads st', h2)) ∧
    root ≠ post ∧ (post ∉ p_Replies rp) ∧
    (∀ q, deref h root = Some q → q = rp) ∧
    deref (ts_heap st') root =
      Some (if negb iw && bool_decide (p_User rp = WorkflowUserName)
            then rp else set_Replies_app post rp) ∧
    ts_log st' = log.
Proof.
  intros Hinv Hfresh Hrep Hhas (c & ts' & h1 & Hst & Hadd)%AddPostToThreads_inv_eq.
  rewrite Hrep in Hadd. st_simpl.
  destruct (stamp_post_threads_inv _ _ _ _ _ _ _ _ _ _ Hinv Hfresh Hst) as [Hinv1 Hfresh1].
  destruct (lookup_found _ _ _ _ _ _ _ Hinv1 Hfresh1 Hhas)
    as (root & s' & h' & rp & Hlook & Hrp & Hne & Hext & Hnotin).
  rewrite (add_reply_found _ _ _ _ _ _ _ _ _ _ _ _ Hlook Hrp) in Hadd.
  injection Hadd as <-. st_simpl. exists root, rp.
  split_and!; [by eapply lookup_stable|done..| | |done].
  - intros q Hq. apply stamp_post_inv in Hst as (_ & _ & _ & ->).
    rewrite <-(deref_update_ne post root (stamped channel c)) in Hq by done.
    apply (deref_extends _ _ _ _ Hext) in Hq. congruence.
  - destruct (negb iw && _); [done|by apply deref_update_Some].
Qed.

(** [AddPostToThreads] returns and keeps the invariant: the form in which
    the callers of this file use the operation. *)
Lemma AddPostToThreads_spec original post channel iw st :
  threads_inv st → post_fresh st post → Z.of_nat (size (ts_timestamps st)) < 2 ^ 64 →
  ∃ st', AddPostToThreads original post channel iw st = Some st' ∧ threads_inv st'.
Proof.
  destruct st as [s ts h b log]. intros Hinv Hfresh Hsize. unfold AddPostToThreads.
  destruct (stamp_post_is_Some _ _ _ _ _ _ channel Hfresh Hsize) as [[[c ts'] h'] Hst].
  st_simpl. rewrite Hst. simpl.
  destruct (stamp_post_threads_inv _ _ _ _ _ _ _ _ _ _ Hinv Hfresh Hst).
  destruct (is_reply original); eauto using add_reply_threads_inv, add_root_threads_inv.
Qed.

(** The ledger grows by the one time assigned. *)
Lemma AddPostToThreads_ledger original post channel iw st st' :
  AddPostToThreads original post channel iw st = Some st' →
  ∃ c, (c ∉ ts_timestamps st) ∧ ts_timestamps st' = {[c]} ∪ ts_timestamps st.
Proof.
  intros (c & ts' & h' & Hst & Hadd)%AddPostToThreads_inv_eq. exists c.
  apply stamp_post_inv in Hst as (_ & _ & (_ & ? & ->)%avoid_timestamp_duplication_Some & _).
  split; [done|]. cbn zeta in Hadd. destruct (is_reply original).
  - by apply add_reply_frame in Hadd as [-> _].
  - subst st'. by destruct (add_root_frame original post
      (mkThreadsState (ts_threads st) ({[c]} ∪ ts_timestamps st) h' (ts_backend st) (ts_log st)))
      as [-> _].
Qed.

(** ** The creation times of a channel *)

(** Filing a reply changes no creation time. *)
Lemma add_reply_CreateAt original post iw st st' l p :
  threads_inv st →
  add_reply original post iw st = Some st' →
  deref (ts_heap st) l = Some p →
  p_CreateAt <$> deref (ts_heap st') l = Some (p_CreateAt p).
Proof.
  destruct st as [s ts h b log]. intros (Hh & Hs & _) Hadd Hp. simpl in *.
  unfold add_reply in Hadd. simpl in Hadd.
  destruct (LookupThread _ s h b) as [[[root|] s'] h'] eqn:Hlook.
  2:{ apply lookup_miss in Hlook as [-> ->]. simplify_eq/=. by rewrite Hp. }
  destruct (lookup_ok _ _ _ _ _ _ _ Hh Hs Hlook) as (_ & Hext & _).
  pose proof (deref_extends _ _ _ _ Hext Hp) as Hp'.
  destruct (deref h' root) as [rp|] eqn:Hrp; [simpl in Hadd|done].
  destruct (negb iw && _); simplify_eq/=; [by rewrite Hp'|].
  destruct (decide (root = l)) as [->|Hne].
  - by rewrite deref_update, Hp'.
  - by rewrite deref_update_ne, Hp'.
Qed.

(** Storing a root changes no creation time. *)
Lemma add_root_CreateAt original post st l p :
  deref (ts_heap st) l = Some p →
  p_CreateAt <$> deref (ts_heap (add_root original post st)) l = Some (p_CreateAt p).
Proof.
  intros Hp. rewrite (proj2 (add_root_frame original post st)).
  destruct (decide (post = l)) as [->|Hne].
  - rewrite deref_update, Hp. simpl. by rewrite Sanitise_post_CreateAt.
  - by rewrite deref_update_ne, Hp.
Qed.

(** After [AddPostToThreads] the post has the time assigned and every
    other post the time it had. *)
Lemma AddPostToThreads_CreateAt original post channel iw st st' :
  threads_inv st → post_fresh st post →
  AddPostToThreads original post channel iw st = Some st' →
  ∃ c, (c ∉ ts_timestamps st) ∧ ts_timestamps st' = {[c]} ∪ ts_timestamps st ∧
    ∀ l p, deref (ts_heap st) l = Some p →
      p_CreateAt <$> deref (ts_heap st') l = Some (if decide (l = post) then c else p_CreateAt p).
Proof.
  intros Hinv Hfresh Hadd.
  destruct (AddPostToThreads_inv_eq _ _ _ _ _ _ Hadd) as (c & ts' & h' & Hst & Hrun).
  destruct st as [s ts h b log]. simpl in *.
  destruct (stamp_post_threads_inv _ _ _ _ _ _ _ _ _ _ Hinv Hfresh Hst) as [Hinv1 _].
  apply stamp_post_inv in Hst as (p0 & Hp0 & (_ & Hc & ->)%avoid_timestamp_duplication_Some & ->).
  assert (∀ l p, deref h l = Some p →
            deref (update post (stamped channel c) h) l
            = Some (if decide (l = post) then stamped channel c p else p)) as Hh1.
  { intros l p Hp. case_decide as Hl; [subst l; by apply deref_update_Some|].
    by rewrite deref_update_ne. }
  exists c. split; [done|]. destruct (is_reply original).
  - split; [by apply add_reply_frame in Hrun as [-> _]|]. intros l p Hp.
    rewrite (add_reply_CreateAt _ _ _ _ _ _ _ Hinv1 Hrun (Hh1 l p Hp)). by case_decide.
  - subst st'. split; [by rewrite (proj1 (add_root_frame _ _ _))|]. intros l p Hp.
    rewrite (add_root_CreateAt original post
               (mkThreadsState s ({[c]} ∪ ts) (update post (stamped channel c) h) b log)
               l _ (Hh1 l p Hp)).
    by case_decide.
Qed.


(** ** The creation times of a run *)

Lemma AddPostToThreads_keeps_inv original post channel iw st st' :
  threads_inv st → post_fresh st post →
  AddPostToThreads original post channel iw st = Some st' → threads_inv st'.
Proof.
  destruct st as [s ts h b log].
  intros Hinv Hfresh (c & ts' & h' & Hst & Hadd)%AddPostToThreads_inv_eq. st_simpl.
  destruct (stamp_post_threads_inv _ _ _ _ _ _ _ _ _ _ Hinv Hfresh Hst) as [Hinv' Hfresh'].
  destruct (is_reply original); [|subst st'; by apply add_root_threads_inv].
  destruct (add_reply_threads_inv original post iw _ Hinv' Hfresh') as (st2 & Heq & ?).
  congruence.
Qed.

(** One round: the invariant is kept, the post made gets a time that no
    post filed before has, and those keep theirs. *)
Lemma file_post_times original p channel iw st st' filed times :
  threads_inv st → p_Replies p = [] → in_int64 (p_CreateAt p) →
  file_post original p channel iw st = Some st' →
  times_of st filed times → ts_timestamps st = list_to_set times →
  threads_inv st' ∧
  ∃ c, (c ∉ times) ∧ times_of st' (filed ++ [next (ts_heap st)]) (times ++ [c]) ∧
       ts_timestamps st' = list_to_set (times ++ [c]).
Proof.
  destruct st as [s ts h b log]. unfold file_post, times_of. st_simpl.
  intros Hinv Hp0 Hin Hadd Htimes ->.
  destruct (threads_inv_alloc _ _ _ _ _ p Hinv Hp0 Hin) as [Hinv1 Hfresh1].
  split; [by eapply AddPostToThreads_keeps_inv|].
  destruct (AddPostToThreads_CreateAt _ _ _ _ _ _ Hinv1 Hfresh1 Hadd) as (c & Hc & Hts & Hh).
  st_simpl. change (alloc p h).1 with (next h) in Hh. exists c. split_and!.
  - by rewrite elem_of_list_to_set in Hc.
  - apply Forall2_app; [|apply Forall2_cons; [|done]].
    + eapply list.Forall2_impl; [done|]. intros l c' Hl. simpl in Hl.
      destruct (deref h l) as [q|] eqn:Hq; [|done]. simplify_eq/=.
      assert (l ≠ next h) as Hne.
      { intros ->. rewrite deref_next in Hq; [done|apply Hinv]. }
      rewrite (Hh l q), decide_False; [done..|]. rewrite <-Hq. by apply deref_alloc_ne.
    + pose proof (Hh _ p (deref_alloc p h)) as Hnew.
      change (alloc p h).1 with (next h) in Hnew. by rewrite decide_True in Hnew.
  - rewrite Hts, list_to_set_app_L. simpl. rewrite (right_id_L ∅ (∪)). apply (comm_L (∪)).
Qed.

(** The invariant of a run: the posts filed have pairwise distinct times,
    and the ledger holds exactly these. *)
Lemma channel_run_times channel iw st filed :
  channel_run channel iw st filed →
  threads_inv st ∧
  ∃ times, times_of st filed times ∧ NoDup times ∧ ts_timestamps st = list_to_set times.
Proof.
  induction 1 as [st Hinv Hts|st filed original p st' _ (Hinv & times & Ht & Hnd & Hts) ? ? Hadd].
  - split; [done|]. exists []. split_and!; [constructor|constructor|done].
  - destruct (file_post_times _ _ _ _ _ _ _ _ Hinv ltac:(done) ltac:(done) Hadd Ht Hts)
      as (? & c & Hc & ? & ?).
    split; [done|]. exists (times ++ [c]). split_and!; [done| |done].
    apply list.NoDup_app. split_and!; [done| |apply NoDup_singleton].
    by intros x Hx ->%list_elem_of_singleton.
Qed.

End threads.

(** ** The example states satisfy the invariant *)

Lemma example_state0_inv : threads_inv example_state0.
Proof. split_and!; simpl; auto with mm. - done. - by intros c ?%elem_of_empty. Qed.

Lemma example_alloc_inv original c st :
  threads_inv st → in_int64 c →
  threads_inv (example_alloc original c st).2 ∧
  post_fresh (example_alloc original c st).2 (example_alloc original c st).1.
Proof. destruct st. intros. by apply threads_inv_alloc. Qed.

Lemma example_add_inv original c st :
  threads_inv st → in_int64 c → Z.of_nat (size (ts_timestamps st)) < 2 ^ 64 →
  example_add original c st = Some (default example_state0 (example_add original c st)) ∧
  threads_inv (default example_state0 (example_add original c st)).
Proof.
  intros Hinv Hc Hsize. destruct (example_alloc_inv original c st Hinv Hc) as [Hinv' Hfresh].
  destruct (AddPostToThreads_spec original _ example_channel false _ Hinv' Hfresh)
    as (st' & Heq & ?); [by destruct st|].
  unfold example_add. by rewrite Heq.
Qed.

Lemma in_int64_small z : bool_decide (int64_min ≤ z ≤ int64_max) = true → in_int64 z.
Proof. apply bool_decide_eq_true. Qed.

Lemma example_state1_inv : threads_inv example_state1.
Proof. apply example_add_inv; [apply example_state0_inv|by apply in_int64_small|done]. Qed.

Lemma example_state2_inv : threads_inv example_state2.
Proof. apply example_add_inv; [apply example_state1_inv|by apply in_int64_small|done]. Qed.

(** ** The properties of [AddPostToThreads] *)

(** C7. On a state that satisfies the invariant and a post that no thread
    mentions yet, [AddPostToThreads] returns: the pointers it dereferences
    address posts (the root a reply names included, whichever store holds
    it) and the de-duplication loop ends, as long as the ledger holds fewer
    than 2^64 stamps. *)
Theorem AddPostToThreads_total {S : Type} `{!ThreadsStorage S, !ThreadsStorageLaws S}
    (original : SlackPost) (post : loc) (channel : IntermediateChannel) (iw : bool)
    (st : ThreadsState S) :
  threads_inv st → post_fresh st post → Z.of_nat (size (ts_timestamps st)) < 2 ^ 64 →
  is_Some (AddPostToThreads original post channel iw st).
Proof.
  intros Hinv Hfresh Hsize.
  destruct (AddPostToThreads_spec original post channel iw st) as (st' & -> & _); eauto.
Qed.

Lemma AddPostToThreads_total_witness :
  is_Some (AddPostToThreads example_reply (example_alloc example_reply 15 example_state1).1
             example_channel false (example_alloc example_reply 15 example_state1).2).
Proof.
  apply AddPostToThreads_total;
    [apply example_alloc_inv..|done]; ((by apply in_int64_small) || apply example_state1_inv).
Defined.

(** C1. [AddPostToThreads] preserves the invariant of a channel's state:
    the heap stays well formed, the store consistent with its backend, the
    threads the store holds stay flat (a root with replies that have no
    replies), no reply of a root is itself a root, and the ledger stays
    within [int64]. *)
Theorem AddPostToThreads_preserves_inv {S : Type} `{!ThreadsStorage S, !ThreadsStorageLaws S}
    (original : SlackPost) (post : loc) (channel : IntermediateChannel) (iw : bool)
    (st st' : ThreadsState S) :
  threads_inv st → post_fresh st post →
  AddPostToThreads original post channel iw st = Some st' →
  threads_inv st'.
Proof.
  destruct st as [s ts h b log].
  intros Hinv Hfresh (c & ts' & h' & Hst & Hadd)%AddPostToThreads_inv_eq. st_simpl.
  destruct (stamp_post_threads_inv _ _ _ _ _ _ _ _ _ _ Hinv Hfresh Hst) as [Hinv' Hfresh'].
  destruct (is_reply original).
  - destruct (add_reply_threads_inv original post iw _ Hinv' Hfresh') as (st2 & Heq & ?).
    congruence.
  - subst st'. by apply add_root_threads_inv.
Qed.

Lemma AddPostToThreads_preserves_inv_witness : threads_inv example_state2.
Proof.
  apply (AddPostToThreads_preserves_inv example_reply
           (example_alloc example_reply 15 example_state1).1 example_channel false
           (example_alloc example_reply 15 example_state1).2);
    [apply example_alloc_inv..|vm_compute; reflexivity];
    ((by apply in_int64_small) || apply example_state1_inv).
Defined.

(** C9. A message that is not a reply becomes the root of a thread: its
    post is marked, stamped with a time that was not in the ledger, cut to
    the size limit, and from then on the store answers its timestamp with
    the pointer to that very post. *)
Theorem AddPostToThreads_root_stored {S : Type} `{!ThreadsStorage S, !ThreadsStorageLaws S}
    (original : SlackPost) (post : loc) (channel : IntermediateChannel) (iw : bool)
    (st st' : ThreadsState S) (p : IntermediatePost) :
  is_reply original = false →
  deref (ts_heap st) post = Some p →
  AddPostToThreads original post channel iw st = Some st' →
  ∃ c, (c ∉ ts_timestamps st) ∧ ts_timestamps st' = {[c]} ∪ ts_timestamps st ∧
       deref (ts_heap st') post = Some (Sanitise_post (stamped channel c p)) ∧
       ∀ h2 b2, LookupThread (sp_TimeStamp original) (ts_threads st') h2 b2
                = (Some post, ts_threads st', h2).
Proof.
  destruct st as [s ts h b log].
  intros Hrep Hp (c & ts' & h' & Hst & Hadd)%AddPostToThreads_inv_eq. st_simpl.
  apply stamp_post_inv in Hst as (p' & Hp' & (_ & ? & ->)%avoid_timestamp_duplication_Some & ->).
  rewrite Hrep, add_root_eq, store_root_eq in Hadd. subst st'. st_simpl. simplify_eq.
  exists c. split_and!; [done..| |].
  - by do 2 apply deref_update_Some.
  - eapply lookup_store, surjective_pairing.
Qed.

Lemma AddPostToThreads_root_stored_witness :
  ∃ c, (c ∉ ts_timestamps (example_alloc example_root 10 example_state0).2) ∧
       ts_timestamps example_state1 =
         {[c]} ∪ ts_timestamps (example_alloc example_root 10 example_state0).2 ∧
       deref (ts_heap example_state1) 1%positive =
         Some (Sanitise_post (stamped example_channel c (new_post "alice" "general" "root" 10))) ∧
       ∀ h2 b2, LookupThread (sp_TimeStamp example_root) (ts_threads example_state1) h2 b2
                = (Some 1%positive, ts_threads example_state1, h2).
Proof.
  apply (AddPostToThreads_root_stored example_root 1%positive example_channel false
           (example_alloc example_root 10 example_state0).2 example_state1);
    vm_compute; reflexivity.
Defined.

(** C8. A reply whose thread the store has is appended, in place, as the
    last reply of the root the store hands out, and the store keeps
    answering the thread's timestamp with that root; a root that was in
    the heap already keeps everything but its replies.  When workflow posts
    are not imported and the root is a workflow post, the reply is left out
    and the root is unchanged.  Nothing is logged. *)
Theorem AddPostToThreads_reply_filed {S : Type} `{!ThreadsStorage S, !ThreadsStorageLaws S}
    (original : SlackPost) (post : loc) (channel : IntermediateChannel) (iw : bool)
    (st st' : ThreadsState S) :
  threads_inv st → post_fresh st post →
  is_reply original = true →
  HasThread (sp_ThreadTS original) (ts_threads st) (ts_backend st) = true →
  AddPostToThreads original post channel iw st = Some st' →
  ∃ root rp,
    (∀ h2 b2, LookupThread (sp_ThreadTS original) (ts_threads st') h2 b2
              = (Some root, ts_threads st', h2)) ∧
    root ≠ post ∧ (post ∉ p_Replies rp) ∧
    (∀ q, deref (ts_heap st) root = Some q → q = rp) ∧
    deref (ts_heap st') root =
      Some (if negb iw && bool_decide (p_User rp = WorkflowUserName)
            then rp else set_Replies_app post rp) ∧
    ts_log st' = ts_log st.
Proof. destruct st. apply AddPostToThreads_reply_found. Qed.

Lemma AddPostToThreads_reply_filed_witness :
  ∃ root rp,
    (∀ h2 b2, LookupThread (sp_ThreadTS example_reply) (ts_threads example_state2) h2 b2
              = (Some root, ts_threads example_state2, h2)) ∧
    root ≠ (example_alloc example_reply 15 example_state1).1 ∧
    ((example_alloc example_reply 15 example_state1).1 ∉ p_Replies rp) ∧
    (∀ q, deref (ts_heap (example_alloc example_reply 15 example_state1).2) root = Some q →
          q = rp) ∧
    deref (ts_heap example_state2) root =
      Some (if negb false && bool_decide (p_User rp = WorkflowUserName)
            then rp
            else set_Replies_app (example_alloc example_reply 15 example_state1).1 rp) ∧
    ts_log example_state2 = ts_log (example_alloc example_reply 15 example_state1).2.
Proof.
  apply (AddPostToThreads_reply_filed example_reply _ example_channel false);
    [apply example_alloc_inv..|done|done|vm_compute; reflexivity];
    ((by apply in_int64_small) || apply example_state1_inv).
Defined.

(** C15. A reply whose thread the store does not have is dropped: the store,
    the backend and every other post are as before and the error is
    logged.  Its post has been marked and stamped all the same, and its
    time stays in the ledger. *)
Theorem AddPostToThreads_orphan_dropped {S : Type} `{!ThreadsStorage S, !ThreadsStorageLaws S}
    (original : SlackPost) (post : loc) (channel : IntermediateChannel) (iw : bool)
    (st st' : ThreadsState S) (p : IntermediatePost) :
  is_reply original = true →
  HasThread (sp_ThreadTS original) (ts_threads st) (ts_backend st) = false →
  deref (ts_heap st) post = Some p →
  AddPostToThreads original post channel iw st = Some st' →
  ∃ c, (c ∉ ts_timestamps st) ∧
       st' = mkThreadsState (ts_threads st) ({[c]} ∪ ts_timestamps st)
               (update post (stamped channel c) (ts_heap st)) (ts_backend st)
               (ts_log st ++ [ErrRootPostNotFound original]).
Proof.
  destruct st as [s ts h b log].
  intros Hrep Hhas Hp (c & ts' & h' & Hst & Hadd)%AddPostToThreads_inv_eq. st_simpl.
  apply stamp_post_inv in Hst as (p' & Hp' & (_ & ? & ->)%avoid_timestamp_duplication_Some & ->).
  rewrite Hrep, add_reply_orphan in Hadd by done. exists c. by simplify_eq.
Qed.

Lemma AddPostToThreads_orphan_dropped_witness :
  ∃ c, (c ∉ ts_timestamps (example_alloc example_orphan 20 example_state1).2) ∧
       default example_state0 (example_add example_orphan 20 example_state1) =
         mkThreadsState (ts_threads example_state1) ({[c]} ∪ ts_timestamps example_state1)
           (update 2%positive (stamped example_channel c)
              (ts_heap (example_alloc example_orphan 20 example_state1).2))
           (ts_backend example_state1)
           (ts_log example_state1 ++ [ErrRootPostNotFound example_orphan]).
Proof.
  apply (AddPostToThreads_orphan_dropped example_orphan 2%positive example_channel false
           (example_alloc example_orphan 20 example_state1).2 _
           (new_post "alice" "general" "orphan" 20));
    vm_compute; reflexivity.
Defined.

(** C26. The post of a reply is not cut to the size limit: whatever becomes
    of the reply, its message is the one it came with, however long.  Only
    roots pass through [Sanitise]. *)
Theorem AddPostToThreads_reply_not_sanitised {S : Type}
    `{!ThreadsStorage S, !ThreadsStorageLaws S}
    (original : SlackPost) (post : loc) (channel : IntermediateChannel) (iw : bool)
    (st st' : ThreadsState S) (p : IntermediatePost) :
  threads_inv st → post_fresh st post →
  is_reply original = true →
  deref (ts_heap st) post = Some p →
  AddPostToThreads original post channel iw st = Some st' →
  ∃ q, deref (ts_heap st') post = Some q ∧ p_Message q = p_Message p ∧
       RuneCountInString (p_Message q) = RuneCountInString (p_Message p).
Proof.
  destruct st as [s ts h b log].
  intros Hinv Hfresh Hrep Hp (c & ts' & h' & Hst & Hadd)%AddPostToThreads_inv_eq. st_simpl.
  destruct (stamp_post_threads_inv _ _ _ _ _ _ _ _ _ _ Hinv Hfresh Hst) as [Hinv' Hfresh'].
  apply stamp_post_inv in Hst as (p' & Hp' & _ & ->). rewrite Hrep in Hadd. simplify_eq.
  exists (stamped channel c p).
  rewrite (add_reply_post _ _ _ _ _ (stamped channel c p) Hinv' Hfresh' (deref_update_Some _ _ _ _ Hp) Hadd).
  unfold stamped. simpl. by rewrite mark_direct_Message.
Qed.

Lemma AddPostToThreads_reply_not_sanitised_witness :
  ∃ q, deref (ts_heap (default example_state0 (example_add example_long_reply 16 example_state1)))
         (example_alloc example_long_reply 16 example_state1).1 = Some q ∧
       p_Message q = p_Message (new_post "alice" "general" example_long_text 16) ∧
       RuneCountInString (p_Message q) =
         RuneCountInString (p_Message (new_post "alice" "general" example_long_text 16)).
Proof.
  apply (AddPostToThreads_reply_not_sanitised example_long_reply _ example_channel false
           (example_alloc example_long_reply 16 example_state1).2);
    [apply example_alloc_inv; [apply example_state1_inv|by apply in_int64_small]..
    |done|apply deref_alloc|].
  apply example_add_inv; [apply example_state1_inv|by apply in_int64_small|done].
Defined.

Example example_long_text_over_limit :
  (PosgreSQLMaxPostSize < RuneCountInString example_long_text)%nat.
Proof. vm_compute. lia. Qed.

(** C37. A message whose thread timestamp is its own timestamp is a root: it
    is stored under that timestamp and not appended to anything. *)
Theorem AddPostToThreads_self_thread_is_root {S : Type}
    `{!ThreadsStorage S, !ThreadsStorageLaws S}
    (original : SlackPost) (post : loc) (channel : IntermediateChannel) (iw : bool)
    (st st' : ThreadsState S) :
  sp_ThreadTS original = sp_TimeStamp original →
  AddPostToThreads original post channel iw st = Some st' →
  HasThread (sp_ThreadTS original) (ts_threads st') (ts_backend st') = true ∧
  ∀ h2 b2, LookupThread (sp_ThreadTS original) (ts_threads st') h2 b2
           = (Some post, ts_threads st', h2).
Proof.
  destruct st as [s ts h b log].
  intros Heq (c & ts' & h' & Hst & Hadd)%AddPostToThreads_inv_eq. st_simpl.
  assert (is_reply original = false) as Hrep.
  { unfold is_reply. rewrite (bool_decide_eq_false_2 (_ ≠ sp_TimeStamp _)) by auto.
    apply andb_false_r. }
  rewrite Hrep, add_root_eq, store_root_eq, <-Heq in Hadd. subst st'. st_simpl.
  assert (∀ h2 b2, LookupThread (sp_ThreadTS original)
            (StoreThread (sp_ThreadTS original) post s (update post Sanitise_post h') b).1 h2 b2
          = (Some post, (StoreThread (sp_ThreadTS original) post s
                           (update post Sanitise_post h') b).1, h2)) as Hlook.
  { intros h2 b2. eapply lookup_store, surjective_pairing. }
  split; [|done]. rewrite (has_lookup _ _ h'), Hlook. by apply bool_decide_eq_true_2.
Qed.

Lemma AddPostToThreads_self_thread_is_root_witness :
  HasThread "10" (ts_threads (default example_state0
                    (example_add (example_message "10" "10" "root") 10 example_state0)))
    (ts_backend (default example_state0
                   (example_add (example_message "10" "10" "root") 10 example_state0))) = true ∧
  ∀ h2 b2,
    LookupThread "10" (ts_threads (default example_state0
                         (example_add (example_message "10" "10" "root") 10 example_state0)))
      h2 b2
    = (Some 1%positive,
       ts_threads (default example_state0
                     (example_add (example_message "10" "10" "root") 10 example_state0)), h2).
Proof.
  apply (AddPostToThreads_self_thread_is_root (example_message "10" "10" "root") 1%positive
           example_channel false (example_alloc (example_message "10" "10" "root") 10
                                    example_state0).2);
    vm_compute; reflexivity.
Defined.

(** C10. The store is keyed by the original timestamp, not by the creation
    time assigned: when a message that is not a reply has the timestamp of
    a root that the in-memory store holds, its post takes the place of
    that root.  The warning is logged, the store answers the timestamp
    with the new post, and the threads that the channel yields are the new
    post and what the store held under the other timestamps: the first
    root and its replies leave the output. *)
Theorem AddPostToThreads_root_replaces (original : SlackPost) (post old : loc)
    (channel : IntermediateChannel) (iw : bool) (st st' : ThreadsState MemoryStorage) :
  is_reply original = false →
  ms_threads (ts_threads st) !! sp_TimeStamp original = Some old →
  AddPostToThreads original post channel iw st = Some st' →
  ts_log st' = ts_log st ++ [WarnOverwritingRoot (sp_TimeStamp original)] ∧
  ms_threads (ts_threads st') !! sp_TimeStamp original = Some post ∧
  GetChangedThreads (ts_threads st')
    ≡ₚ post :: map_values (delete (sp_TimeStamp original) (ms_threads (ts_threads st))).
Proof.
  destruct st as [s ts h b log].
  intros Hrep Hold (c & ts' & h' & Hst & Hadd)%AddPostToThreads_inv_eq. st_simpl.
  rewrite Hrep, add_root_eq, store_root_eq in Hadd. subst st'. st_simpl.
  assert (HasThread (sp_TimeStamp original) s b = true) as ->.
  { apply bool_decide_eq_true_2. by eexists. }
  split_and!; [done|apply lookup_insert_eq|apply map_values_insert_delete].
Qed.

Lemma AddPostToThreads_root_replaces_witness :
  ts_log (default example_state0 (example_add example_same 10 example_state2))
    = ts_log (example_alloc example_same 10 example_state2).2
      ++ [WarnOverwritingRoot (sp_TimeStamp example_same)] ∧
  ms_threads (ts_threads (default example_state0 (example_add example_same 10 example_state2)))
    !! sp_TimeStamp example_same = Some (example_alloc example_same 10 example_state2).1 ∧
  GetChangedThreads
    (ts_threads (default example_state0 (example_add example_same 10 example_state2)))
    ≡ₚ (example_alloc example_same 10 example_state2).1
       :: map_values (delete (sp_TimeStamp example_same)
                        (ms_threads (ts_threads (example_alloc example_same 10 example_state2).2))).
Proof.
  apply (AddPostToThreads_root_replaces example_same
           (example_alloc example_same 10 example_state2).1 1%positive example_channel false
           (example_alloc example_same 10 example_state2).2);
    vm_compute; reflexivity.
Defined.

(** ** Two channels run end to end

    The channel [10 (root), 15 (reply to 10), 10 (another root)]: the third
    message gets the creation time 11 and replaces the first root, which
    leaves the store together with its reply; the channel yields one
    thread and a warning. *)
Example end_to_end_same_timestamp :
  let msgs := [(example_root, 10); (example_reply, 15); (example_same, 10)] in
  is_Some (example_adds msgs example_state0) ∧
  resolved_threads (example_final msgs)
    = [Some (PostNode (new_post "alice" "general" "other" 11) [])] ∧
  ts_log (example_final msgs) = [WarnOverwritingRoot "10"] ∧
  ts_timestamps (example_final msgs) = {[10; 11; 15]}.
Proof.
  split_and!; [eexists; vm_compute; reflexivity|vm_compute; reflexivity..|].
  by apply (bool_decide_unpack _).
Qed.

(** When the third message shares the creation time but not the timestamp
    of the root, the channel yields the two threads: the root at 10 with
    its reply at 15, and an independent root moved to 11. *)
Example end_to_end_same_time :
  let msgs := [(example_root, 10); (example_reply, 15); (example_near, 10)] in
  is_Some (example_adds msgs example_state0) ∧
  resolved_threads (example_final msgs)
    ≡ₚ [Some (PostNode (new_post "alice" "general" "root" 10)
                [PostNode (new_post "alice" "general" "reply" 15) []]);
        Some (PostNode (new_post "alice" "general" "near" 11) [])] ∧
  ts_log (example_final msgs) = [].
Proof.
  split_and!; [eexists; vm_compute; reflexivity| |vm_compute; reflexivity].
  vm_compute. reflexivity || apply perm_swap.
Qed.

(** C6. The time of a post is fresh: the time that
    [AddPostToThreads] gives a post is not in the ledger, is recorded in
    it, and is the creation time of the post afterwards, whether the post
    was stored, appended or dropped; no other post changes its creation
    time. *)
Theorem AddPostToThreads_unique_time {S : Type} `{!ThreadsStorage S, !ThreadsStorageLaws S}
    (original : SlackPost) (post : loc) (channel : IntermediateChannel) (iw : bool)
    (st st' : ThreadsState S) :
  threads_inv st → post_fresh st post →
  AddPostToThreads original post channel iw st = Some st' →
  ∃ c, (c ∉ ts_timestamps st) ∧ ts_timestamps st' = {[c]} ∪ ts_timestamps st ∧
    p_CreateAt <$> deref (ts_heap st') post = Some c ∧
    ∀ l p, l ≠ post → deref (ts_heap st) l = Some p →
      p_CreateAt <$> deref (ts_heap st') l = Some (p_CreateAt p).
Proof.
  intros Hinv Hfresh Hadd.
  destruct (AddPostToThreads_CreateAt _ _ _ _ _ _ Hinv Hfresh Hadd) as (c & Hc & Hts & Hh).
  exists c. split_and!; [done..| |].
  - destruct Hfresh as (p & Hp & _). rewrite (Hh _ _ Hp). by rewrite decide_True.
  - intros l p Hne Hp. rewrite (Hh _ _ Hp). by rewrite decide_False.
Qed.

Lemma AddPostToThreads_unique_time_witness :
  ∃ c, (c ∉ ts_timestamps (example_alloc example_reply 10 example_state1).2) ∧
    ts_timestamps (default example_state0 (example_add example_reply 10 example_state1))
      = {[c]} ∪ ts_timestamps (example_alloc example_reply 10 example_state1).2 ∧
    p_CreateAt <$> deref
        (ts_heap (default example_state0 (example_add example_reply 10 example_state1)))
        (example_alloc example_reply 10 example_state1).1 = Some c ∧
    ∀ l p, l ≠ (example_alloc example_reply 10 example_state1).1 →
      deref (ts_heap (example_alloc example_reply 10 example_state1).2) l = Some p →
      p_CreateAt <$> deref
          (ts_heap (default example_state0 (example_add example_reply 10 example_state1))) l
        = Some (p_CreateAt p).
Proof.
  apply (AddPostToThreads_unique_time example_reply
           (example_alloc example_reply 10 example_state1).1 example_channel false
           (example_alloc example_reply 10 example_state1).2);
    [apply example_alloc_inv..|vm_compute; reflexivity];
    ((by apply in_int64_small) || apply example_state1_inv).
Defined.

(** C5. Creation times are unique within a run of a channel: in every
    state that the rounds of [TransformPosts] reach from an empty ledger,
    each post handed to [AddPostToThreads] so far (stored, appended or
    dropped) still has the time it was given, these times are pairwise
    distinct, and the ledger holds exactly them.  Threads fetched from
    the cache backend are not among the posts handed over, and the
    theorem says nothing of their times. *)
Theorem channel_run_unique_times {S : Type} `{!ThreadsStorage S, !ThreadsStorageLaws S}
    (channel : IntermediateChannel) (iw : bool) (st : ThreadsState S) (filed : list loc) :
  channel_run channel iw st filed →
  ∃ times, times_of st filed times ∧ NoDup times ∧ ts_timestamps st = list_to_set times.
Proof. intros Hrun. by destruct (channel_run_times channel iw st filed Hrun). Qed.

Lemma channel_run_unique_times_witness :
  ∃ times,
    times_of example_state2
      (([] ++ [next (ts_heap example_state0)]) ++ [next (ts_heap example_state1)]) times ∧
    NoDup times ∧ ts_timestamps example_state2 = list_to_set times.
Proof.
  apply (channel_run_unique_times example_channel false).
  apply (run_file _ _ example_state1 _ example_reply (new_post "alice" "general" "reply" 15));
    [|done|by apply in_int64_small|vm_compute; reflexivity].
  apply (run_file _ _ example_state0 [] example_root (new_post "alice" "general" "root" 10));
    [|done|by apply in_int64_small|vm_compute; reflexivity].
  apply run_start; [apply example_state0_inv|done].
Defined.
