(* ===== verification/Pipeline.v ===== *)
(** * The post pipeline

    [TransformPosts] of src/unnamed/part_001 (lines 425-661) and the
    functions it calls: [buildChannelsByOriginalNameMap] (338-353),
    [getNormalisedFilePath] (355-358), [addFileToPost] (360-389),
    [newChannelThreadsStorage] (391-403) and [selectOrCreateWorkflowUser]
    (405-423).

    The method mutates the transformer, the posts it allocates, the cache
    backend and the attachments directory.  All of these are fields of a
    [World]; the method and its helpers are computations in the monad
    [M World Error].  The local variables of the channel loop (the thread
    store and the timestamp ledger) are carried by [fold_M].

    Maps and pointers are values here, never nil: the write to
    [UsersById] in [selectOrCreateWorkflowUser] and the dereferences of a
    message's files and of the uploads cannot panic in the model.  The
    channels of the export are a list, visited in its order, where the
    source iterates over a map.

    What the sources take from other packages is the [Env] of Env.v; the
    definitions and theorems hold for every environment, and [example_env]
    is the one on which the examples run. *)

From S2P Require Import Prelude Hoare Timestamps Utf8 Model Env Entities Heap Storage Threads.

#[local] Open Scope mm_scope.

(** ** The state of a run

    [w_Intermediate], [w_Logger] and [w_redisFactory] are the fields of the
    [Transformer]; a factory is the configuration it was made from.  The
    package-level logger writes to [w_Logger] as well.  [w_heap] holds the
    posts, [w_backend] the cache backend and [w_files] the attachments
    directory (path to content). *)
Record World : Type := mkWorld {
  w_Intermediate : Intermediate;
  w_Logger : list LogEvent;
  w_redisFactory : option RedisConfig;
  w_heap : Heap;
  w_backend : Backend;
  w_files : gmap string string;
}.

Definition set_w_Intermediate (f : Intermediate → Intermediate) (w : World) : World :=
  mkWorld (f (w_Intermediate w)) (w_Logger w) (w_redisFactory w) (w_heap w) (w_backend w)
    (w_files w).

Definition set_w_Logger (f : list LogEvent → list LogEvent) (w : World) : World :=
  mkWorld (w_Intermediate w) (f (w_Logger w)) (w_redisFactory w) (w_heap w) (w_backend w)
    (w_files w).

Definition set_w_redisFactory (r : option RedisConfig) (w : World) : World :=
  mkWorld (w_Intermediate w) (w_Logger w) r (w_heap w) (w_backend w) (w_files w).

Definition set_w_heap (f : Heap → Heap) (w : World) : World :=
  mkWorld (w_Intermediate w) (w_Logger w) (w_redisFactory w) (f (w_heap w)) (w_backend w)
    (w_files w).

Definition set_w_files (f : gmap string string → gmap string string) (w : World) : World :=
  mkWorld (w_Intermediate w) (w_Logger w) (w_redisFactory w) (w_heap w) (w_backend w)
    (f (w_files w)).

Definition set_UsersById (f : gmap string IntermediateUser → gmap string IntermediateUser)
    (i : Intermediate) : Intermediate :=
  mkIntermediate (im_PublicChannels i) (im_PrivateChannels i) (im_GroupChannels i)
    (im_DirectChannels i) (f (im_UsersById i)) (im_Posts i).

(** The three assignments that end [TransformPosts]. *)
Definition set_result (posts : list loc) (newGroupChannels newDirectChannels : list IntermediateChannel)
    (i : Intermediate) : Intermediate :=
  mkIntermediate (im_PublicChannels i) (im_PrivateChannels i)
    (im_GroupChannels i ++ newGroupChannels) (im_DirectChannels i ++ newDirectChannels)
    (im_UsersById i) posts.

(** The local variables of the channel loop: [threads] and [timestamps]. *)
Definition ChannelLocals : Type := Storage * gset Z.

(** The kinds of message that the [switch] of [TransformPosts] tells apart. *)
Inductive MessageKind : Type :=
  | PlainMessage
  | FileComment
  | BotMessage
  | JoinLeaveMessage
  | MeMessage
  | ChannelTopicMessage
  | ChannelPurposeMessage
  | ChannelNameMessage
  | UnsupportedMessage.

#[export] Instance MessageKind_eq_dec : EqDecision MessageKind.
Proof. solve_decision. Defined.

Section pipeline.
Context `{Env}.

(** [t.Logger.Warn(...)], [log.Printf(...)] *)
Definition logw (e : LogEvent) : M World Error unit :=
  modify (set_w_Logger (λ l, l ++ [e])).

(** A computation on the logger alone, run on the transformer's logger. *)
Definition with_Logger {A} (c : M (list LogEvent) Error A) : M World Error A :=
  λ w, let '(r, l) := c (w_Logger w) in (r, set_w_Logger (λ _, l) w).

(** [&IntermediatePost{...}] *)
Definition new_IntermediatePost (p : IntermediatePost) : M World Error loc :=
  λ w, (Ok (alloc p (w_heap w)).1, set_w_heap (λ _, (alloc p (w_heap w)).2) w).

(** An assignment to a field of [*post]. *)
Definition update_post (post : loc) (f : IntermediatePost → IntermediatePost)
    : M World Error unit :=
  modify (set_w_heap (update post f)).

Definition buildChannelsByOriginalNameMap (intermediate : Intermediate)
    : gmap string IntermediateChannel :=
  let add := foldl (λ m channel, <[ch_OriginalName channel := channel]> m) in
  add (add (add (add ∅ (im_PublicChannels intermediate))
                (im_PrivateChannels intermediate))
           (im_GroupChannels intermediate))
      (im_DirectChannels intermediate).

Definition getNormalisedFilePath (file : SlackFile) (attachmentsDir : string) : string :=
  norm_NFC (path_Join attachmentsDir (sf_Id file +:+ "_" +:+ sf_Name file)).

(** The result is the [error] of the source, [None] for [nil].  A file that
    was created and could not be written is left empty. *)
Definition addFileToPost (file : SlackFile) (uploads : gmap string ZipFile) (post : loc)
    (attachmentsDir : string) : M World Error (option FileError) :=
  match uploads !! sf_Id file with
  | None => ret (Some (ErrRetrieveFile (sf_Id file)))
  | Some zipFile =>
    match zf_content zipFile with
    | None => ret (Some (ErrOpenAttachment (sf_Id file)))
    | Some content =>
      let destFilePath := getNormalisedFilePath file attachmentsDir in
      do w <- get;
      if negb (os_Create (w_files w) destFilePath)
      then ret (Some (ErrCreateFile (sf_Id file)))
      else
        modify (set_w_files (<[destFilePath := EmptyString]>)) ;;
        do w <- get;
        if negb (io_Copy (w_files w) destFilePath content)
        then ret (Some (ErrCopyFile (sf_Id file)))
        else
          modify (set_w_files (<[destFilePath := content]>)) ;;
          logw (SuccessCopyingFile (sf_Id file) destFilePath) ;;
          update_post post (λ p, set_Attachments (p_Attachments p ++ [destFilePath]) p) ;;
          ret None
    end
  end.

(** The result is the storage or the [error] of [newRedisFactory]. *)
Definition newChannelThreadsStorage (channelName attachmentsDir : string)
    (redisConfig : option RedisConfig) : M World Error Storage :=
  match redisConfig with
  | None => ret (InMemory newMemoryStorage)
  | Some cfg =>
    do w <- get;
    (if bool_decide (w_redisFactory w = None)
     then if redis_connect cfg
          then modify (set_w_redisFactory (Some cfg))
          else throw (ErrRedisFactory cfg)
     else ret tt) ;;
    ret (InRedis (newRedisStorage channelName))
  end.

Definition selectOrCreateWorkflowUser (post : SlackPost) : M World Error IntermediateUser :=
  let userID := "importedworkflow" in
  do w <- get;
  match im_UsersById (w_Intermediate w) !! userID with
  | Some existingUser => ret existingUser
  | None =>
    let newUser :=
      mkIntermediateUser userID WorkflowUserName WorkflowUserName EmptyString EmptyString
        "imported-workflow@tinkoff.ru" NewId [] None EmptyString in
    do newUser <- with_Logger (Sanitise_user newUser);
    modify (set_w_Intermediate (set_UsersById (<[userID := newUser]>))) ;;
    ret newUser
  end.

(** The check of the user field and the lookup of the author that open
    five of the cases: [None] stands for [continue]. *)
Definition find_author (slackImport : bool) (user : string)
    : M World Error (option IntermediateUser) :=
  if bool_decide (user = EmptyString)
  then logw (WarnUserFieldMissing slackImport) ;; ret None
  else
    do w <- get;
    match im_UsersById (w_Intermediate w) !! user with
    | None => logw (WarnUserDoesNotExist slackImport user) ;; ret None
    | Some author => ret (Some author)
    end.

(** "if (post.File != nil || post.Files != nil) && !cfg.SkipAttachments" *)
Definition add_files (cfg : TransformConfig) (uploads : gmap string ZipFile)
    (post : SlackPost) (newPost : loc) : M World Error unit :=
  let add file :=
    do err <- addFileToPost file uploads newPost (cfg_AttachmentsDir cfg);
    match err with
    | Some e => logw (ErrorAddFileToPost e)
    | None => ret tt
    end in
  if (bool_decide (is_Some (sp_File post)) || bool_decide (sp_Files post ≠ []))
     && negb (cfg_SkipAttachments cfg) then
    match sp_File post with
    | Some file => add file
    | None => for_each add (sp_Files post)
    end
  else ret tt.

(** "if len(post.Attachments) > 0": [false] stands for [continue]. *)
Definition add_props (cfg : TransformConfig) (post : SlackPost) (newPost : loc)
    : M World Error bool :=
  if bool_decide (0 < length (sp_Attachments post)) then
    let props : StringInterface := {["attachments" := sp_Attachments post]} in
    if bool_decide (props_runes props ≤ model.PostPropsMaxRunes)
    then update_post newPost (set_Props props) ;; ret true
    else if cfg_DiscardInvalidProps cfg
         then logw WarnPropsSkipPost ;; ret false
         else logw WarnPropsDropped ;; ret true
  else ret true.

(** The call of [AddPostToThreads] on the world: the store and the ledger
    are the locals, the heap, the backend and the log are the world's. *)
Definition add_post_to_threads (original : SlackPost) (post : loc)
    (channel : IntermediateChannel) (importWorkflowPosts : bool) (locals : ChannelLocals)
    : M World Error ChannelLocals :=
  λ w,
    match AddPostToThreads original post channel importWorkflowPosts
            (mkThreadsState locals.1 locals.2 (w_heap w) (w_backend w) (w_Logger w)) with
    | Some st =>
      (Ok (ts_threads st, ts_timestamps st),
       mkWorld (w_Intermediate w) (ts_log st) (w_redisFactory w) (ts_heap st)
         (ts_backend st) (w_files w))
    | None => (Err Unreachable, w)
    end.

(** The post with the author's name, the channel's name, a message and the
    converted timestamp, then files, properties and [AddPostToThreads]:
    the body shared by the plain and the bot case. *)
Definition import_with_files (cfg : TransformConfig) (uploads : gmap string ZipFile)
    (channel : IntermediateChannel) (post : SlackPost) (author : IntermediateUser)
    (locals : ChannelLocals) : M World Error ChannelLocals :=
  do newPost <- new_IntermediatePost
                  (new_post (u_Username author) (ch_Name channel) (sp_Text post)
                     (SlackConvertTimeStamp (sp_TimeStamp post)));
  add_files cfg uploads post newPost ;;
  do keep <- add_props cfg post newPost;
  if keep : bool
  then add_post_to_threads post newPost channel (cfg_ImportWorkflowMessages cfg) locals
  else ret locals.

(** The post of an authored message without files: the body shared by the
    file-comment, topic, purpose and name cases. *)
Definition import_message (cfg : TransformConfig) (channel : IntermediateChannel)
    (post : SlackPost) (author : IntermediateUser) (message : string)
    (locals : ChannelLocals) : M World Error ChannelLocals :=
  do newPost <- new_IntermediatePost
                  (new_post (u_Username author) (ch_Name channel) message
                     (SlackConvertTimeStamp (sp_TimeStamp post)));
  add_post_to_threads post newPost channel (cfg_ImportWorkflowMessages cfg) locals.

(** "plain message that can have files attached" *)
Definition plain_message (cfg : TransformConfig) (uploads : gmap string ZipFile)
    (channel : IntermediateChannel) (post : SlackPost) (locals : ChannelLocals)
    : M World Error ChannelLocals :=
  do author <- find_author false (sp_User post);
  match author with
  | None => ret locals
  | Some author => import_with_files cfg uploads channel post author locals
  end.

(** "file comment" *)
Definition file_comment (cfg : TransformConfig) (channel : IntermediateChannel)
    (post : SlackPost) (locals : ChannelLocals) : M World Error ChannelLocals :=
  match sp_Comment post with
  | None => logw WarnNoComments ;; ret locals
  | Some comment =>
    do author <- find_author false (sc_User comment);
    match author with
    | None => ret locals
    | Some author => import_message cfg channel post author (sc_Comment comment) locals
    end
  end.

(** "bot message" *)
Definition bot_message (cfg : TransformConfig) (uploads : gmap string ZipFile)
    (channel : IntermediateChannel) (post : SlackPost) (locals : ChannelLocals)
    : M World Error ChannelLocals :=
  if negb (cfg_ImportWorkflowMessages cfg) then ret locals
  else
    do author <- selectOrCreateWorkflowUser post;
    import_with_files cfg uploads channel post author locals.

(** "change topic message", "change channel purpose message" and "change
    channel name message" *)
Definition metadata_message (slackImport : bool) (cfg : TransformConfig)
    (channel : IntermediateChannel) (post : SlackPost) (locals : ChannelLocals)
    : M World Error ChannelLocals :=
  do author <- find_author slackImport (sp_User post);
  match author with
  | None => ret locals
  | Some author => import_message cfg channel post author (sp_Text post) locals
  end.

(** The first case of the [switch] that applies. *)
Definition message_kind (post : SlackPost) : MessageKind :=
  if IsPlainMessage post then PlainMessage
  else if IsFileComment post then FileComment
  else if IsBotMessage post then BotMessage
  else if IsJoinLeaveMessage post then JoinLeaveMessage
  else if IsMeMessage post then MeMessage
  else if IsChannelTopicMessage post then ChannelTopicMessage
  else if IsChannelPurposeMessage post then ChannelPurposeMessage
  else if IsChannelNameMessage post then ChannelNameMessage
  else UnsupportedMessage.

(** The body of "for _, post := range channelPosts". *)
Definition transform_post (cfg : TransformConfig) (uploads : gmap string ZipFile)
    (channel : IntermediateChannel) (locals : ChannelLocals) (post : SlackPost)
    : M World Error ChannelLocals :=
  match message_kind post with
  | PlainMessage => plain_message cfg uploads channel post locals
  | FileComment => file_comment cfg channel post locals
  | BotMessage => bot_message cfg uploads channel post locals
  | JoinLeaveMessage => ret locals
  | MeMessage => ret locals
  | ChannelTopicMessage => metadata_message false cfg channel post locals
  | ChannelPurposeMessage => metadata_message false cfg channel post locals
  | ChannelNameMessage => metadata_message true cfg channel post locals
  | UnsupportedMessage =>
    logw (WarnUnsupportedType (sp_Type post) (sp_SubType post)) ;; ret locals
  end.

(** The body of "for originalChannelName, channelPosts := range
    slackExport.Posts": the posts gathered so far are the loop's local. *)
Definition transform_channel (cfg : TransformConfig) (uploads : gmap string ZipFile)
    (channelsByOriginalName : gmap string IntermediateChannel) (resultPosts : list loc)
    (entry : string * list SlackPost) : M World Error (list loc) :=
  let '(originalChannelName, channelPosts) := entry in
  match channelsByOriginalName !! originalChannelName with
  | None => logw (WarnChannelNotFound originalChannelName) ;; ret resultPosts
  | Some channel =>
    let timestamps : gset Z := ∅ in
    let channelPosts := sort_posts channelPosts in
    do threads <- newChannelThreadsStorage originalChannelName (cfg_AttachmentsDir cfg)
                    (cfg_RedisConfig cfg);
    do locals <- fold_M (transform_post cfg uploads channel) channelPosts (threads, timestamps);
    ret (resultPosts ++ GetChangedThreads locals.1)
  end.

Definition TransformPosts (cfg : TransformConfig) (slackExport : SlackExport)
    : M World Error unit :=
  logw InfoTransformingPosts ;;
  let newGroupChannels : list IntermediateChannel := [] in
  let newDirectChannels : list IntermediateChannel := [] in
  do w <- get;
  let channelsByOriginalName := buildChannelsByOriginalNameMap (w_Intermediate w) in
  do resultPosts <- fold_M (transform_channel cfg (se_Uploads slackExport)
                              channelsByOriginalName) (se_Posts slackExport) [];
  modify (set_w_Intermediate (set_result resultPosts newGroupChannels newDirectChannels)).
End pipeline.

Definition example_world : World :=
  mkWorld
    (mkIntermediate
       [mkIntermediateChannel "C1" "general" "general" "General" ["U1"; "U2"] ["alice"; "bob"]
          "" "" "" ChannelTypeOpen]
       [] []
       [mkIntermediateChannel "D1" "D1" "d1" "d1" ["U1"; "U2"] ["alice"; "bob"]
          "" "" "" ChannelTypeDirect]
       {["U1" := mkIntermediateUser "U1" "alice" "Alice" "A" "" "alice@example.com" "" [] None "";
         "U2" := mkIntermediateUser "U2" "bob" "Bob" "B" "" "bob@example.com" "" [] None ""]}
       [])
    [] None empty_heap ∅ ∅.

Definition example_cfg : TransformConfig :=
  mkTransformConfig "attachments" false false false "" false false false None.

Definition example_msg (user ts thread subtype text : string) : SlackPost :=
  mkSlackPost user text ts thread "message" subtype None [] [] None.

(** Spec section 8, end to end: a root, a reply to it, and an unrelated
    message in the same second; a join message, a message of an unknown
    user, a reply without a root and a direct message besides. *)
Definition example_export : SlackExport :=
  mkSlackExport [] [] [] [] []
    [("general",
      [example_msg "U2" "15.000200" "10.000100" "" "reply";
       example_msg "U1" "10.000100" "" "" "root";
       example_msg "U2" "10.000300" "" "" "other";
       example_msg "U1" "12.000000" "" "channel_join" "joined";
       example_msg "U9" "13.000000" "" "" "ghost";
       example_msg "U1" "14.000000" "9.000000" "" "orphan"]);
     ("D1", [example_msg "U1" "20.000000" "" "" "hello"]);
     ("nowhere", [example_msg "U1" "21.000000" "" "" "lost"])]
    ∅.

(** The posts of a world, resolved, and its log. *)
Definition world_posts (w : World) : list (option PostTree) :=
  resolve 2 (w_heap w) <$> im_Posts (w_Intermediate w).

(** ** Invariants of the pipeline

    The predicates that the pipeline keeps speak of the heap and the
    backend only; the log, the users and the files may change freely. *)

Definition on_store (P : Heap → Backend → Prop) : World → Prop :=
  λ w, P (w_heap w) (w_backend w).

(** Between two channels: the heap and the backend are well formed. *)
Definition world_ok (h : Heap) (b : Backend) : Prop := heap_ok h ∧ backend_ok b.

(** Between two messages of a channel: the invariant of [AddPostToThreads]
    on the locals of the loop. *)
Definition locals_inv (locals : ChannelLocals) (h : Heap) (b : Backend) : Prop :=
  threads_inv (mkThreadsState locals.1 locals.2 h b []).

(** Between the allocation of a post and [AddPostToThreads]. *)
Definition fresh_inv (locals : ChannelLocals) (post : loc) (h : Heap) (b : Backend) : Prop :=
  locals_inv locals h b ∧ post_fresh (mkThreadsState locals.1 locals.2 h b []) post.

(** After a message: the invariant, and a ledger with at most one more
    stamp. *)
Definition step_post (locals locals' : ChannelLocals) : World → Prop :=
  λ w, on_store (locals_inv locals') w ∧ (size locals'.2 ≤ S (size locals.2))%nat.

(** The only error of the pipeline: the backend refused the connection. *)
Definition redis_refused `{Env} (cfg : TransformConfig) (e : Error) : Prop :=
  ∃ c, e = ErrRedisFactory c ∧ cfg_RedisConfig cfg = Some c ∧ redis_connect c = false.

(** No stage fails. *)
Definition no_error : Error → World → Prop := λ _ _, False.

Section pipeline_rules.
Context `{Env, !EnvLaws}.
Implicit Types (P : Heap → Backend → Prop) (R : Error → World → Prop) (w : World).
Implicit Types (locals : ChannelLocals) (post : loc) (cfg : TransformConfig).

(** *** Steps that leave the heap and the backend alone *)

Lemma triple_frame P R (f : World → World) :
  (∀ w, w_heap (f w) = w_heap w ∧ w_backend (f w) = w_backend w) →
  triple (on_store P) (modify f) (λ _, on_store P) R.
Proof.
  intros Hf. eapply triple_pre; [apply triple_modify|].
  intros w Hw. unfold on_store. by destruct (Hf w) as [-> ->].
Qed.

Lemma triple_logw P R e : triple (on_store P) (logw e) (λ _, on_store P) R.
Proof. by apply triple_frame. Qed.

Lemma triple_with_Logger {A} P R (c : M (list LogEvent) Error A) a :
  returns c a → triple (on_store P) (with_Logger c) (λ a' w, a' = a ∧ on_store P w) R.
Proof.
  intros Hc w Hw. unfold with_Logger. by destruct (Hc (w_Logger w)) as (l & -> & _).
Qed.

Lemma triple_find_author P R slackImport user :
  triple (on_store P) (find_author slackImport user) (λ _, on_store P) R.
Proof.
  unfold find_author. case_bool_decide.
  { eapply triple_bind; [apply triple_logw|]. intros []. by apply triple_ret_pre. }
  eapply triple_bind; [apply triple_get|]. intros w0. simpl.
  destruct (im_UsersById (w_Intermediate w0) !! user).
  - apply triple_ret_pre. by intros w [_ ?].
  - eapply triple_bind;
      [eapply triple_pre; [apply (triple_logw P)|by intros w [_ ?]]
      |intros []; by apply triple_ret_pre].
Qed.

Lemma triple_selectOrCreateWorkflowUser P R original :
  triple (on_store P) (selectOrCreateWorkflowUser original) (λ _, on_store P) R.
Proof.
  unfold selectOrCreateWorkflowUser.
  eapply triple_bind; [apply triple_get|]. intros w0. simpl.
  destruct (im_UsersById (w_Intermediate w0) !! _).
  { apply triple_ret_pre. by intros w [_ ?]. }
  eapply triple_bind.
  { eapply triple_pre; [apply (triple_with_Logger P), Sanitise_user_returns|]. by intros w [_ ?]. }
  intros u. eapply triple_bind;
    [eapply triple_pre; [by apply (triple_frame P)|by intros w [_ ?]]
    |intros []; by apply triple_ret_pre].
Qed.

(** *** Steps on a post that is not filed yet *)

Lemma fresh_inv_update locals post h b f :
  (∀ p, p_Replies (f p) = p_Replies p) → (∀ p, p_CreateAt (f p) = p_CreateAt p) →
  fresh_inv locals post h b → fresh_inv locals post (update post f h) b.
Proof.
  intros Hr Hc [Hinv Hfresh]. split.
  - apply threads_inv_update; [done|]. by destruct Hfresh as (?&?&?&?&?).
  - apply post_fresh_update; [done| |done]. intros p. by rewrite Hc.
Qed.

Lemma triple_update_post locals post R f :
  (∀ p, p_Replies (f p) = p_Replies p) → (∀ p, p_CreateAt (f p) = p_CreateAt p) →
  triple (on_store (fresh_inv locals post)) (update_post post f)
    (λ _, on_store (fresh_inv locals post)) R.
Proof.
  intros Hr Hc. eapply triple_pre; [apply triple_modify|].
  intros w Hw. by apply fresh_inv_update.
Qed.

Lemma triple_new_IntermediatePost locals R p :
  p_Replies p = [] → in_int64 (p_CreateAt p) →
  triple (on_store (locals_inv locals)) (new_IntermediatePost p)
    (λ post, on_store (fresh_inv locals post)) R.
Proof. intros Hp Hc w Hw. by apply threads_inv_alloc. Qed.
Lemma triple_addFileToPost locals post R file uploads dir :
  triple (on_store (fresh_inv locals post)) (addFileToPost file uploads post dir)
    (λ _, on_store (fresh_inv locals post)) R.
Proof.
  unfold addFileToPost. destruct (uploads !! sf_Id file) as [[[content|]]|];
    try by apply triple_ret_pre.
  eapply triple_bind; [apply triple_get|]. intros w0. simpl.
  apply (triple_pre _ (on_store (fresh_inv locals post))); [|by intros w [_ ?]].
  destruct (os_Create _ _); simpl; [|by apply triple_ret_pre].
  eapply triple_bind; [by apply triple_frame|]. intros [].
  eapply triple_bind; [apply triple_get|]. intros w1. simpl.
  apply (triple_pre _ (on_store (fresh_inv locals post))); [|by intros w [_ ?]].
  destruct (io_Copy _ _ _); simpl; [|by apply triple_ret_pre].
  eapply triple_bind; [by apply triple_frame|]. intros [].
  eapply triple_bind; [apply triple_logw|]. intros [].
  eapply triple_bind; [by apply triple_update_post|]. intros [].
  by apply triple_ret_pre.
Qed.

Lemma triple_add_files locals post R cfg uploads original :
  triple (on_store (fresh_inv locals post)) (add_files cfg uploads original post)
    (λ _, on_store (fresh_inv locals post)) R.
Proof.
  unfold add_files.
  assert (∀ file, triple (on_store (fresh_inv locals post))
            (do err <- addFileToPost file uploads post (cfg_AttachmentsDir cfg);
             match err with Some e => logw (ErrorAddFileToPost e) | None => ret tt end)
            (λ _, on_store (fresh_inv locals post)) R) as Hadd.
  { intros file. eapply triple_bind; [apply triple_addFileToPost|].
    intros [e|]; [apply triple_logw|by apply triple_ret_pre]. }
  destruct (_ && _); [|by apply triple_ret_pre].
  destruct (sp_File original); [apply Hadd|by apply triple_for_each_inv].
Qed.

Lemma triple_add_props locals post R cfg original :
  triple (on_store (fresh_inv locals post)) (add_props cfg original post)
    (λ _, on_store (fresh_inv locals post)) R.
Proof.
  unfold add_props. repeat case_bool_decide; try by apply triple_ret_pre.
  - eapply triple_bind; [by apply triple_update_post|]. intros []. by apply triple_ret_pre.
  - destruct (cfg_DiscardInvalidProps cfg);
      (eapply triple_bind; [apply triple_logw|]; intros []; by apply triple_ret_pre).
Qed.

(** *** Filing the post *)

Lemma triple_add_post_to_threads locals post R original channel iw :
  (Z.of_nat (size locals.2) < 2 ^ 64)%Z →
  triple (on_store (fresh_inv locals post))
    (add_post_to_threads original post channel iw locals) (step_post locals) R.
Proof.
  intros Hsize w [Hinv Hfresh]. unfold add_post_to_threads.
  destruct (AddPostToThreads_spec original post channel iw
              (mkThreadsState locals.1 locals.2 (w_heap w) (w_backend w) (w_Logger w)))
    as (st' & Heq & Hinv'); [done..|].
  rewrite Heq. destruct (AddPostToThreads_ledger _ _ _ _ _ _ Heq) as (c & Hc & Hts).
  split; [done|]. simpl in *.
  rewrite Hts, size_union, size_singleton by (by apply disjoint_singleton_l). done.
Qed.

Lemma triple_import_with_files locals R cfg uploads channel original author :
  (Z.of_nat (size locals.2) < 2 ^ 64)%Z →
  triple (on_store (locals_inv locals))
    (import_with_files cfg uploads channel original author locals) (step_post locals) R.
Proof.
  intros Hsize. unfold import_with_files.
  eapply triple_bind.
  { apply triple_new_IntermediatePost; [done|apply SlackConvertTimeStamp_int64]. }
  intros post. eapply triple_bind; [apply triple_add_files|]. intros [].
  eapply triple_bind; [apply triple_add_props|].
  intros []; [by apply triple_add_post_to_threads|].
  apply triple_ret_pre. intros w [Hw _]. split; [done|lia].
Qed.

Lemma triple_import_message locals R cfg channel original author message :
  (Z.of_nat (size locals.2) < 2 ^ 64)%Z →
  triple (on_store (locals_inv locals))
    (import_message cfg channel original author message locals) (step_post locals) R.
Proof.
  intros Hsize. unfold import_message.
  eapply triple_bind; [|intros post; by apply triple_add_post_to_threads].
  apply triple_new_IntermediatePost; [done|apply SlackConvertTimeStamp_int64].
Qed.

(** A message that is skipped leaves the locals as they are. *)
Lemma triple_skip locals R :
  triple (on_store (locals_inv locals)) (ret locals) (step_post locals) R.
Proof. apply triple_ret_pre. intros w Hw. split; [done|lia]. Qed.

(** *** The cases of the switch *)

Lemma triple_authored locals R slackImport user
    (k : IntermediateUser → M World Error ChannelLocals) :
  (∀ author, triple (on_store (locals_inv locals)) (k author) (step_post locals) R) →
  triple (on_store (locals_inv locals))
    (do author <- find_author slackImport user;
     match author with None => ret locals | Some author => k author end)
    (step_post locals) R.
Proof.
  intros Hk. eapply triple_bind; [apply triple_find_author|].
  intros [author|]; [apply Hk|apply triple_skip].
Qed.

Lemma triple_transform_post locals R cfg uploads channel original :
  (Z.of_nat (size locals.2) < 2 ^ 64)%Z →
  triple (on_store (locals_inv locals))
    (transform_post cfg uploads channel locals original) (step_post locals) R.
Proof.
  intros Hsize. unfold transform_post.
  destruct (message_kind original); try apply triple_skip.
  - apply triple_authored. intros. by apply triple_import_with_files.
  - unfold file_comment. destruct (sp_Comment original) as [comment|].
    + apply triple_authored. intros. by apply triple_import_message.
    + eapply triple_bind; [apply triple_logw|]. intros []. apply triple_skip.
  - unfold bot_message. destruct (negb _); [apply triple_skip|].
    eapply triple_bind; [apply triple_selectOrCreateWorkflowUser|].
    intros author. by apply triple_import_with_files.
  - apply triple_authored. intros. by apply triple_import_message.
  - apply triple_authored. intros. by apply triple_import_message.
  - apply triple_authored. intros. by apply triple_import_message.
  - eapply triple_bind; [apply triple_logw|]. intros []. apply triple_skip.
Qed.

(** *** The loops *)

(** The messages of a channel: the ledger has at most one stamp per
    message visited, so the de-duplication loop always has room. *)
Lemma triple_channel_posts locals R cfg uploads channel (posts : list SlackPost) :
  (Z.of_nat (length posts) < 2 ^ 64)%Z → locals.2 = ∅ →
  triple (on_store (locals_inv locals))
    (fold_M (transform_post cfg uploads channel) posts locals)
    (λ locals', on_store (locals_inv locals')) R.
Proof.
  intros Hlen Hempty.
  pose (Inv := λ (visited : list SlackPost) (l : ChannelLocals) (w : World),
          (size l.2 ≤ length visited)%nat ∧ on_store (locals_inv l) w).
  eapply triple_conseq; [apply (triple_fold_M Inv)|..].
  - intros visited x rest l Hposts. subst Inv. simpl. apply triple_assume. intros Hsz.
    eapply triple_post; [apply triple_transform_post|].
    + rewrite Hposts, length_app in Hlen. simpl in Hlen. lia.
    + intros l' w [Hw Hsz']. split; [|done]. rewrite length_app. simpl. lia.
  - intros w Hw. split; [|done]. rewrite Hempty, size_empty. simpl. lia.
  - by intros l w [_ Hw].
  - done.
Qed.

(** *** Channels *)

Lemma locals_inv_new (threads : Storage) h b :
  world_ok h b → GetChangedThreads threads = [] → locals_inv (threads, ∅) h b.
Proof.
  intros [Hh Hb] Hnew. split_and!; st_simpl; cbn [fst snd];
    [done|by apply storage_ok_backend| |].
  - rewrite Hnew. apply roots_ok_nil.
  - by intros c ?%elem_of_empty.
Qed.

Lemma locals_inv_world_ok locals h b : locals_inv locals h b → world_ok h b.
Proof. intros (Hh & Hs & _). split; [done|]. by apply storage_ok_backend in Hs. Qed.

(** The error postcondition of the pipeline. *)
Definition refused (cfg : TransformConfig) : Error → World → Prop :=
  λ e w, redis_refused cfg e ∧ on_store world_ok w.

Lemma triple_newChannelThreadsStorage cfg channelName :
  triple (on_store world_ok)
    (newChannelThreadsStorage channelName (cfg_AttachmentsDir cfg) (cfg_RedisConfig cfg))
    (λ threads, on_store (locals_inv (threads, ∅))) (refused cfg).
Proof.
  unfold newChannelThreadsStorage. destruct (cfg_RedisConfig cfg) as [c|] eqn:Hc.
  - eapply triple_bind; [apply triple_get|]. intros w0. simpl.
    apply (triple_pre _ (on_store world_ok)); [|by intros w [_ ?]].
    eapply (triple_bind _ _ _ (λ _, on_store world_ok)).
    + case_bool_decide; [|by apply triple_ret_pre].
      destruct (redis_connect c) eqn:Hconn; [by apply triple_frame|].
      intros w Hw. simpl. split; [|done]. by exists c.
    + intros []. apply triple_ret_pre. intros w Hw.
      by apply locals_inv_new, GetChangedThreads_new_redis.
  - apply triple_ret_pre. intros w Hw.
    by apply locals_inv_new, GetChangedThreads_new_memory.
Qed.

Lemma triple_transform_channel cfg uploads channels resultPosts (entry : string * list SlackPost) :
  (Z.of_nat (length entry.2) < 2 ^ 64)%Z →
  triple (on_store world_ok) (transform_channel cfg uploads channels resultPosts entry)
    (λ _, on_store world_ok) (refused cfg).
Proof.
  destruct entry as [name posts]. simpl. intros Hlen.
  destruct (channels !! name) as [channel|].
  - eapply triple_bind; [apply triple_newChannelThreadsStorage|]. intros threads.
    eapply triple_bind.
    + apply triple_channel_posts; [|done]. by rewrite sort_posts_perm.
    + intros locals. apply triple_ret_pre. intros w Hw. by eapply locals_inv_world_ok.
  - eapply triple_bind; [apply triple_logw|]. intros []. by apply triple_ret_pre.
Qed.

Lemma triple_TransformPosts cfg slackExport :
  Forall (λ entry, Z.of_nat (length entry.2) < 2 ^ 64)%Z (se_Posts slackExport) →
  triple (on_store world_ok) (TransformPosts cfg slackExport)
    (λ _, on_store world_ok) (refused cfg).
Proof.
  intros Hlen. unfold TransformPosts.
  eapply triple_bind; [apply triple_logw|]. intros [].
  eapply triple_bind; [apply triple_get|]. intros w0. simpl.
  apply (triple_pre _ (on_store world_ok)); [|by intros w [_ ?]].
  eapply triple_bind; [|intros resultPosts; by apply triple_frame].
  apply (triple_fold_M (λ _ _, on_store world_ok)).
  intros visited entry rest resultPosts Hposts. apply triple_transform_channel.
  rewrite Hposts in Hlen. by apply Forall_app in Hlen as [_ [? _]%Forall_cons_1].
Qed.

(** A message of an author is one round of the channel's run: the post is
    made and handed to [AddPostToThreads], as [file_post] does it on the
    state of the channel. *)
Lemma import_message_file_post cfg channel (original : SlackPost) author message locals w :
  import_message cfg channel original author message locals w
  = match file_post original
            (new_post (u_Username author) (ch_Name channel) message
               (SlackConvertTimeStamp (sp_TimeStamp original)))
            channel (cfg_ImportWorkflowMessages cfg)
            (mkThreadsState locals.1 locals.2 (w_heap w) (w_backend w) (w_Logger w)) with
    | Some st =>
      (Ok (ts_threads st, ts_timestamps st),
       mkWorld (w_Intermediate w) (ts_log st) (w_redisFactory w) (ts_heap st)
         (ts_backend st) (w_files w))
    | None =>
      (Err Unreachable,
       set_w_heap (λ _, (alloc (new_post (u_Username author) (ch_Name channel) message
                                  (SlackConvertTimeStamp (sp_TimeStamp original))) (w_heap w)).2) w)
    end.
Proof.
  unfold import_message, new_IntermediatePost, add_post_to_threads, file_post, bind.
  st_simpl. cbn [w_heap w_backend w_Logger set_w_heap w_Intermediate w_redisFactory w_files].
  by destruct (AddPostToThreads _ _ _ _ _).
Qed.

End pipeline_rules.

Lemma example_world_ok : on_store world_ok example_world.
Proof. split; simpl; auto with mm. Qed.

Lemma example_export_bounded :
  Forall (λ entry : string * list SlackPost, Z.of_nat (length entry.2) < 2 ^ 64)%Z
    (se_Posts example_export).
Proof. repeat constructor. Qed.

(** ** The properties of the pipeline *)

(** C2. [TransformPosts] is safe: from a well-formed heap and backend, on
    channels of fewer than 2^64 messages, it never reaches a state the
    sources cannot be in (a reply's root or a new post that is not
    allocated, a de-duplication loop without end), whatever the
    environment does.  It ends normally or, when a cache backend is
    configured and refuses the connection, with that error; either way the
    heap and the backend are well formed afterwards. *)
Theorem TransformPosts_safe `{Env, !EnvLaws} (cfg : TransformConfig)
    (slackExport : SlackExport) (w : World) :
  heap_ok (w_heap w) → backend_ok (w_backend w) →
  Forall (λ entry, Z.of_nat (length entry.2) < 2 ^ 64)%Z (se_Posts slackExport) →
  heap_ok (w_heap (TransformPosts cfg slackExport w).2) ∧
  backend_ok (w_backend (TransformPosts cfg slackExport w).2) ∧
  ((TransformPosts cfg slackExport w).1 = Ok tt ∨
   ∃ e, (TransformPosts cfg slackExport w).1 = Err e ∧ redis_refused cfg e).
Proof.
  intros Hh Hb Hlen.
  pose proof (triple_TransformPosts cfg slackExport Hlen w (conj Hh Hb)) as Hrun.
  destruct (TransformPosts cfg slackExport w) as [[[]|e] w']; simpl.
  - destruct Hrun. auto.
  - destruct Hrun as [? []]. eauto 6.
Qed.

Lemma TransformPosts_safe_witness :
  heap_ok (w_heap (TransformPosts example_cfg example_export example_world).2) ∧
  backend_ok (w_backend (TransformPosts example_cfg example_export example_world).2) ∧
  ((TransformPosts example_cfg example_export example_world).1 = Ok tt ∨
   ∃ e, (TransformPosts example_cfg example_export example_world).1 = Err e ∧
        redis_refused example_cfg e).
Proof.
  apply TransformPosts_safe;
    [apply example_world_ok..|apply example_export_bounded].
Defined.

(** C27. Without a cache backend in the configuration [TransformPosts]
    cannot fail: it returns [nil]. *)
Theorem TransformPosts_memory_total `{Env, !EnvLaws} (cfg : TransformConfig)
    (slackExport : SlackExport) (w : World) :
  cfg_RedisConfig cfg = None →
  heap_ok (w_heap w) → backend_ok (w_backend w) →
  Forall (λ entry, Z.of_nat (length entry.2) < 2 ^ 64)%Z (se_Posts slackExport) →
  (TransformPosts cfg slackExport w).1 = Ok tt.
Proof.
  intros Hcfg Hh Hb Hlen.
  pose proof (triple_TransformPosts cfg slackExport Hlen w (conj Hh Hb)) as Hrun.
  destruct (TransformPosts cfg slackExport w) as [[[]|e] w']; [done|].
  destruct Hrun as [(c & _ & Hc & _) _]. congruence.
Qed.

Lemma TransformPosts_memory_total_witness :
  (TransformPosts example_cfg example_export example_world).1 = Ok tt.
Proof.
  apply TransformPosts_memory_total;
    [done|apply example_world_ok..|apply example_export_bounded].
Defined.

(** C33. A plain message of a user that the transformer does not have is
    left out: [TransformPosts] logs the warning and goes on to the next
    message with the store, the ledger, the heap and the files as they
    were. *)
Theorem transform_post_unknown_user `{Env} (cfg : TransformConfig)
    (uploads : gmap string ZipFile) (channel : IntermediateChannel) (locals : ChannelLocals)
    (post : SlackPost) (w : World) :
  message_kind post = PlainMessage → sp_User post ≠ EmptyString →
  im_UsersById (w_Intermediate w) !! sp_User post = None →
  transform_post cfg uploads channel locals post w
  = (Ok locals, set_w_Logger (λ l, l ++ [WarnUserDoesNotExist false (sp_User post)]) w).
Proof.
  intros Hkind Huser Hnone. unfold transform_post, plain_message, find_author.
  rewrite Hkind, bool_decide_eq_false_2 by done.
  unfold bind at 1. unfold bind at 1. unfold get. by rewrite Hnone.
Qed.

Lemma transform_post_unknown_user_witness :
  transform_post example_cfg ∅ example_channel (InMemory newMemoryStorage, ∅)
    (example_msg "U9" "13.000000" "" "" "ghost") example_world
  = (Ok (InMemory newMemoryStorage, ∅),
     set_w_Logger
       (λ l, l ++ [WarnUserDoesNotExist false
                     (sp_User (example_msg "U9" "13.000000" "" "" "ghost"))]) example_world).
Proof. by apply transform_post_unknown_user. Defined.

(** The environment of the examples with properties that are always one
    rune over the limit. *)
Definition strict_env : Env := {|
  SlackConvertTimeStamp := @SlackConvertTimeStamp example_env;
  IsPlainMessage := @IsPlainMessage example_env;
  IsFileComment := @IsFileComment example_env;
  IsBotMessage := @IsBotMessage example_env;
  IsJoinLeaveMessage := @IsJoinLeaveMessage example_env;
  IsMeMessage := @IsMeMessage example_env;
  IsChannelTopicMessage := @IsChannelTopicMessage example_env;
  IsChannelPurposeMessage := @IsChannelPurposeMessage example_env;
  IsChannelNameMessage := @IsChannelNameMessage example_env;
  props_runes _ := S model.PostPropsMaxRunes;
  sort_posts := @sort_posts example_env;
  path_Join := @path_Join example_env;
  norm_NFC := @norm_NFC example_env;
  os_Create := @os_Create example_env;
  io_Copy := @io_Copy example_env;
  redis_connect := @redis_connect example_env;
  NewId := @NewId example_env;
  strings_ToLower := @strings_ToLower example_env;
  isValidChannelNameCharacters := @isValidChannelNameCharacters example_env;
  SlackConvertChannelName := @SlackConvertChannelName example_env;
  SplitChannelsByMemberSize := @SplitChannelsByMemberSize example_env;
|}.

(** A message with a file and an attachment. *)
Definition example_file : SlackFile := mkSlackFile "F1" "notes.txt".

Definition example_file_msg : SlackPost :=
  mkSlackPost "U1" "see the notes" "30.000000" "" "message" "" (Some example_file) []
    ["a"] None.

(** C32. A post that is discarded for its properties leaves its files
    behind: with [--discard-invalid-props], a message with a file and with
    properties over the limit is not imported, but the file has already
    been copied to the attachments directory and stays there. *)
Theorem discarded_post_keeps_files `{Env} (cfg : TransformConfig)
    (uploads : gmap string ZipFile) (channel : IntermediateChannel) (post : SlackPost)
    (author : IntermediateUser) (locals : ChannelLocals) (w : World) (file : SlackFile)
    (zipFile : ZipFile) (content : string) :
  sp_File post = Some file → cfg_SkipAttachments cfg = false →
  uploads !! sf_Id file = Some zipFile → zf_content zipFile = Some content →
  (∀ files path, os_Create files path = true) →
  (∀ files path data, io_Copy files path data = true) →
  0 < length (sp_Attachments post) →
  model.PostPropsMaxRunes < props_runes {["attachments" := sp_Attachments post]} →
  cfg_DiscardInvalidProps cfg = true →
  (import_with_files cfg uploads channel post author locals w).1 = Ok locals ∧
  w_files (import_with_files cfg uploads channel post author locals w).2
    !! getNormalisedFilePath file (cfg_AttachmentsDir cfg) = Some content ∧
  w_backend (import_with_files cfg uploads channel post author locals w).2 = w_backend w ∧
  list.last (w_Logger (import_with_files cfg uploads channel post author locals w).2)
    = Some WarnPropsSkipPost.
Proof.
  intros Hfile Hskip Hup Hcontent Hcreate Hcopy Hatt Hprops Hdiscard.
  unfold import_with_files, add_files, add_props, addFileToPost.
  rewrite Hfile, Hskip, Hup, Hcontent, Hdiscard.
  rewrite (bool_decide_eq_true_2 (0 < _)) by done.
  rewrite (bool_decide_eq_false_2 (_ ≤ _)) by lia.
  unfold_M. simpl. rewrite Hcreate. simpl. rewrite Hcopy. simpl.
  split_and!; [done|apply lookup_insert_eq|done|by rewrite list.last_snoc].
Qed.

Lemma discarded_post_keeps_files_witness :
  (@import_with_files strict_env (mkTransformConfig "files" false true false "" false false false None)
     {["F1" := mkZipFile (Some "notes")]} example_channel example_file_msg
     (mkIntermediateUser "U1" "alice" "Alice" "A" "" "alice@example.com" "" [] None "")
     (InMemory newMemoryStorage, ∅) example_world).1 = Ok (InMemory newMemoryStorage, ∅) ∧
  w_files (@import_with_files strict_env
             (mkTransformConfig "files" false true false "" false false false None)
             {["F1" := mkZipFile (Some "notes")]} example_channel example_file_msg
             (mkIntermediateUser "U1" "alice" "Alice" "A" "" "alice@example.com" "" [] None "")
             (InMemory newMemoryStorage, ∅) example_world).2
    !! @getNormalisedFilePath strict_env example_file "files" = Some "notes" ∧
  w_backend (@import_with_files strict_env
               (mkTransformConfig "files" false true false "" false false false None)
               {["F1" := mkZipFile (Some "notes")]} example_channel example_file_msg
               (mkIntermediateUser "U1" "alice" "Alice" "A" "" "alice@example.com" "" [] None "")
               (InMemory newMemoryStorage, ∅) example_world).2 = w_backend example_world ∧
  list.last (w_Logger (@import_with_files strict_env
               (mkTransformConfig "files" false true false "" false false false None)
               {["F1" := mkZipFile (Some "notes")]} example_channel example_file_msg
               (mkIntermediateUser "U1" "alice" "Alice" "A" "" "alice@example.com" "" [] None "")
               (InMemory newMemoryStorage, ∅) example_world).2) = Some WarnPropsSkipPost.
Proof.
  apply (@discarded_post_keeps_files strict_env
           (mkTransformConfig "files" false true false "" false false false None)
           {["F1" := mkZipFile (Some "notes")]} example_channel example_file_msg _ _ _
           example_file (mkZipFile (Some "notes")) "notes");
    try done; [simpl; lia|apply Nat.lt_succ_diag_r].
Defined.
