(* ===== verification/Transform.v ===== *)
(** * The entity transformers and [Transform]

    [TransformUsers] (src/unnamed/part_001, lines 138-164),
    [filterValidMembers] (166-175), [getOriginalName] (177-183),
    [TransformChannels] (185-215), [PopulateUserMemberships] (217-240),
    [PopulateChannelMemberships] (242-265), [TransformAllChannels]
    (267-287) and [Transform] (675-694), which runs them and then
    [TransformPosts].

    The methods act on the transformer; here they are computations on the
    [World] of Pipeline.v, of which they touch the intermediate
    representation and the log only.  Users and channels are held by
    pointer in the source; no pointer is shared between two lists or maps,
    so a user or channel is the value of its entry, and an assignment
    through the pointer is an update of the entry.  [AuthData] points to
    the user's own [Email] field; the e-mail does not change afterwards,
    and [AuthData] holds its value. *)

From stdpp Require Import pretty.
From S2P Require Import Prelude Hoare Utf8 Model Env Entities Heap Storage Threads Pipeline.

#[local] Open Scope mm_scope.

Definition set_PublicChannels (cs : list IntermediateChannel) (i : Intermediate) : Intermediate :=
  mkIntermediate cs (im_PrivateChannels i) (im_GroupChannels i) (im_DirectChannels i)
    (im_UsersById i) (im_Posts i).

Definition set_PrivateChannels (cs : list IntermediateChannel) (i : Intermediate) : Intermediate :=
  mkIntermediate (im_PublicChannels i) cs (im_GroupChannels i) (im_DirectChannels i)
    (im_UsersById i) (im_Posts i).

Definition set_GroupChannels (cs : list IntermediateChannel) (i : Intermediate) : Intermediate :=
  mkIntermediate (im_PublicChannels i) (im_PrivateChannels i) cs (im_DirectChannels i)
    (im_UsersById i) (im_Posts i).

Definition set_DirectChannels (cs : list IntermediateChannel) (i : Intermediate) : Intermediate :=
  mkIntermediate (im_PublicChannels i) (im_PrivateChannels i) (im_GroupChannels i) cs
    (im_UsersById i) (im_Posts i).

(** "channel.Name = channel.Purpose.Value; channel.Type = model.ChannelTypePrivate" *)
Definition as_private (channel : SlackChannel) : SlackChannel :=
  mkSlackChannel (sch_Id channel) (sch_Purpose channel) (sch_Members channel)
    (sch_Purpose channel) (sch_Topic channel) ChannelTypePrivate.

Definition filterValidMembers (members : list string) (users : gmap string IntermediateUser)
    : list string :=
  filter (λ member, is_Some (users !! member)) members.

Definition getOriginalName (channel : SlackChannel) : string :=
  if decide (sch_Name channel = EmptyString) then sch_Id channel else sch_Name channel.

(** The names of the channels of a list that have [userId] among their
    members: the two inner loops of [PopulateUserMemberships]. *)
Definition memberships_in (userId : string) (channels : list IntermediateChannel)
    : list string :=
  ch_Name <$> filter (λ channel, userId ∈ ch_Members channel) channels.

(** The usernames of the members that are users: the inner loop of
    [PopulateChannelMemberships]. *)
Definition member_usernames (users : gmap string IntermediateUser) (channel : IntermediateChannel)
    : list string :=
  omap (λ memberId, u_Username <$> users !! memberId) (ch_Members channel).

(** The user that the loop of [TransformUsers] makes of a user of the
    export, and the map that the loop builds. *)
Definition transformed_user (authDataAsEmail : bool) (authService : string) (user : SlackUser)
    : IntermediateUser :=
  let newUser :=
    sanitised_user
      (mkIntermediateUser (su_Id user) (su_Username user) (pf_FirstName (su_Profile user))
         (pf_LastName (su_Profile user)) (pf_Title (su_Profile user))
         (pf_Email (su_Profile user)) EmptyString [] None EmptyString) in
  if authDataAsEmail && bool_decide (authService ≠ EmptyString)
  then set_AuthData (Some (u_Email newUser)) authService newUser
  else newUser.

Definition transformed_users (authDataAsEmail : bool) (authService : string)
    (users : list SlackUser) : gmap string IntermediateUser :=
  foldl (λ m user, <[su_Id user := transformed_user authDataAsEmail authService user]> m)
    ∅ users.

Section transform.
Context `{Env}.

(** The body of the loop of [TransformUsers]. *)
Definition transform_user (authDataAsEmail : bool) (authService : string)
    (resultUsers : gmap string IntermediateUser) (user : SlackUser)
    : M World Error (gmap string IntermediateUser) :=
  let newUser :=
    mkIntermediateUser (su_Id user) (su_Username user) (pf_FirstName (su_Profile user))
      (pf_LastName (su_Profile user)) (pf_Title (su_Profile user)) (pf_Email (su_Profile user))
      EmptyString [] None EmptyString in
  do newUser <- with_Logger (Sanitise_user newUser);
  let newUser :=
    if authDataAsEmail && bool_decide (authService ≠ EmptyString)
    then set_AuthData (Some (u_Email newUser)) authService newUser
    else newUser in
  logw (DebugUserImported (u_Email newUser)) ;;
  ret (<[u_Id newUser := newUser]> resultUsers).

Definition TransformUsers (users : list SlackUser) (authDataAsEmail : bool)
    (authService : string) : M World Error unit :=
  logw InfoTransformingUsers ;;
  do resultUsers <- fold_M (transform_user authDataAsEmail authService) users ∅;
  modify (set_w_Intermediate (set_UsersById (λ _, resultUsers))).

(** The body of the loop of [TransformChannels]. *)
Definition transform_channel_entity (resultChannels : list IntermediateChannel)
    (channel : SlackChannel) : M World Error (list IntermediateChannel) :=
  do w <- get;
  let validMembers :=
    filterValidMembers (sch_Members channel) (im_UsersById (w_Intermediate w)) in
  if bool_decide (sch_Type channel = ChannelTypeDirect ∨ sch_Type channel = ChannelTypeGroup)
     && bool_decide (length validMembers ≤ 1)
  then logw (WarnSingleMemberChannel (sch_Name channel)) ;; ret resultChannels
  else
    let channel :=
      if bool_decide (sch_Type channel = ChannelTypeGroup)
         && bool_decide (model.ChannelGroupMaxUsers < length validMembers)
      then as_private channel else channel in
    let name := SlackConvertChannelName (sch_Name channel) (sch_Id channel) in
    let newChannel :=
      mkIntermediateChannel EmptyString (getOriginalName channel) name (getOriginalName channel)
        validMembers [] (sch_Purpose channel) (sch_Topic channel) EmptyString
        (sch_Type channel) in
    do newChannel <- with_Logger (Sanitise_channel newChannel);
    ret (resultChannels ++ [newChannel]).

Definition TransformChannels (channels : list SlackChannel)
    : M World Error (list IntermediateChannel) :=
  fold_M transform_channel_entity channels [].

Definition PopulateUserMemberships : M World Error unit :=
  logw InfoPopulatingUserMemberships ;;
  modify (set_w_Intermediate (λ i,
    set_UsersById (map_imap (λ userId user,
      Some (set_Memberships
              (memberships_in userId (im_PublicChannels i) ++
               memberships_in userId (im_PrivateChannels i)) user))) i)).

Definition PopulateChannelMemberships : M World Error unit :=
  logw InfoPopulatingChannelMemberships ;;
  modify (set_w_Intermediate (λ i,
    let populate channel :=
      set_MembersUsernames (member_usernames (im_UsersById i) channel) channel in
    set_DirectChannels (populate <$> im_DirectChannels i)
      (set_GroupChannels (populate <$> im_GroupChannels i) i))).

Definition TransformAllChannels (slackExport : SlackExport) : M World Error unit :=
  logw InfoTransformingChannels ;;
  do public <- TransformChannels (se_PublicChannels slackExport);
  modify (set_w_Intermediate (set_PublicChannels public)) ;;
  do private <- TransformChannels (se_PrivateChannels slackExport);
  modify (set_w_Intermediate (set_PrivateChannels private)) ;;
  let '(regularGroupChannels, bigGroupChannels) :=
    SplitChannelsByMemberSize (se_GroupChannels slackExport) model.ChannelGroupMaxUsers in
  do big <- TransformChannels bigGroupChannels;
  modify (set_w_Intermediate (λ i, set_PrivateChannels (im_PrivateChannels i ++ big) i)) ;;
  do group <- TransformChannels regularGroupChannels;
  modify (set_w_Intermediate (set_GroupChannels group)) ;;
  do direct <- TransformChannels (se_DirectChannels slackExport);
  modify (set_w_Intermediate (set_DirectChannels direct)).

Definition Transform (cfg : TransformConfig) (slackExport : SlackExport) : M World Error unit :=
  TransformUsers (se_Users slackExport) (cfg_AuthDataAsEmail cfg) (cfg_AuthService cfg) ;;
  (if negb (cfg_SkipChannels cfg)
   then TransformAllChannels slackExport ;;
        PopulateUserMemberships ;;
        PopulateChannelMemberships
   else ret tt) ;;
  if negb (cfg_SkipPosts cfg) then TransformPosts cfg slackExport else ret tt.
End transform.

(** ** What a list of transformed channels satisfies

    With respect to the users of the run: the members are users, a direct
    or group channel has at least two of them and a group channel at most
    [ChannelGroupMaxUsers], and the identifier is empty, since nothing
    sets it. *)
Definition channel_ok (users : gmap string IntermediateUser) (c : IntermediateChannel) : Prop :=
  Forall (λ member, is_Some (users !! member)) (ch_Members c) ∧
  (ch_Type c = ChannelTypeDirect ∨ ch_Type c = ChannelTypeGroup → 2 ≤ length (ch_Members c)) ∧
  (ch_Type c = ChannelTypeGroup → length (ch_Members c) ≤ model.ChannelGroupMaxUsers) ∧
  ch_Id c = EmptyString.

(** The handle of a channel that is not direct: a valid one, or what the
    fallback of [Sanitise] makes of an identifier that nothing sets. *)
Definition handle_ok `{Env} (c : IntermediateChannel) : Prop :=
  ch_Type c ≠ ChannelTypeDirect →
  isValidChannelNameCharacters (ch_Name c) = true ∨ ch_Name c = strings_ToLower EmptyString.

Definition channel_wf `{Env} (users : gmap string IntermediateUser) (c : IntermediateChannel)
    : Prop :=
  channel_ok users c ∧ handle_ok c.

(** A step that changes nothing but the log. *)
Definition logs_only (w w' : World) : Prop :=
  w_Intermediate w' = w_Intermediate w ∧ w_redisFactory w' = w_redisFactory w ∧
  w_heap w' = w_heap w ∧ w_backend w' = w_backend w ∧ w_files w' = w_files w ∧
  w_Logger w `prefix_of` w_Logger w'.

(** A step that changes nothing but the intermediate representation and
    the log. *)
Definition entities_only (w w' : World) : Prop :=
  w_redisFactory w' = w_redisFactory w ∧ w_heap w' = w_heap w ∧
  w_backend w' = w_backend w ∧ w_files w' = w_files w ∧
  w_Logger w `prefix_of` w_Logger w'.

#[export] Instance entities_only_preorder : PreOrder entities_only.
Proof.
  split; [by intros w|].
  intros w1 w2 w3 (?&?&?&?&?) (?&?&?&?&?).
  split_and!; try congruence. by etrans.
Qed.

#[export] Instance logs_only_preorder : PreOrder logs_only.
Proof.
  split; [by intros w|].
  intros w1 w2 w3 (?&?&?&?&?&?) (?&?&?&?&?&?).
  split_and!; try congruence. by etrans.
Qed.

Section transform_rules.
Context `{Env}.
Implicit Types (P : Heap → Backend → Prop) (R : Error → World → Prop) (w : World).

Lemma filterValidMembers_valid members users :
  Forall (λ member, is_Some (users !! member)) (filterValidMembers members users).
Proof. apply list.Forall_forall. by intros member [? _]%list_elem_of_filter. Qed.

Lemma sanitised_channel_fields (c : IntermediateChannel) :
  ch_Id (sanitised_channel c) = ch_Id c ∧ ch_Members (sanitised_channel c) = ch_Members c ∧
  ch_Type (sanitised_channel c) = ch_Type c ∧
  ch_OriginalName (sanitised_channel c) = ch_OriginalName c ∧
  ch_MembersUsernames (sanitised_channel c) = ch_MembersUsernames c.
Proof. unfold sanitised_channel. by case_decide. Qed.

Lemma logw_logs_only e w : ∃ w', logw e w = (Ok tt, w') ∧ logs_only w w'.
Proof. eexists. split; [done|]. split_and!; try done. by apply prefix_app_r. Qed.

Lemma with_Logger_logs_only {A} (c : M (list LogEvent) Error A) a w :
  returns c a → ∃ w', with_Logger c w = (Ok a, w') ∧ logs_only w w'.
Proof.
  intros Hc. unfold with_Logger. destruct (Hc (w_Logger w)) as (l & -> & Hl).
  eexists. split; [done|]. by split_and!.
Qed.

(** The handle that [Sanitise] leaves on a channel that is not direct. *)
Lemma sanitised_channel_handle (c : IntermediateChannel) :
  ch_Type c ≠ ChannelTypeDirect →
  isValidChannelNameCharacters (ch_Name (sanitised_channel c)) = true ∨
  ch_Name (sanitised_channel c) = strings_ToLower (ch_Id c).
Proof.
  intros Hd. unfold sanitised_channel. rewrite decide_False by done. cbn.
  destruct (isValidChannelNameCharacters (pad_single _)) eqn:Hvalid; auto.
Qed.

(** The guards of [TransformChannels] on the type and the number of valid
    members. *)
Lemma channel_type_bounds (channel : SlackChannel) (n : nat) :
  bool_decide (sch_Type channel = ChannelTypeDirect ∨ sch_Type channel = ChannelTypeGroup)
    && bool_decide (n ≤ 1) = false →
  let channel' :=
    if bool_decide (sch_Type channel = ChannelTypeGroup)
       && bool_decide (model.ChannelGroupMaxUsers < n)
    then as_private channel else channel in
  (sch_Type channel' = ChannelTypeDirect ∨ sch_Type channel' = ChannelTypeGroup → 2 ≤ n) ∧
  (sch_Type channel' = ChannelTypeGroup → n ≤ model.ChannelGroupMaxUsers).
Proof.
  intros Hs. cbn zeta.
  repeat case_bool_decide; simpl in *; try done;
    (split; [intros [Hd|Hg]|intros Hg]); destruct_or?; simplify_eq; lia || tauto.
Qed.

(** One channel: the result grows by at most one channel, which is
    well formed, and only the log changes. *)
Lemma transform_channel_entity_spec resultChannels channel w :
  Forall (channel_wf (im_UsersById (w_Intermediate w))) resultChannels →
  ∃ cs w', transform_channel_entity resultChannels channel w = (Ok cs, w') ∧
    logs_only w w' ∧ Forall (channel_wf (im_UsersById (w_Intermediate w))) cs.
Proof.
  intros Hok. unfold transform_channel_entity. unfold bind at 1. simpl.
  set (valid := filterValidMembers _ _).
  destruct (bool_decide (_ ∨ _) && bool_decide (length valid ≤ 1)) eqn:Hsingle.
  { destruct (logw_logs_only (WarnSingleMemberChannel (sch_Name channel)) w) as (w' & Hw & ?).
    exists resultChannels, w'. unfold bind. by rewrite Hw. }
  set (channel' := if _ && _ then as_private channel else channel).
  set (newChannel := mkIntermediateChannel _ _ _ _ _ _ _ _ _ _).
  destruct (with_Logger_logs_only _ _ w (Sanitise_channel_returns newChannel)) as (w' & Hw & ?).
  exists (resultChannels ++ [sanitised_channel newChannel]), w'. unfold bind. rewrite Hw.
  split_and!; [done..|]. apply Forall_app. split; [done|]. apply Forall_singleton.
  destruct (sanitised_channel_fields newChannel) as (HId & HM & HT & _).
  split; [|intros Hd; apply (sanitised_channel_handle newChannel); by rewrite <-HT].
  unfold channel_ok. rewrite HId, HM, HT. simpl.
  destruct (channel_type_bounds channel (length valid) Hsingle).
  split_and!; [apply filterValidMembers_valid|done..].
Qed.

Lemma fold_transform_channel_entity channels acc w :
  Forall (channel_wf (im_UsersById (w_Intermediate w))) acc →
  ∃ cs w', fold_M transform_channel_entity channels acc w = (Ok cs, w') ∧
    logs_only w w' ∧ Forall (channel_wf (im_UsersById (w_Intermediate w))) cs.
Proof.
  revert acc w. induction channels as [|channel channels IH]; intros acc w Hacc.
  { exists acc, w. by split_and!. }
  destruct (transform_channel_entity_spec acc channel w Hacc) as (cs1 & w1 & Heq1 & Hw1 & Hcs1).
  destruct (IH cs1 w1) as (cs & w' & Heq & Hw' & Hcs).
  { by rewrite (proj1 Hw1). }
  exists cs, w'. simpl. rewrite (bind_Ok _ _ _ _ _ Heq1).
  rewrite (proj1 Hw1) in Hcs. split_and!; [done| |done]. by etrans.
Qed.

Lemma TransformChannels_wf channels w :
  ∃ cs w', TransformChannels channels w = (Ok cs, w') ∧ logs_only w w' ∧
    Forall (channel_wf (im_UsersById (w_Intermediate w))) cs.
Proof. by apply fold_transform_channel_entity. Qed.

Lemma TransformChannels_spec channels w :
  ∃ cs w', TransformChannels channels w = (Ok cs, w') ∧ logs_only w w' ∧
    Forall (channel_ok (im_UsersById (w_Intermediate w))) cs.
Proof.
  destruct (TransformChannels_wf channels w) as (cs & w' & ? & ? & Hcs).
  exists cs, w'. split_and!; [done..|]. eapply list.Forall_impl; [done|]. by intros c [].
Qed.

Lemma logs_only_entities_only w w' : logs_only w w' → entities_only w w'.
Proof. intros (?&?&?&?&?&?). by split_and!. Qed.

Lemma sanitised_user_Id u : u_Id (sanitised_user u) = u_Id u.
Proof. unfold sanitised_user. by case_decide. Qed.

Lemma transformed_user_Id authDataAsEmail authService user :
  u_Id (transformed_user authDataAsEmail authService user) = su_Id user.
Proof.
  unfold transformed_user. cbn zeta. set (u := mkIntermediateUser _ _ _ _ _ _ _ _ _ _).
  change (su_Id user) with (u_Id u). destruct (_ && _); apply sanitised_user_Id.
Qed.

Lemma transform_user_spec authDataAsEmail authService resultUsers user w :
  ∃ w', transform_user authDataAsEmail authService resultUsers user w
        = (Ok (<[su_Id user := transformed_user authDataAsEmail authService user]> resultUsers),
           w') ∧ logs_only w w'.
Proof.
  unfold transform_user. set (u := mkIntermediateUser _ _ _ _ _ _ _ _ _ _).
  destruct (with_Logger_logs_only _ _ w (Sanitise_user_returns u)) as (w1 & Heq1 & Hw1).
  rewrite (bind_Ok _ _ _ _ _ Heq1). cbn zeta.
  match goal with |- context [logw ?e] =>
    destruct (logw_logs_only e w1) as (w2 & Heq2 & Hw2) end.
  rewrite (bind_Ok _ _ _ _ _ Heq2). exists w2. split; [|by etrans].
  unfold ret. do 2 f_equal. rewrite <-(transformed_user_Id authDataAsEmail authService user).
  done.
Qed.

Lemma fold_transform_user authDataAsEmail authService users acc w :
  ∃ w', fold_M (transform_user authDataAsEmail authService) users acc w
        = (Ok (foldl (λ m user,
                 <[su_Id user := transformed_user authDataAsEmail authService user]> m)
               acc users), w') ∧ logs_only w w'.
Proof.
  revert acc w. induction users as [|user users IH]; intros acc w; [by exists w|].
  destruct (transform_user_spec authDataAsEmail authService acc user w) as (w1 & Heq1 & Hw1).
  destruct (IH (<[su_Id user := transformed_user authDataAsEmail authService user]> acc) w1)
    as (w' & Heq & Hw').
  exists w'. simpl. rewrite (bind_Ok _ _ _ _ _ Heq1). split; [done|by etrans].
Qed.

Lemma TransformUsers_spec users authDataAsEmail authService w :
  ∃ w', TransformUsers users authDataAsEmail authService w = (Ok tt, w') ∧
    entities_only w w' ∧
    w_Intermediate w' =
      set_UsersById (λ _, transformed_users authDataAsEmail authService users)
        (w_Intermediate w).
Proof.
  unfold TransformUsers.
  destruct (logw_logs_only InfoTransformingUsers w) as (w1 & Heq1 & Hw1).
  rewrite (bind_Ok _ _ _ _ _ Heq1).
  destruct (fold_transform_user authDataAsEmail authService users ∅ w1) as (w2 & Heq2 & Hw2).
  rewrite (bind_Ok _ _ _ _ _ Heq2). eexists. split; [done|].
  assert (logs_only w w2) as Hw by by etrans.
  destruct Hw as (Hi&?&?&?&?&?). split; [by split_and!|]. simpl. by rewrite Hi.
Qed.

(** A list of channels transformed and assigned to a field. *)
Lemma TransformChannels_then channels (f : list IntermediateChannel → Intermediate → Intermediate) w :
  ∃ cs w', entities_only w w' ∧ w_Intermediate w' = f cs (w_Intermediate w) ∧
    Forall (channel_ok (im_UsersById (w_Intermediate w))) cs ∧
    (do r <- TransformChannels channels; modify (set_w_Intermediate (f r))) w = (Ok tt, w') ∧
    ∀ k : M World Error unit,
      (do r <- TransformChannels channels; modify (set_w_Intermediate (f r)) ;; k) w = k w'.
Proof.
  destruct (TransformChannels_spec channels w) as (cs & w1 & Heq & Hw1 & Hcs).
  exists cs, (set_w_Intermediate (f cs) w1).
  destruct Hw1 as (Hi&?&?&?&?&?). split_and!; [by split_and!|by simpl; rewrite Hi|done|..].
  - by rewrite (bind_Ok _ _ _ _ _ Heq).
  - intros k. by rewrite (bind_Ok _ _ _ _ _ Heq).
Qed.

(** The four lists of channels of a world are well formed for its users. *)
Definition channels_ok (i : Intermediate) : Prop :=
  Forall (channel_ok (im_UsersById i)) (im_PublicChannels i) ∧
  Forall (channel_ok (im_UsersById i)) (im_PrivateChannels i) ∧
  Forall (channel_ok (im_UsersById i)) (im_GroupChannels i) ∧
  Forall (channel_ok (im_UsersById i)) (im_DirectChannels i).

Lemma TransformAllChannels_spec slackExport w :
  ∃ w', TransformAllChannels slackExport w = (Ok tt, w') ∧ entities_only w w' ∧
    im_UsersById (w_Intermediate w') = im_UsersById (w_Intermediate w) ∧
    im_Posts (w_Intermediate w') = im_Posts (w_Intermediate w) ∧
    channels_ok (w_Intermediate w').
Proof.
  unfold TransformAllChannels.
  destruct (logw_logs_only InfoTransformingChannels w) as (w0 & Heq0 & Hw0).
  rewrite (bind_Ok _ _ _ _ _ Heq0). apply logs_only_entities_only in Hw0 as He0.
  destruct (TransformChannels_then (se_PublicChannels slackExport) set_PublicChannels w0)
    as (public & w1 & He1 & Hi1 & Hok1 & _ & ->).
  destruct (TransformChannels_then (se_PrivateChannels slackExport) set_PrivateChannels w1)
    as (private & w2 & He2 & Hi2 & Hok2 & _ & ->).
  destruct (SplitChannelsByMemberSize _ _) as [regular big].
  destruct (TransformChannels_then big
              (λ r i, set_PrivateChannels (im_PrivateChannels i ++ r) i) w2)
    as (bigs & w3 & He3 & Hi3 & Hok3 & _ & ->).
  destruct (TransformChannels_then regular set_GroupChannels w3)
    as (group & w4 & He4 & Hi4 & Hok4 & _ & ->).
  destruct (TransformChannels_then (se_DirectChannels slackExport) set_DirectChannels w4)
    as (direct & w5 & He5 & Hi5 & Hok5 & -> & _).
  exists w5. rewrite Hi4, Hi3, Hi2, Hi1 in *. rewrite Hi5. destruct Hw0 as [Hi0 _].
  rewrite Hi0 in *.
  split_and!; [done|by repeat (etrans; [eassumption|])|done|done|].
  repeat split; simpl in *; rewrite ?Forall_app; auto.
Qed.

(** A step that leaves the heap and the backend alone keeps what is known
    of them. *)
Lemma triple_entities_only {A} P R (c : M World Error A) :
  (∀ w, ∃ a w', c w = (Ok a, w') ∧ entities_only w w') →
  triple (on_store P) c (λ _, on_store P) R.
Proof.
  intros Hc w Hw. destruct (Hc w) as (a & w' & -> & _ & Hh & Hb & _).
  unfold on_store. by rewrite Hh, Hb.
Qed.

Lemma Populate_spec w :
  ∃ w', (PopulateUserMemberships ;; PopulateChannelMemberships) w = (Ok tt, w') ∧
        entities_only w w'.
Proof.
  eexists. split; [reflexivity|]. split_and!; try done. simpl.
  etrans; [|by apply prefix_app_r]. by apply prefix_app_r.
Qed.

(** Steps that change the entities only compose. *)
Lemma entities_only_bind {A B} (c : M World Error A) (k : A → M World Error B) :
  (∀ w, ∃ a w', c w = (Ok a, w') ∧ entities_only w w') →
  (∀ a w, ∃ b w', k a w = (Ok b, w') ∧ entities_only w w') →
  ∀ w, ∃ b w', bind c k w = (Ok b, w') ∧ entities_only w w'.
Proof.
  intros Hc Hk w. destruct (Hc w) as (a & w1 & Hc1 & Hw1).
  destruct (Hk a w1) as (b & w2 & Hk2 & Hw2). exists b, w2.
  split; [by rewrite (bind_Ok _ _ _ _ _ Hc1)|by etrans].
Qed.

(** With [SkipPosts] the transformation is that of the entities. *)
Lemma Transform_skip_posts cfg slackExport w :
  cfg_SkipPosts cfg = true →
  ∃ w', Transform cfg slackExport w = (Ok tt, w') ∧ entities_only w w'.
Proof.
  intros Hskip. unfold Transform. rewrite Hskip. cbn [negb].
  enough (∃ (b : unit) w', (TransformUsers (se_Users slackExport) (cfg_AuthDataAsEmail cfg)
            (cfg_AuthService cfg) ;;
          (if negb (cfg_SkipChannels cfg)
           then TransformAllChannels slackExport ;; PopulateUserMemberships ;;
                PopulateChannelMemberships
           else ret tt) ;; ret tt) w = (Ok b, w') ∧ entities_only w w') as ([] & w' & ?);
    [by exists w'|].
  apply entities_only_bind.
  { intros w0. destruct (TransformUsers_spec (se_Users slackExport) (cfg_AuthDataAsEmail cfg)
                           (cfg_AuthService cfg) w0) as (w' & ? & ? & _). eauto. }
  intros [] w0. apply entities_only_bind; [|by intros [] w1; exists tt, w1].
  intros w1. destruct (negb (cfg_SkipChannels cfg)); [|by exists tt, w1].
  apply entities_only_bind.
  - intros w2. destruct (TransformAllChannels_spec slackExport w2) as (w' & ? & ? & _). eauto.
  - intros [] w2. destruct (Populate_spec w2) as (w' & ? & ?). eauto.
Qed.

Lemma triple_Transform `{!EnvLaws} cfg slackExport :
  Forall (λ entry, Z.of_nat (length entry.2) < 2 ^ 64)%Z (se_Posts slackExport) →
  triple (on_store world_ok) (Transform cfg slackExport) (λ _, on_store world_ok) (refused cfg).
Proof.
  intros Hlen. unfold Transform.
  eapply triple_bind.
  { apply triple_entities_only. intros w.
    destruct (TransformUsers_spec (se_Users slackExport) (cfg_AuthDataAsEmail cfg)
                (cfg_AuthService cfg) w) as (w' & ? & ? & _). eauto. }
  intros []. eapply (triple_bind _ _ _ (λ _, on_store world_ok)).
  { destruct (negb (cfg_SkipChannels cfg)); [|by apply triple_ret_pre].
    eapply triple_bind.
    - apply triple_entities_only. intros w.
      destruct (TransformAllChannels_spec slackExport w) as (w' & ? & ? & _). eauto.
    - intros []. apply triple_entities_only. intros w.
      destruct (Populate_spec w) as (w' & ? & ?). eauto. }
  intros []. destruct (negb (cfg_SkipPosts cfg)); [|by apply triple_ret_pre].
  by apply triple_TransformPosts.
Qed.

(** The map of users: a user of the export is found under its identifier,
    as the last user of the export with that identifier left it. *)
Lemma transformed_users_lookup authDataAsEmail authService users id :
  transformed_users authDataAsEmail authService users !! id =
    transformed_user authDataAsEmail authService
      <$> list.last (filter (λ user, su_Id user = id) users).
Proof.
  unfold transformed_users. induction users as [|user users IH] using rev_ind; [done|].
  rewrite foldl_app, list.filter_app. simpl. rewrite list.filter_cons, list.filter_nil.
  case_decide as Hid.
  - subst id. by rewrite lookup_insert_eq, last_snoc.
  - by rewrite lookup_insert_ne, app_nil_r.
Qed.

(** A group conversation with more valid members than a group channel may
    have: what the loop of [TransformChannels] makes of it. *)
Lemma transform_channel_entity_big resultChannels channel w :
  sch_Type channel = ChannelTypeGroup →
  model.ChannelGroupMaxUsers <
    length (filterValidMembers (sch_Members channel) (im_UsersById (w_Intermediate w))) →
  ∃ c w', transform_channel_entity resultChannels channel w = (Ok (resultChannels ++ [c]), w') ∧
    ch_Type c = ChannelTypePrivate ∧
    ch_OriginalName c = getOriginalName (as_private channel).
Proof.
  intros Ht Hbig. unfold transform_channel_entity. unfold bind at 1. simpl.
  rewrite Ht. rewrite (bool_decide_eq_false_2 (_ ≤ 1)), andb_false_r
    by (unfold model.ChannelGroupMaxUsers in Hbig; lia).
  rewrite (bool_decide_eq_true_2 (_ = _)), (bool_decide_eq_true_2 (_ < _)) by done. simpl.
  set (newChannel := mkIntermediateChannel _ _ _ _ _ _ _ _ _ _).
  destruct (with_Logger_logs_only _ _ w (Sanitise_channel_returns newChannel)) as (w' & Hw & ?).
  exists (sanitised_channel newChannel), w'. rewrite (bind_Ok _ _ _ _ _ Hw).
  destruct (sanitised_channel_fields newChannel) as (_ & _ & -> & -> & _). done.
Qed.

(** The usernames that [PopulateChannelMemberships] collects are those of
    the members that are users, in the order of the members. *)
Lemma member_usernames_spec users (members : list string) :
  Forall2 (λ member name, ∃ u, users !! member = Some u ∧ u_Username u = name)
    (filterValidMembers members users)
    (omap (λ memberId, u_Username <$> users !! memberId) members).
Proof.
  unfold filterValidMembers. induction members as [|member members IH]; [constructor|].
  simpl. destruct (users !! member) as [u|] eqn:Hu; simpl.
  - rewrite filter_cons_True by by rewrite Hu. constructor; eauto.
  - rewrite filter_cons_False; [done|]. rewrite Hu. by intros [].
Qed.

(** What the method makes of one channel. *)
Definition populated (users : gmap string IntermediateUser) (c c' : IntermediateChannel)
    : Prop :=
  set_MembersUsernames (ch_MembersUsernames c) c' = c ∧
  Forall2 (λ member name, ∃ u, users !! member = Some u ∧ u_Username u = name)
    (filterValidMembers (ch_Members c) users) (ch_MembersUsernames c').

Lemma populated_fmap users (cs : list IntermediateChannel) :
  Forall2 (populated users) cs
    ((λ c, set_MembersUsernames (member_usernames users c) c) <$> cs).
Proof.
  apply Forall2_fmap_r, Forall_Forall2_diag, list.Forall_forall. intros c _.
  split; [by destruct c|apply member_usernames_spec].
Qed.

End transform_rules.

(** ** An export with users, channels and posts

    Nine users; a public channel, a public channel whose name is made of
    underscores, a group conversation of all nine users with a purpose, a
    direct conversation of two users and one whose second member is not a
    user; a message in the public channel, in the group conversation and in
    the direct conversation. *)

Definition example_slack_user (n : nat) : SlackUser :=
  let id := "U" +:+ pretty n in
  mkSlackUser id ("user" +:+ pretty n)
    (mkSlackProfile "First" "Last" "Engineer" (if decide (n = 2) then EmptyString
                                               else "user" +:+ pretty n +:+ "@example.org")).

Definition example_members (n : nat) : list string :=
  (λ k, "U" +:+ pretty k) <$> seq 1 n.

Definition example_full_export : SlackExport :=
  mkSlackExport
    [mkSlackChannel "C1" "general" (example_members 2) "talk" "" ChannelTypeOpen;
     mkSlackChannel "C2" "__" (example_members 2) "" "" ChannelTypeOpen]
    []
    [mkSlackChannel "G1" "mpdm-all" (example_members 9) "Team chat" "" ChannelTypeGroup]
    [mkSlackChannel "D1" "D1" (example_members 2) "" "" ChannelTypeDirect;
     mkSlackChannel "D2" "D2" ["U1"; "U99"] "" "" ChannelTypeDirect]
    (example_slack_user <$> seq 1 9)
    [("general", [example_msg "U1" "10.000100" "" "" "hello"]);
     ("mpdm-all", [example_msg "U1" "11.000100" "" "" "to all"]);
     ("D1", [example_msg "U2" "12.000100" "" "" "to you"])]
    ∅.

Definition empty_world : World :=
  mkWorld (mkIntermediate [] [] [] [] ∅ []) [] None empty_heap ∅ ∅.

Definition example_transformed : World :=
  (Transform example_cfg example_full_export empty_world).2.

Lemma example_full_export_bounded :
  Forall (λ entry : string * list SlackPost, Z.of_nat (length entry.2) < 2 ^ 64)%Z
    (se_Posts example_full_export).
Proof. repeat constructor. Qed.

Lemma empty_world_ok : on_store world_ok empty_world.
Proof. split; simpl; auto with mm. Qed.

(** ** The properties of the entity transformers and of [Transform] *)

(** C3. [Transform] is safe: from a well-formed heap and backend, on
    channels of fewer than 2^64 messages, the whole transformation (users,
    channels, memberships, posts) ends normally or with the error of a
    refused backend connection, whatever the flags and the environment,
    and leaves the heap and the backend well formed.  With [SkipPosts] it
    cannot fail and leaves the heap and the backend as they were. *)
Theorem Transform_safe `{Env, !EnvLaws} (cfg : TransformConfig) (slackExport : SlackExport)
    (w : World) :
  heap_ok (w_heap w) → backend_ok (w_backend w) →
  Forall (λ entry, Z.of_nat (length entry.2) < 2 ^ 64)%Z (se_Posts slackExport) →
  heap_ok (w_heap (Transform cfg slackExport w).2) ∧
  backend_ok (w_backend (Transform cfg slackExport w).2) ∧
  ((Transform cfg slackExport w).1 = Ok tt ∨
   ∃ e, (Transform cfg slackExport w).1 = Err e ∧ redis_refused cfg e) ∧
  (cfg_SkipPosts cfg = true →
   (Transform cfg slackExport w).1 = Ok tt ∧
   w_heap (Transform cfg slackExport w).2 = w_heap w ∧
   w_backend (Transform cfg slackExport w).2 = w_backend w).
Proof.
  intros Hh Hb Hlen.
  pose proof (triple_Transform cfg slackExport Hlen w (conj Hh Hb)) as Hrun.
  pose proof (Transform_skip_posts cfg slackExport w) as Hskip.
  destruct (Transform cfg slackExport w) as [[[]|e] w']; simpl.
  - destruct Hrun. split_and!; auto. intros Hs.
    destruct (Hskip Hs) as (? & [= <-] & _ & ? & ? & _). done.
  - destruct Hrun as [? []]. split_and!; eauto 6. intros Hs. by destruct (Hskip Hs) as (? & ? & _).
Qed.

Lemma Transform_safe_witness :
  heap_ok (w_heap (Transform example_cfg example_full_export empty_world).2) ∧
  backend_ok (w_backend (Transform example_cfg example_full_export empty_world).2) ∧
  ((Transform example_cfg example_full_export empty_world).1 = Ok tt ∨
   ∃ e, (Transform example_cfg example_full_export empty_world).1 = Err e ∧
        redis_refused example_cfg e) ∧
  (cfg_SkipPosts example_cfg = true →
   (Transform example_cfg example_full_export empty_world).1 = Ok tt ∧
   w_heap (Transform example_cfg example_full_export empty_world).2 = w_heap empty_world ∧
   w_backend (Transform example_cfg example_full_export empty_world).2 = w_backend empty_world).
Proof.
  apply Transform_safe; [apply empty_world_ok..|apply example_full_export_bounded].
Defined.

(** C16. [TransformUsers] returns and replaces the users of the transformer
    by the map built from the export alone: under each identifier the
    sanitised user made of the last user of the export with that
    identifier, with the e-mail as authentication data when that is asked
    for and a service is named.  Nothing but the users and the log
    changes. *)
Theorem TransformUsers_refines `{Env} (users : list SlackUser) (authDataAsEmail : bool)
    (authService : string) (w : World) (id : string) :
  (TransformUsers users authDataAsEmail authService w).1 = Ok tt ∧
  entities_only w (TransformUsers users authDataAsEmail authService w).2 ∧
  im_UsersById (w_Intermediate (TransformUsers users authDataAsEmail authService w).2) !! id
    = transformed_user authDataAsEmail authService
        <$> list.last (filter (λ user, su_Id user = id) users).
Proof.
  destruct (TransformUsers_spec users authDataAsEmail authService w) as (w' & Heq & ? & Hi).
  rewrite Heq. cbn [fst snd]. rewrite Hi. split_and!; [done..|].
  apply transformed_users_lookup.
Qed.

(** C17. The channels that [TransformChannels] returns are well formed: their
    members are users of the transformer, a direct or group channel has at
    least two of them, a group channel at most [ChannelGroupMaxUsers], and
    no channel has an identifier.  Only the log changes. *)
Theorem TransformChannels_ok `{Env} (channels : list SlackChannel) (w : World) :
  ∃ cs, (TransformChannels channels w).1 = Ok cs ∧
    logs_only w (TransformChannels channels w).2 ∧
    Forall (channel_ok (im_UsersById (w_Intermediate w))) cs.
Proof.
  destruct (TransformChannels_spec channels w) as (cs & w' & -> & ? & ?). by exists cs.
Qed.

(** C18. A group conversation with more valid members than a group channel
    may have becomes a private channel whose original name is its purpose
    (its identifier when it has none), not the name under which the export
    files its messages. *)
Theorem TransformChannels_big_group `{Env} (channel : SlackChannel) (w : World) :
  sch_Type channel = ChannelTypeGroup →
  model.ChannelGroupMaxUsers <
    length (filterValidMembers (sch_Members channel) (im_UsersById (w_Intermediate w))) →
  ∃ c, (TransformChannels [channel] w).1 = Ok [c] ∧
    ch_Type c = ChannelTypePrivate ∧
    ch_OriginalName c =
      if decide (sch_Purpose channel = EmptyString) then sch_Id channel
      else sch_Purpose channel.
Proof.
  intros Ht Hbig.
  destruct (transform_channel_entity_big [] channel w Ht Hbig) as (c & w' & Heq & ? & ?).
  exists c. unfold TransformChannels. simpl. by rewrite (bind_Ok _ _ _ _ _ Heq).
Qed.

Lemma TransformChannels_big_group_witness :
  ∃ c, (TransformChannels
          [mkSlackChannel "G1" "mpdm-all" (example_members 9) "Team chat" "" ChannelTypeGroup]
          (TransformUsers (se_Users example_full_export) false "" empty_world).2).1 = Ok [c] ∧
    ch_Type c = ChannelTypePrivate ∧
    ch_OriginalName c = "Team chat".
Proof.
  apply (TransformChannels_big_group
           (mkSlackChannel "G1" "mpdm-all" (example_members 9) "Team chat" "" ChannelTypeGroup));
    [done|vm_compute; lia].
Defined.

(** C19. The handle of a channel whose name has no valid form is empty in
    all but case: every channel that [TransformChannels] returns and that
    is not direct has a handle of valid characters, or the lower-cased
    empty string.  The fallback of [Sanitise] reads the identifier of the
    channel, and [TransformChannels] never sets it. *)
Theorem TransformChannels_handle `{Env} (channels : list SlackChannel) (w : World) :
  ∃ cs, (TransformChannels channels w).1 = Ok cs ∧
    Forall (λ c, ch_Id c = EmptyString ∧
                 (ch_Type c ≠ ChannelTypeDirect →
                  isValidChannelNameCharacters (ch_Name c) = true ∨
                  ch_Name c = strings_ToLower EmptyString)) cs.
Proof.
  destruct (TransformChannels_wf channels w) as (cs & w' & -> & _ & Hcs). exists cs.
  split; [done|]. eapply list.Forall_impl; [done|]. by intros c [(_ & _ & _ & ?) ?].
Qed.

(** The whole transformation on an export with a group conversation of
    nine users: the conversation becomes the private channel "Team chat",
    its message is dropped because no channel has the original name
    "mpdm-all" any more, the channel named "__" gets an empty handle, the
    direct conversation with a single user is left out, and the posts of
    the other channels come out with their authors and members. *)
Example Transform_example :
  (Transform example_cfg example_full_export empty_world).1 = Ok tt ∧
  ch_OriginalName <$> im_PrivateChannels (w_Intermediate example_transformed) = ["Team chat"] ∧
  ch_Name <$> im_PublicChannels (w_Intermediate example_transformed) = ["general"; ""] ∧
  ch_MembersUsernames <$> im_DirectChannels (w_Intermediate example_transformed)
    = [["user1"; "user2"]] ∧
  filter (λ e, e = WarnChannelNotFound "mpdm-all" ∨ e = WarnSingleMemberChannel "D2")
    (w_Logger example_transformed)
    = [WarnSingleMemberChannel "D2"; WarnChannelNotFound "mpdm-all"] ∧
  world_posts example_transformed
    = [Some (PostNode (new_post "user1" "general" "hello" 10000) []);
       Some (PostNode (set_ChannelMembers ["user1"; "user2"]
                         (set_IsDirect true (new_post "user2" "d1" "to you" 12000))) [])].
Proof. split_and!; vm_compute; reflexivity. Qed.

(** C30. [PopulateUserMemberships] gives every user the handles of the
    public and private channels that list the user as a member, and
    changes nothing else of the user; group and direct channels do not
    count. *)
Theorem PopulateUserMemberships_spec `{Env} (w : World) (id : string) (u : IntermediateUser) :
  im_UsersById (w_Intermediate w) !! id = Some u →
  ∃ u', (PopulateUserMemberships w).1 = Ok tt ∧
    im_UsersById (w_Intermediate (PopulateUserMemberships w).2) !! id = Some u' ∧
    set_Memberships (u_Memberships u) u' = u ∧
    ∀ name, name ∈ u_Memberships u' ↔
      ∃ c, c ∈ im_PublicChannels (w_Intermediate w) ++ im_PrivateChannels (w_Intermediate w) ∧
           id ∈ ch_Members c ∧ ch_Name c = name.
Proof.
  intros Hu. eexists. split_and!; [done| | |].
  - simpl. rewrite map_lookup_imap, Hu. reflexivity.
  - by destruct u.
  - intros name. simpl. unfold memberships_in.
    rewrite <-fmap_app, <-list.filter_app, list_elem_of_fmap.
    setoid_rewrite list_elem_of_filter.
    split; intros (c & ? & ? & ?); exists c; auto.
Qed.

Lemma PopulateUserMemberships_spec_witness :
  ∃ u', (PopulateUserMemberships
           (TransformAllChannels example_full_export
              (TransformUsers (se_Users example_full_export) false "" empty_world).2).2).1
        = Ok tt ∧
    im_UsersById (w_Intermediate (PopulateUserMemberships
           (TransformAllChannels example_full_export
              (TransformUsers (se_Users example_full_export) false "" empty_world).2).2).2)
      !! "U1" = Some u' ∧
    set_Memberships
      (u_Memberships (transformed_user false "" (example_slack_user 1))) u'
      = transformed_user false "" (example_slack_user 1) ∧
    ∀ name, name ∈ u_Memberships u' ↔
      ∃ c, c ∈ im_PublicChannels (w_Intermediate
                 (TransformAllChannels example_full_export
                    (TransformUsers (se_Users example_full_export) false "" empty_world).2).2)
               ++ im_PrivateChannels (w_Intermediate
                 (TransformAllChannels example_full_export
                    (TransformUsers (se_Users example_full_export) false "" empty_world).2).2) ∧
           "U1" ∈ ch_Members c ∧ ch_Name c = name.
Proof. apply PopulateUserMemberships_spec. vm_compute. reflexivity. Defined.

(** C31. [PopulateChannelMemberships] gives every group and direct channel
    the usernames of its members that are users of the transformer, in
    the order of the members, and changes nothing else: the other fields
    of these channels, the public and private channels, the users and the
    posts stay as they were. *)
Theorem PopulateChannelMemberships_spec `{Env} (w : World) :
  (PopulateChannelMemberships w).1 = Ok tt ∧
  Forall2 (populated (im_UsersById (w_Intermediate w)))
    (im_GroupChannels (w_Intermediate w))
    (im_GroupChannels (w_Intermediate (PopulateChannelMemberships w).2)) ∧
  Forall2 (populated (im_UsersById (w_Intermediate w)))
    (im_DirectChannels (w_Intermediate w))
    (im_DirectChannels (w_Intermediate (PopulateChannelMemberships w).2)) ∧
  set_DirectChannels (im_DirectChannels (w_Intermediate w))
    (set_GroupChannels (im_GroupChannels (w_Intermediate w))
       (w_Intermediate (PopulateChannelMemberships w).2)) = w_Intermediate w.
Proof.
  split_and!; [done|apply populated_fmap..|]. by destruct w as [[]].
Qed.
