(* ===== verification/Cli.v ===== *)
(** * The command [transform slack]

    [transformSlackCmdF] of src/commands/transform.go (lines 60-159) and
    the flags that [init] declares (lines 28-58).  The command checks the
    output path and the attachments directory, opens the archive, parses
    it, runs [Transform] and exports the result.

    The operating system, the archive reader, the parser and the exporter
    are a [CliEnv]: each call is a function of its arguments that says how
    the call ends.  The command is a computation on a [CliState]: the world
    of the transformer, the directories made and the files exported.  Its
    result is the [error] it returns: [Ok tt] stands for [nil].

    The transformer is made inside the command (line 122) and the parser
    is a method of it; here the world is part of the state from the start
    and the parser a function of the archive.  [os_Stat] is a function of
    the path alone: the command examines each path once.  [Export] is one
    step that either records the file as written or fails and records
    nothing, so "a failed run exports nothing" rests on that for the
    failure of [Export] itself. *)

From S2P Require Import Prelude Hoare Utf8 Model Env Entities Heap Storage Threads Pipeline.
From S2P Require Import Transform.

#[local] Open Scope mm_scope.

(** The flags of the command, with the names of [init]. *)
Record Flags : Type := mkFlags {
  fl_team : string;
  fl_file : string;
  fl_output : string;
  fl_attachments_dir : string;
  fl_skip_convert_posts : bool;
  fl_skip_attachments : bool;
  fl_discard_invalid_props : bool;
  fl_debug : bool;
  fl_auth_data_as_email : bool;
  fl_auth_service : string;
  fl_redis_endpoint : string;
  fl_redis_login : string;
  fl_redis_password : string;
  fl_import_workflow_messages : bool;
  fl_skip_posts : bool;
  fl_skip_channels : bool;
}.

(** The flags when only the two required ones are given: the defaults of
    [init]. *)
Definition default_flags (team file : string) : Flags :=
  mkFlags team file "bulk-export.jsonl" "bulk-export-attachments" false false false true
    false EmptyString EmptyString EmptyString EmptyString false false false.

(** How [os.Stat] ends: no such file, another error, or the information
    whether the path is a directory. *)
Inductive StatResult : Type :=
  | StatNotExist
  | StatError (err : string)
  | StatInfo (isDir : bool).

(** The errors the command returns. *)
Inductive CliError : Type :=
  | ErrOs (err : string)
  | ErrOutputIsDirectory (outputFilePath : string)
  | ErrNotDirectory (attachmentsDir : string)
  | ErrParse (err : string)
  | ErrTransform (e : Error)
  | ErrExport (err : string).

(** [logger.Level] *)
Inductive LogLevel : Type := WarnLevel | DebugLevel.

Class CliEnv : Type := {
  os_Stat : string → StatResult;
  (** [os.Mkdir(path, 0755)]: [None] for success *)
  os_Mkdir : string → option string;
  (** [os.Open]: [None] for success *)
  os_Open : string → option string;
  (** [fileReader.Stat] and [zipFileInfo.Size] *)
  file_Stat : string → result string Z;
  (** [zip.NewReader]: the files of the archive, [None] for a nil slice *)
  zip_NewReader : string → Z → result string (option (gmap string ZipFile));
  (** [ParseSlackExportFile(zipReader, skipConvertPosts)] *)
  ParseSlackExportFile : gmap string ZipFile → bool → result string SlackExport;
  (** [Export(outputFilePath)]: [None] for success *)
  Export : Intermediate → Heap → string → option string;
}.

Record CliState : Type := mkCliState {
  cli_world : World;
  cli_level : LogLevel;
  cli_made : list string;
  cli_exported : list (string * list (option PostTree));
}.

Definition set_cli_world (f : World → World) (s : CliState) : CliState :=
  mkCliState (f (cli_world s)) (cli_level s) (cli_made s) (cli_exported s).

(** The state when the command starts: the transformer that
    [slack.NewTransformer] makes, and what the cache backend holds from
    earlier runs. *)
Definition new_state (backend : Backend) : CliState :=
  mkCliState (mkWorld (mkIntermediate [] [] [] [] ∅ []) [] None empty_heap backend ∅)
    WarnLevel [] [].

Section cli.
Context `{Env, CliEnv}.

(** "output file" *)
Definition check_output (outputFilePath : string) : M CliState CliError unit :=
  match os_Stat outputFilePath with
  | StatError err => throw (ErrOs err)
  | StatInfo true => throw (ErrOutputIsDirectory outputFilePath)
  | _ => ret tt
  end.

(** "attachments dir" *)
Definition check_attachments_dir (skipAttachments : bool) (attachmentsDir : string)
    : M CliState CliError unit :=
  if negb skipAttachments then
    match os_Stat attachmentsDir with
    | StatNotExist =>
      match os_Mkdir attachmentsDir with
      | Some createErr => throw (ErrOs createErr)
      | None =>
        modify (λ s, mkCliState (cli_world s) (cli_level s) (cli_made s ++ [attachmentsDir])
                       (cli_exported s))
      end
    | StatError err => throw (ErrOs err)
    | StatInfo isDir => if negb isDir then throw (ErrNotDirectory attachmentsDir) else ret tt
    end
  else ret tt.

(** "var redisConfig *slack.RedisConfig" and the configuration handed to
    [Transform] *)
Definition redis_config (fl : Flags) : option RedisConfig :=
  if bool_decide (0 < String.length (fl_redis_endpoint fl))
  then Some (mkRedisConfig (fl_redis_endpoint fl) (fl_redis_login fl) (fl_redis_password fl))
  else None.

Definition transform_config (fl : Flags) : TransformConfig :=
  mkTransformConfig (fl_attachments_dir fl) (fl_skip_attachments fl)
    (fl_discard_invalid_props fl) (fl_auth_data_as_email fl) (fl_auth_service fl)
    (fl_import_workflow_messages fl) (fl_skip_posts fl) (fl_skip_channels fl)
    (redis_config fl).

(** [Transform] on the world of the transformer; its error is returned. *)
Definition run_Transform (cfg : TransformConfig) (slackExport : SlackExport)
    : M CliState CliError unit :=
  λ s, match Transform cfg slackExport (cli_world s) with
       | (Ok tt, w) => (Ok tt, set_cli_world (λ _, w) s)
       | (Err e, w) => (Err (ErrTransform e), set_cli_world (λ _, w) s)
       end.

(** [slackTransformer.Export(outputFilePath)]: what is exported is the
    posts of the transformer, resolved. *)
Definition run_Export (outputFilePath : string) : M CliState CliError unit :=
  λ s, let w := cli_world s in
       match Export (w_Intermediate w) (w_heap w) outputFilePath with
       | Some err => (Err (ErrExport err), s)
       | None =>
         (Ok tt, mkCliState w (cli_level s) (cli_made s)
                   (cli_exported s ++ [(outputFilePath, world_posts w)]))
       end.

(** The command from the parsed archive on: lines 117-158. *)
Definition transform_archive (fl : Flags) (skipConvertPosts : bool)
    (zipReader : gmap string ZipFile) : M CliState CliError unit :=
  modify (λ s, mkCliState (cli_world s) (if fl_debug fl then DebugLevel else WarnLevel)
                 (cli_made s) (cli_exported s)) ;;
  match ParseSlackExportFile zipReader skipConvertPosts with
  | Err err => throw (ErrParse err)
  | Ok slackExport =>
    run_Transform (transform_config fl) slackExport ;;
    run_Export (fl_output fl) ;;
    modify (set_cli_world (set_w_Logger (λ l, l ++ [InfoTransformationSucceeded])))
  end.

Definition transformSlackCmdF (fl : Flags) : M CliState CliError unit :=
  let skipConvertPosts := fl_skip_convert_posts fl || fl_skip_posts fl in
  check_output (fl_output fl) ;;
  check_attachments_dir (fl_skip_attachments fl) (fl_attachments_dir fl) ;;
  match os_Open (fl_file fl) with
  | Some err => throw (ErrOs err)
  | None =>
    match file_Stat (fl_file fl) with
    | Err err => throw (ErrOs err)
    | Ok size =>
      match zip_NewReader (fl_file fl) size with
      | Err err => throw (ErrOs err)
      | Ok None => ret tt
      | Ok (Some zipReader) => transform_archive fl skipConvertPosts zipReader
      end
    end
  end.
End cli.

(** What the command relies on: a slice of Go has fewer than 2^63
    elements, so the channels that the parser returns do. *)
Class CliEnvLaws `{CliEnv} : Prop := {
  ParseSlackExportFile_bounded zipReader skipConvertPosts slackExport :
    ParseSlackExportFile zipReader skipConvertPosts = Ok slackExport →
    Forall (λ entry : string * list SlackPost, Z.of_nat (length entry.2) < 2 ^ 64)%Z
      (se_Posts slackExport);
}.

(** ** Invariants of the command

    [cli_inv exported]: the heap and the backend of the transformer are
    well formed and the files exported are [exported].  [cli_failed]: the
    postcondition of a run that returns an error. *)
Definition cli_inv (exported : list (string * list (option PostTree))) (s : CliState) : Prop :=
  on_store world_ok (cli_world s) ∧ cli_exported s = exported.

Definition cli_failed `{Env} (fl : Flags) (exported : list (string * list (option PostTree)))
    (e : CliError) (s : CliState) : Prop :=
  cli_inv exported s ∧ ∀ c, e = ErrTransform c → redis_refused (transform_config fl) c.

(** The checks that precede the transformation pass. *)
Definition checks_pass `{CliEnv} (fl : Flags) : Prop :=
  (os_Stat (fl_output fl) = StatNotExist ∨ os_Stat (fl_output fl) = StatInfo false) ∧
  (fl_skip_attachments fl = true ∨
   (os_Stat (fl_attachments_dir fl) = StatNotExist ∧ os_Mkdir (fl_attachments_dir fl) = None) ∨
   os_Stat (fl_attachments_dir fl) = StatInfo true) ∧
  os_Open (fl_file fl) = None.

(** The flags with conversion of the posts switched off. *)
Definition set_skip_convert_posts (fl : Flags) : Flags :=
  mkFlags (fl_team fl) (fl_file fl) (fl_output fl) (fl_attachments_dir fl) true
    (fl_skip_attachments fl) (fl_discard_invalid_props fl) (fl_debug fl)
    (fl_auth_data_as_email fl) (fl_auth_service fl) (fl_redis_endpoint fl)
    (fl_redis_login fl) (fl_redis_password fl) (fl_import_workflow_messages fl)
    (fl_skip_posts fl) (fl_skip_channels fl).

(** ** An environment to run the command in

    No file exists but the archive, every call succeeds, and the parser
    returns the export of the examples. *)
Definition example_cli_env : CliEnv := {|
  os_Stat _ := StatNotExist;
  os_Mkdir _ := None;
  os_Open _ := None;
  file_Stat _ := Ok 1024%Z;
  zip_NewReader _ _ := Ok (Some ∅);
  ParseSlackExportFile _ _ := Ok example_full_export;
  Export _ _ _ := None;
|}.

(** The same with an archive that has no files. *)
Definition empty_archive_env : CliEnv := {|
  os_Stat _ := StatNotExist;
  os_Mkdir _ := None;
  os_Open _ := None;
  file_Stat _ := Ok 22%Z;
  zip_NewReader _ _ := Ok None;
  ParseSlackExportFile _ _ := Ok example_full_export;
  Export _ _ _ := None;
|}.

(** The same where the output path is a directory. *)
Definition directory_env : CliEnv := {|
  os_Stat _ := StatInfo true;
  os_Mkdir _ := None;
  os_Open _ := None;
  file_Stat _ := Ok 1024%Z;
  zip_NewReader _ _ := Ok (Some ∅);
  ParseSlackExportFile _ _ := Ok example_full_export;
  Export _ _ _ := None;
|}.

Definition example_flags : Flags := default_flags "team" "export.zip".

(** ** Rules of the steps of the command *)
Section cli_rules.
Context `{Env, !EnvLaws, CliEnv, !CliEnvLaws}.
Implicit Types (fl : Flags) (s : CliState)
  (exported : list (string * list (option PostTree))).

Lemma triple_check_output fl exported outputFilePath :
  triple (cli_inv exported) (check_output outputFilePath)
    (λ _, cli_inv exported) (cli_failed fl exported).
Proof.
  unfold check_output. intros s Hs.
  destruct (os_Stat outputFilePath) as [|err|[]]; simpl; done || by split.
Qed.

Lemma triple_check_attachments_dir fl exported skipAttachments attachmentsDir :
  triple (cli_inv exported) (check_attachments_dir skipAttachments attachmentsDir)
    (λ _, cli_inv exported) (cli_failed fl exported).
Proof.
  unfold check_attachments_dir. intros s Hs. destruct skipAttachments; simpl; [done|].
  destruct (os_Stat attachmentsDir) as [|err|[]]; simpl; try (done || by split).
  destruct (os_Mkdir attachmentsDir); simpl; done || by split.
Qed.

(** [Transform] under the command: the triple of [Transform] lifted to the
    state of the command. *)
Lemma triple_run_Transform fl exported slackExport :
  Forall (λ entry : string * list SlackPost, Z.of_nat (length entry.2) < 2 ^ 64)%Z
    (se_Posts slackExport) →
  triple (cli_inv exported) (run_Transform (transform_config fl) slackExport)
    (λ _, cli_inv exported) (cli_failed fl exported).
Proof.
  intros Hlen s [Hs Hex]. unfold run_Transform.
  pose proof (triple_Transform (transform_config fl) slackExport Hlen _ Hs) as Hrun.
  destruct (Transform _ slackExport (cli_world s)) as [[[]|e] w']; [done|].
  destruct Hrun as [He Hw']. split; [done|]. by intros c [= <-].
Qed.

Lemma triple_run_Export fl exported outputFilePath :
  triple (cli_inv exported) (run_Export outputFilePath)
    (λ _ s, cli_inv (exported ++ [(outputFilePath, world_posts (cli_world s))]) s)
    (cli_failed fl exported).
Proof.
  intros s [Hs Hex]. unfold run_Export. cbn zeta.
  destruct (Export _ _ outputFilePath); [by split|].
  split; [done|]. simpl. by rewrite Hex.
Qed.

Lemma triple_transform_archive fl exported skipConvertPosts zipReader :
  triple (cli_inv exported) (transform_archive fl skipConvertPosts zipReader)
    (λ _ s, ∃ posts, cli_inv (exported ++ [(fl_output fl, posts)]) s)
    (cli_failed fl exported).
Proof.
  unfold transform_archive. eapply (triple_bind _ _ _ (λ _, cli_inv exported)); [by intros ? ?|].
  intros []. destruct (ParseSlackExportFile _ _) as [slackExport|err] eqn:Hparse.
  2:{ intros ? ?. by split. }
  eapply triple_bind;
    [by eapply triple_run_Transform, ParseSlackExportFile_bounded|].
  intros []. eapply triple_bind; [apply triple_run_Export|].
  intros [] ? ?. simpl. eauto.
Qed.

Lemma triple_transformSlackCmdF fl exported :
  triple (cli_inv exported) (transformSlackCmdF fl)
    (λ _ s, cli_inv exported s ∨ ∃ posts, cli_inv (exported ++ [(fl_output fl, posts)]) s)
    (cli_failed fl exported).
Proof.
  unfold transformSlackCmdF. cbn zeta.
  eapply triple_bind; [apply triple_check_output|].
  intros []. eapply triple_bind; [apply triple_check_attachments_dir|].
  intros []. destruct (os_Open _); [by intros ? ?; split|].
  destruct (file_Stat _) as [size|]; [|by intros ? ?; split].
  destruct (zip_NewReader _ _) as [[zipReader|]|]; [| |by intros ? ?; split].
  - eapply triple_post; [apply triple_transform_archive|]. auto.
  - apply triple_ret_pre. auto.
Qed.
End cli_rules.

(** ** What the steps compute when the calls succeed *)
Section cli_runs.
Context `{Env, !EnvLaws, CliEnv, !CliEnvLaws}.
Implicit Types (fl : Flags) (s : CliState).

(** The state after the checks: at most the attachments directory is
    made. *)
Definition after_checks fl s : CliState :=
  if negb (fl_skip_attachments fl) then
    match os_Stat (fl_attachments_dir fl) with
    | StatNotExist =>
      mkCliState (cli_world s) (cli_level s) (cli_made s ++ [fl_attachments_dir fl])
        (cli_exported s)
    | _ => s
    end
  else s.

Lemma checks_pass_run {A} fl s (k : M CliState CliError A) :
  checks_pass fl →
  (check_output (fl_output fl) ;;
   check_attachments_dir (fl_skip_attachments fl) (fl_attachments_dir fl) ;; k) s
  = k (after_checks fl s).
Proof.
  intros (Hout & Hdir & _).
  assert (check_output (fl_output fl) s = (Ok tt, s)) as Hcheck.
  { unfold check_output. by destruct Hout as [-> | ->]. }
  unfold bind at 1. rewrite Hcheck. unfold bind, check_attachments_dir, after_checks.
  destruct Hdir as [-> | [[-> ->] | ->]]; try done.
  all: by destruct (fl_skip_attachments fl).
Qed.

Lemma run_Transform_Ok fl slackExport s :
  heap_ok (w_heap (cli_world s)) → backend_ok (w_backend (cli_world s)) →
  Forall (λ entry : string * list SlackPost, Z.of_nat (length entry.2) < 2 ^ 64)%Z
    (se_Posts slackExport) →
  (∀ c, redis_config fl = Some c → redis_connect c = true) →
  run_Transform (transform_config fl) slackExport s
  = (Ok tt, set_cli_world (λ _, (Transform (transform_config fl) slackExport (cli_world s)).2) s).
Proof.
  intros Hh Hb Hlen Hredis. unfold run_Transform.
  pose proof (triple_Transform (transform_config fl) slackExport Hlen _ (conj Hh Hb)) as Hrun.
  destruct (Transform _ slackExport (cli_world s)) as [[[]|e] w']; [done|].
  destruct Hrun as [(c & _ & Hc & Hrefused) _]. apply Hredis in Hc. congruence.
Qed.

Lemma transform_archive_run fl s skipConvertPosts zipReader slackExport :
  heap_ok (w_heap (cli_world s)) → backend_ok (w_backend (cli_world s)) →
  ParseSlackExportFile zipReader skipConvertPosts = Ok slackExport →
  (∀ c, redis_config fl = Some c → redis_connect c = true) →
  (∀ i h, Export i h (fl_output fl) = None) →
  transform_archive fl skipConvertPosts zipReader s
  = (Ok tt,
     mkCliState
       (set_w_Logger (λ l, l ++ [InfoTransformationSucceeded])
          (Transform (transform_config fl) slackExport (cli_world s)).2)
       (if fl_debug fl then DebugLevel else WarnLevel) (cli_made s)
       (cli_exported s ++
          [(fl_output fl,
            world_posts (Transform (transform_config fl) slackExport (cli_world s)).2)])).
Proof.
  intros Hh Hb Hparse Hredis Hexport. unfold transform_archive. rewrite Hparse.
  unfold bind at 1, modify at 1. unfold bind at 1.
  match goal with
  | |- context [run_Transform _ _ ?s1] =>
    rewrite (run_Transform_Ok fl slackExport s1 Hh Hb) by eauto using ParseSlackExportFile_bounded
  end.
  unfold bind, run_Export. cbn zeta. cbn [cli_world set_cli_world].
  by rewrite Hexport.
Qed.

Lemma after_checks_world fl s : cli_world (after_checks fl s) = cli_world s.
Proof.
  unfold after_checks. destruct (negb _); [|done]. by destruct (os_Stat _).
Qed.

Lemma after_checks_exported fl s : cli_exported (after_checks fl s) = cli_exported s.
Proof.
  unfold after_checks. destruct (negb _); [|done]. by destruct (os_Stat _).
Qed.
End cli_runs.

#[export] Instance example_cli_env_laws : @CliEnvLaws example_cli_env.
Proof. split. intros ? ? ? [= <-]. apply example_full_export_bounded. Qed.

#[export] Instance empty_archive_env_laws : @CliEnvLaws empty_archive_env.
Proof. split. intros ? ? ? [= <-]. apply example_full_export_bounded. Qed.

Lemma new_state_ok backend :
  backend_ok backend →
  heap_ok (w_heap (cli_world (new_state backend))) ∧
  backend_ok (w_backend (cli_world (new_state backend))).
Proof. split; simpl; auto with mm. Qed.

Lemma example_checks_pass : @checks_pass example_cli_env example_flags.
Proof. split_and!; simpl; auto. Qed.

Lemma empty_archive_checks_pass : @checks_pass empty_archive_env example_flags.
Proof. split_and!; simpl; auto. Qed.

(** ** The properties of the command *)

(** C4. The command is safe: from a well-formed heap and backend, whatever
    the flags, the files and the archive, it leaves the heap and the
    backend well formed; when it returns an error nothing has been
    exported, and the only error that [Transform] contributes is the
    refused connection to the cache backend that the flags name. *)
Theorem transformSlackCmdF_safe `{Env, !EnvLaws, CliEnv, !CliEnvLaws} (fl : Flags)
    (s : CliState) :
  heap_ok (w_heap (cli_world s)) → backend_ok (w_backend (cli_world s)) →
  heap_ok (w_heap (cli_world (transformSlackCmdF fl s).2)) ∧
  backend_ok (w_backend (cli_world (transformSlackCmdF fl s).2)) ∧
  ∀ e, (transformSlackCmdF fl s).1 = Err e →
       cli_exported (transformSlackCmdF fl s).2 = cli_exported s ∧
       ∀ c, e = ErrTransform c → redis_refused (transform_config fl) c.
Proof.
  intros Hh Hb.
  pose proof (triple_transformSlackCmdF fl (cli_exported s) s (conj (conj Hh Hb) eq_refl))
    as Hrun.
  destruct (transformSlackCmdF fl s) as [[[]|e] s']; simpl.
  - destruct Hrun as [[[] _]|(posts & [] & _)]; done.
  - destruct Hrun as [[[] ?] ?]. split_and!; [done..|]. by intros ? [= <-].
Qed.

Lemma transformSlackCmdF_safe_witness :
  heap_ok (w_heap (cli_world (@transformSlackCmdF example_env example_cli_env
                                example_flags (new_state ∅)).2)) ∧
  backend_ok (w_backend (cli_world (@transformSlackCmdF example_env example_cli_env
                                      example_flags (new_state ∅)).2)) ∧
  ∀ e, (@transformSlackCmdF example_env example_cli_env example_flags (new_state ∅)).1 = Err e →
       cli_exported (@transformSlackCmdF example_env example_cli_env example_flags
                       (new_state ∅)).2 = cli_exported (new_state ∅) ∧
       ∀ c, e = ErrTransform c → @redis_refused example_env (transform_config example_flags) c.
Proof.
  apply (@transformSlackCmdF_safe example_env _ example_cli_env _);
    apply new_state_ok, backend_ok_empty.
Defined.

(** C14. The command succeeds when every call does: if the checks of the
    paths pass, the archive opens and has files, the parser returns an
    export, the cache backend (if the flags name one) accepts the
    connection and the exporter succeeds, then the command returns [nil],
    the world of the transformer is that of [Transform] on the parsed
    export with the final log line added, and exactly its posts are
    exported to the output path. *)
Theorem transformSlackCmdF_succeeds `{Env, !EnvLaws, CliEnv, !CliEnvLaws} (fl : Flags)
    (s : CliState) (size : Z) (zipReader : gmap string ZipFile) (slackExport : SlackExport) :
  heap_ok (w_heap (cli_world s)) → backend_ok (w_backend (cli_world s)) →
  checks_pass fl →
  file_Stat (fl_file fl) = Ok size →
  zip_NewReader (fl_file fl) size = Ok (Some zipReader) →
  ParseSlackExportFile zipReader (fl_skip_convert_posts fl || fl_skip_posts fl) = Ok slackExport →
  (∀ c, redis_config fl = Some c → redis_connect c = true) →
  (∀ i h, Export i h (fl_output fl) = None) →
  (transformSlackCmdF fl s).1 = Ok tt ∧
  cli_world (transformSlackCmdF fl s).2
    = set_w_Logger (λ l, l ++ [InfoTransformationSucceeded])
        (Transform (transform_config fl) slackExport (cli_world s)).2 ∧
  cli_exported (transformSlackCmdF fl s).2
    = cli_exported s ++
        [(fl_output fl,
          world_posts (Transform (transform_config fl) slackExport (cli_world s)).2)].
Proof.
  intros Hh Hb Hchecks Hstat Hzip Hparse Hredis Hexport.
  unfold transformSlackCmdF. cbn zeta. rewrite checks_pass_run by done.
  destruct Hchecks as (_ & _ & ->). rewrite Hstat, Hzip.
  erewrite transform_archive_run by (by rewrite ?after_checks_world).
  cbn [fst snd cli_world cli_exported].
  by rewrite after_checks_world, after_checks_exported.
Qed.

Lemma transformSlackCmdF_succeeds_witness :
  (@transformSlackCmdF example_env example_cli_env example_flags (new_state ∅)).1 = Ok tt ∧
  cli_world (@transformSlackCmdF example_env example_cli_env example_flags (new_state ∅)).2
    = set_w_Logger (λ l, l ++ [InfoTransformationSucceeded])
        (@Transform example_env (transform_config example_flags) example_full_export
           (cli_world (new_state ∅))).2 ∧
  cli_exported (@transformSlackCmdF example_env example_cli_env example_flags (new_state ∅)).2
    = cli_exported (new_state ∅) ++
        [(fl_output example_flags,
          world_posts (@Transform example_env (transform_config example_flags)
                         example_full_export (cli_world (new_state ∅))).2)].
Proof.
  apply (@transformSlackCmdF_succeeds example_env _ example_cli_env _ example_flags
           (new_state ∅) 1024%Z ∅ example_full_export);
    try done; try apply new_state_ok, backend_ok_empty; apply example_checks_pass.
Defined.

(** C25. An archive without files ends the command silently: when
    [zip.NewReader] succeeds and the list of files is nil, the command
    returns [nil] although nothing was parsed, transformed or exported,
    and the final line of the log is not written. *)
Theorem transformSlackCmdF_empty_archive `{Env, CliEnv} (fl : Flags) (s : CliState)
    (size : Z) :
  checks_pass fl →
  file_Stat (fl_file fl) = Ok size →
  zip_NewReader (fl_file fl) size = Ok None →
  (transformSlackCmdF fl s).1 = Ok tt ∧
  cli_world (transformSlackCmdF fl s).2 = cli_world s ∧
  cli_exported (transformSlackCmdF fl s).2 = cli_exported s.
Proof.
  intros Hchecks Hstat Hzip.
  unfold transformSlackCmdF. cbn zeta. rewrite checks_pass_run by done.
  destruct Hchecks as (_ & _ & ->). rewrite Hstat, Hzip. simpl.
  by rewrite after_checks_world, after_checks_exported.
Qed.

Lemma transformSlackCmdF_empty_archive_witness :
  (@transformSlackCmdF example_env empty_archive_env example_flags (new_state ∅)).1 = Ok tt ∧
  cli_world (@transformSlackCmdF example_env empty_archive_env example_flags (new_state ∅)).2
    = cli_world (new_state ∅) ∧
  cli_exported (@transformSlackCmdF example_env empty_archive_env example_flags
                  (new_state ∅)).2 = cli_exported (new_state ∅).
Proof.
  apply (@transformSlackCmdF_empty_archive example_env empty_archive_env example_flags
           (new_state ∅) 22%Z); [apply empty_archive_checks_pass|done..].
Defined.

(** C38. An output path that is a directory is refused before anything is
    done: the command returns the error and the state is unchanged (no
    directory is made, the archive is not opened). *)
Theorem transformSlackCmdF_output_is_directory `{Env, CliEnv} (fl : Flags) (s : CliState) :
  os_Stat (fl_output fl) = StatInfo true →
  transformSlackCmdF fl s = (Err (ErrOutputIsDirectory (fl_output fl)), s).
Proof.
  intros Hstat. unfold transformSlackCmdF, check_output. cbn zeta.
  unfold bind at 1. by rewrite Hstat.
Qed.

Lemma transformSlackCmdF_output_is_directory_witness :
  @transformSlackCmdF example_env directory_env example_flags (new_state ∅)
  = (Err (ErrOutputIsDirectory (fl_output example_flags)), new_state ∅).
Proof.
  by apply (@transformSlackCmdF_output_is_directory example_env directory_env).
Defined.

(** C39. [--skip-posts] implies [--skip-convert-posts]: with the first flag
    set the command behaves as if the second were set too. *)
Theorem transformSlackCmdF_skip_posts `{Env, CliEnv} (fl : Flags) (s : CliState) :
  fl_skip_posts fl = true →
  transformSlackCmdF fl s = transformSlackCmdF (set_skip_convert_posts fl) s.
Proof.
  intros Hskip. unfold transformSlackCmdF. destruct fl. simpl in *. subst.
  by rewrite orb_true_r.
Qed.

Lemma transformSlackCmdF_skip_posts_witness :
  @transformSlackCmdF example_env example_cli_env
    (mkFlags "team" "export.zip" "out.jsonl" "files" false true false false false
       EmptyString EmptyString EmptyString EmptyString false true false) (new_state ∅)
  = @transformSlackCmdF example_env example_cli_env
      (set_skip_convert_posts
         (mkFlags "team" "export.zip" "out.jsonl" "files" false true false false false
            EmptyString EmptyString EmptyString EmptyString false true false)) (new_state ∅).
Proof.
  by apply (@transformSlackCmdF_skip_posts example_env example_cli_env).
Defined.

(** C40. The cache backend is selected by the endpoint alone: the
    configuration handed to [Transform] names a backend exactly when
    [--redis-endpoint] is not empty, so a login or a password without an
    endpoint is ignored and the in-memory store is used. *)
Theorem redis_config_endpoint (fl : Flags) :
  cfg_RedisConfig (transform_config fl) = None ↔ fl_redis_endpoint fl = EmptyString.
Proof.
  unfold transform_config, redis_config. cbn [cfg_RedisConfig].
  destruct (fl_redis_endpoint fl); [done|].
  rewrite bool_decide_eq_true_2 by (simpl; lia). done.
Qed.
